(** * Caelis developer tooling: [scripts/common/format.py] and
      [scripts/common/analyze.py]

    A shallow embedding of the two orchestration scripts together with the
    part of the Python runtime they rely on (string tests, [os.path],
    [os.walk], [subprocess.run], [print]), followed by the properties the
    specification states about them.

    Python strings are modelled as [string] (sequences of 8-bit characters,
    i.e. the UTF-8 encoding of the text); integers as [Z]; file contents as
    [list byte]. *)

From Stdlib Require Import String Ascii List ZArith Bool Arith Lia.
From Stdlib Require Import Strings.Byte DecimalString.
Import ListNotations.

Local Open Scope string_scope.
Local Open Scope list_scope.

(* ===================================================================== *)
(** * Python built-ins used by the scripts                                *)
(* ===================================================================== *)

Module Py.

(** [bool(s)] for a [str]: the empty string is falsy. *)
Definition truthy (s : string) : bool :=
  match s with
  | EmptyString => false
  | String _ _ => true
  end.

(** [s.startswith(p)]. *)
Definition startswith (s p : string) : bool := String.prefix p s.

(** [s.endswith(suf)]: the last [len(suf)] characters of [s] are [suf]. *)
Definition endswith (s suf : string) : bool :=
  let n := String.length s in
  let m := String.length suf in
  if Nat.leb m n then String.eqb (String.substring (n - m) m s) suf else false.

(** [needle in hay] for two [str]. *)
Fixpoint contains (needle hay : string) : bool :=
  if String.prefix needle hay then true
  else match hay with
       | EmptyString => false
       | String _ hay' => contains needle hay'
       end.

(** [c * n] for a one-character string [c]. *)
Fixpoint repeat_char (c : ascii) (n : nat) : string :=
  match n with
  | O => EmptyString
  | S n' => String c (repeat_char c n')
  end.

(** [str(n)] for a non-negative [int] such as [len(xs)]. *)
Definition str_of_nat (n : nat) : string :=
  NilEmpty.string_of_uint (Nat.to_uint n).

(** [c.isspace()], the characters [str.strip()] removes.  A character of a
    [string] stands for the code point of its number, so these are the
    white space code points below 256: TAB, LF, VT, FF, CR, FS, GS, RS, US,
    space, NEL (U+0085) and the no-break space (U+00A0). *)
Definition isspace (c : ascii) : bool :=
  let n := nat_of_ascii c in
  (Nat.leb 9 n && Nat.leb n 13) || (Nat.leb 28 n && Nat.leb n 32)
  || Nat.eqb n 133 || Nat.eqb n 160.

Fixpoint lstrip (s : string) : string :=
  match s with
  | EmptyString => EmptyString
  | String c s' => if isspace c then lstrip s' else s
  end.

Fixpoint rstrip (s : string) : string :=
  match s with
  | EmptyString => EmptyString
  | String c s' =>
      match rstrip s' with
      | EmptyString => if isspace c then EmptyString else String c EmptyString
      | r => String c r
      end
  end.

(** [s.strip()]. *)
Definition strip (s : string) : string := rstrip (lstrip s).

(** [x in xs] for a list of [str]. *)
Definition mem (x : string) (xs : list string) : bool :=
  existsb (String.eqb x) xs.

(** [sep.join(xs)]. *)
Fixpoint str_join (sep : string) (xs : list string) : string :=
  match xs with
  | [] => ""
  | [x] => x
  | x :: rest => x ++ sep ++ str_join sep rest
  end.

End Py.

(* ===================================================================== *)
(** * The file system and [os.path]                                       *)
(* ===================================================================== *)

(** A directory entry is a regular file with its bytes, a directory with
    its named entries in directory-iteration order, or a symbolic link with
    the path it holds, which may name nothing. *)
#[local] Unset Elimination Schemes.
Inductive node : Type :=
| File (content : list byte)
| Dir (entries : list (string * node))
| Link (target : string).
#[local] Set Elimination Schemes.

(** The file system as a process sees it: the tree below [/] and the
    current working directory as the list of names leading to it. *)
Record FS : Type := mkFS {
  root_entries : list (string * node);
  cwd : list string
}.

(** The entry is a directory itself ([is_dir(follow_symlinks=False)]). *)
Definition is_dir (n : node) : bool :=
  match n with Dir _ => true | File _ | Link _ => false end.

(** The entry is a symbolic link ([os.path.islink] of its path). *)
Definition is_link (n : node) : bool :=
  match n with Link _ => true | File _ | Dir _ => false end.

Fixpoint lookup_entry (name : string) (es : list (string * node)) : option node :=
  match es with
  | [] => None
  | (k, n) :: es' => if String.eqb name k then Some n else lookup_entry name es'
  end.

(** The node reached from [n] by following the names in [pos]. *)
Fixpoint node_at (n : node) (pos : list string) : option node :=
  match pos with
  | [] => Some n
  | c :: pos' =>
      match n with
      | Dir es =>
          match lookup_entry c es with
          | Some n' => node_at n' pos'
          | None => None
          end
      | File _ | Link _ => None
      end
  end.

Module OsPath.

Definition sep : ascii := "/"%char.

Fixpoint last_char (s : string) : option ascii :=
    match s with
    | EmptyString => None
    | String c EmptyString => Some c
    | String _ s' => last_char s'
    end.

Definition ends_with_sep (s : string) : bool :=
    match last_char s with
    | Some c => Ascii.eqb c sep
    | None => false
    end.

Definition isabs (s : string) : bool :=
    match s with
    | String c _ => Ascii.eqb c sep
    | EmptyString => false
    end.

  (** [os.path.join(a, b)] (posixpath, two arguments). *)
Definition join (a b : string) : string :=
    if isabs b then b
    else if (negb (Py.truthy a)) || ends_with_sep a then a ++ b
    else a ++ "/" ++ b.

  (** [s.split('/')]. *)
Fixpoint split_sep (s : string) : list string :=
    match s with
    | EmptyString => [EmptyString]
    | String c s' =>
        if Ascii.eqb c sep then EmptyString :: split_sep s'
        else match split_sep s' with
             | [] => [String c EmptyString]
             | h :: t => String c h :: t
             end
    end.

  (** The number of symbolic links the system follows while it resolves
      one path (40 on Linux); one more and the resolution fails with
      [ELOOP], which [os.path.exists] and [os.walk] take for "not there". *)
Definition max_links : nat := 40.

  (** Path resolution as [stat] does it, links followed: [pos] is the
      position reached so far (names from [/], no link among them),
      [comps] the components still to go.  Every component is looked up in
      a directory; empty components and [.] stay, [..] goes to the parent
      (the parent of [/] is [/]); at a symbolic link the resolution goes on
      with the components of its target, from [/] when the target is
      absolute and from the directory of the link otherwise.  A link with
      an empty target names nothing. *)
Fixpoint resolve_comps (rootn : node) (links_left : nat)
    : list string -> list string -> option (list string) :=
    fix go (pos comps : list string) {struct comps} : option (list string) :=
      match comps with
      | [] => Some pos
      | comp :: rest =>
          match node_at rootn pos with
          | Some (Dir es) =>
              if String.eqb comp "" || String.eqb comp "." then go pos rest
              else if String.eqb comp ".." then go (removelast pos) rest
              else match lookup_entry comp es with
                   | Some (Link target) =>
                       match links_left with
                       | S links_left' =>
                           if Py.truthy target
                           then resolve_comps rootn links_left'
                                  (if isabs target then [] else pos)
                                  (split_sep target ++ rest)
                           else None
                       | O => None
                       end
                   | Some _ => go (pos ++ [comp]) rest
                   | None => None
                   end
          | _ => None
          end
      end.

  (** The position a path names, if it names an existing entry. *)
Definition resolve_pos (fs : FS) (path : string) : option (list string) :=
    if Py.truthy path then
      resolve_comps (Dir (root_entries fs)) max_links
                    (if isabs path then [] else cwd fs) (split_sep path)
    else None.

  (** The file or directory a path names, links followed. *)
Definition resolve (fs : FS) (path : string) : option node :=
    match resolve_pos fs path with
    | Some p => node_at (Dir (root_entries fs)) p
    | None => None
    end.

  (** [os.path.exists(path)]: false for a link that leads nowhere. *)
Definition exists_ (fs : FS) (path : string) : bool :=
    match resolve fs path with Some _ => true | None => false end.

  (** [os.path.isdir(path)]. *)
Definition isdir (fs : FS) (path : string) : bool :=
    match resolve fs path with Some (Dir _) => true | _ => false end.

  (** [os.path.normpath(path)] (posixpath). *)
Definition norm_step (initial_slashes : nat) (new_comps : list string)
             (comp : string) : list string :=
    if String.eqb comp "" || String.eqb comp "." then new_comps
    else if negb (String.eqb comp "..")
            || (Nat.eqb initial_slashes 0 && Nat.eqb (length new_comps) 0)
            || (match rev new_comps with
                | l :: _ => String.eqb l ".."
                | [] => false
                end)
         then new_comps ++ [comp]
         else removelast new_comps.

Definition normpath (path : string) : string :=
    if Py.truthy path then
      let initial_slashes :=
        if Py.startswith path "/" then
          if Py.startswith path "//" && negb (Py.startswith path "///")
          then 2 else 1
        else 0 in
      let comps := fold_left (norm_step initial_slashes) (split_sep path) [] in
      let p := String.append (Py.repeat_char sep initial_slashes)
                             (Py.str_join "/" comps) in
      if Py.truthy p then p else "."
    else ".".

  (** [os.getcwd()]. *)
Definition getcwd (fs : FS) : string := "/" ++ Py.str_join "/" (cwd fs).

  (** [os.path.abspath(path)]. *)
Definition abspath (fs : FS) (path : string) : string :=
    normpath (if isabs path then path else join (getcwd fs) path).

End OsPath.

(* ===================================================================== *)
(** * [os.walk]                                                           *)
(* ===================================================================== *)

(** How [os.walk] sorts an entry of the directory at path [top]: it asks
    [entry.is_dir()], which follows a symbolic link, so a link is listed
    among the directories when its path names a directory, and among the
    files otherwise (a link that leads to a file or nowhere). *)
Definition entry_is_dir (fs : FS) (top : string) (e : string * node) : bool :=
  match snd e with
  | Dir _ => true
  | File _ => false
  | Link _ => OsPath.isdir fs (OsPath.join top (fst e))
  end.

Definition subdir_names (fs : FS) (top : string) (es : list (string * node))
  : list string :=
  map fst (filter (entry_is_dir fs top) es).

Definition file_names (fs : FS) (top : string) (es : list (string * node))
  : list string :=
  map fst (filter (fun e => negb (entry_is_dir fs top e)) es).

Section Walk.

(** The state threaded through the [for root, dirs, files in os.walk(..)]
    loop. *)
Context {A : Type}.

(** The loop body.  It receives [root], [dirs] and [files] and returns the
    list [dirs] as the body left it (the body may assign [dirs[:]], and
    the walk reads that very list when it resumes) with the new state. *)
Variable body : string -> list string -> list string -> A -> list string * A.

Variable fs : FS.

(** Top-down walk of the directory [n] found at path [top]: the body runs
    on the directory first, then the walk descends, in iteration order,
    into the sub-directories whose names are still in [dirs]; it does not
    descend into symbolic links ([followlinks] is false). *)
Fixpoint walk_node (top : string) (n : node) (acc : A) : A :=
  match n with
  | File _ | Link _ => acc
  | Dir es =>
      let '(dirs', acc1) :=
        body top (subdir_names fs top es) (file_names fs top es) acc in
      (fix descend (l : list (string * node)) (acc : A) : A :=
         match l with
         | [] => acc
         | (name, c) :: l' =>
             match c with
             | Dir _ =>
                 if Py.mem name dirs'
                 then descend l' (walk_node (OsPath.join top name) c acc)
                 else descend l' acc
             | File _ | Link _ => descend l' acc
             end
         end) es acc1
  end.

(** [for root, dirs, files in os.walk(top): body].  A [top] that is not an
    existing directory yields nothing (scan errors are ignored by
    [os.walk]). *)
Definition os_walk (top : string) (acc : A) : A :=
  match OsPath.resolve fs top with
  | Some n => walk_node top n acc
  | None => acc
  end.

End Walk.

(* ===================================================================== *)
(** * Effects: console, child processes, exceptions                       *)
(* ===================================================================== *)

(** The exceptions [subprocess.run] can raise: the executable was not found,
    or any other [Exception] (permission denied, undecodable output, ...). *)
Inductive exn : Type :=
| FileNotFoundError (msg : string)
| OtherException (msg : string).

(** [str(e)]. *)
Definition exn_str (e : exn) : string :=
  match e with
  | FileNotFoundError m => m
  | OtherException m => m
  end.

Inductive outcome (A : Type) : Type :=
| Val (a : A)
| Raise (e : exn).
Arguments Val {A} a.
Arguments Raise {A} e.

(** What [subprocess.run(cmd, capture_output=True, text=True)] returns. *)
Record CompletedProcess : Type := mkCompleted {
  returncode : Z;
  stdout : string;
  stderr : string
}.

(** The state a run of a script acts on: the file system, the lines printed
    so far (one element per [print] call) and the argument vectors handed to
    [subprocess.run] so far, both oldest first. *)
Record World : Type := mkWorld {
  fs : FS;
  console : list string;
  spawned : list (list string)
}.

(** A computation that may print, spawn processes and raise. *)
Definition M (A : Type) : Type := World -> outcome A * World.

Definition ret {A} (a : A) : M A := fun w => (Val a, w).

Definition raise {A} (e : exn) : M A := fun w => (Raise e, w).

Definition bind {A B} (m : M A) (k : A -> M B) : M B :=
  fun w =>
    match m w with
    | (Val a, w') => k a w'
    | (Raise e, w') => (Raise e, w')
    end.

(** [try: m  except <handled by h>: ...]; the handler re-raises what its
    [except] clause does not match. *)
Definition try_except {A} (m : M A) (h : exn -> M A) : M A :=
  fun w =>
    match m w with
    | (Val a, w') => (Val a, w')
    | (Raise e, w') => h e w'
    end.

Declare Scope py_scope.
Delimit Scope py_scope with py.
Notation "x <- c1 ;; c2" := (bind c1 (fun x => c2))
  (at level 61, c1 at next level, right associativity) : py_scope.
Notation "c1 ;; c2" := (bind c1 (fun _ => c2))
  (at level 61, right associativity) : py_scope.
Local Open Scope py_scope.

(** [print(s)]. *)
Definition print (s : string) : M unit :=
  fun w => (Val tt, mkWorld (fs w) (console w ++ [s]) (spawned w)).

(** The file system as it is now. *)
Definition get_fs : M FS := fun w => (Val (fs w), w).

(** [for x in xs: body], with the local variables the body updates as [s]. *)
Fixpoint for_fold {A S : Type} (xs : list A) (s : S) (body : A -> S -> M S)
  : M S :=
  match xs with
  | [] => ret s
  | x :: xs' => s' <- body x s ;; for_fold xs' s' body
  end.

(** Line feed, and the separator line ["=" * 60]. *)
Definition nl : string := String (ascii_of_nat 10) EmptyString.
Definition rule60 : string := Py.repeat_char "="%char 60.

(** What the operating system does with a child process: given the argument
    vector and the file system, either the process cannot be started (an
    exception) or it runs to completion; either way the file system it
    leaves behind. *)
Definition process_model : Type :=
  list string -> FS -> outcome CompletedProcess * FS.

(** [subprocess.run(cmd, capture_output=True, text=True)]. *)
Definition subprocess_run (spawn : process_model) (cmd : list string)
  : M CompletedProcess :=
  fun w =>
    let '(r, fs') := spawn cmd (fs w) in
    (r, mkWorld fs' (console w) (spawned w ++ [cmd])).

(* ===================================================================== *)
(** * [scripts/common/format.py]                                          *)
(* ===================================================================== *)

Module Format.

Definition extensions : list string :=
    [".cpp"; ".c"; ".h"; ".hpp"; ".cc"; ".cxx"].

  (** The body of the walk loop of [find_source_files]: prune [dirs] in
      place, then append the matching files of this directory. *)
Definition visit (root : string) (dirs files : list string)
             (source_files : list string) : list string * list string :=
    (filter (fun d => negb (Py.mem d ["build"; "external"; ".git"])) dirs,
     source_files
       ++ map (OsPath.join root)
              (filter (fun file => existsb (Py.endswith file) extensions)
                      files)).

  (** [find_source_files(directory)]. *)
Definition find_source_files (fs : FS) (directory : string) : list string :=
    os_walk visit fs directory [].

  Section WithProcesses.

  Variable spawn : process_model.

  (** [check_clang_format()]. *)
Definition check_clang_format : M bool :=
    found <- try_except
               (result <- subprocess_run spawn ["clang-format"; "--version"] ;;
                if (returncode result =? 0)%Z
                then print ("Found clang-format: " ++ Py.strip (stdout result)) ;;
                     ret true
                else ret false)
               (fun e => match e with
                         | FileNotFoundError _ => ret false
                         | _ => raise e
                         end) ;;
    if found then ret true
    else
      print "ERROR: clang-format not found!" ;;
      print "Please install clang-format:" ;;
      print "  Windows: Install LLVM from https://llvm.org/builds/" ;;
      print "  Linux: sudo apt install clang-format (or equivalent)" ;;
      print "  macOS: brew install clang-format" ;;
      ret false.

  (** [format_file(file_path, dry_run)]. *)
Definition format_file (file_path : string) (dry_run : bool) : M bool :=
    try_except
      (if dry_run
       then result <- subprocess_run spawn
                        ["clang-format"; "--dry-run"; "--Werror"; file_path] ;;
            ret (negb (returncode result =? 0)%Z)
       else result <- subprocess_run spawn
                        ["clang-format"; "-i"; file_path] ;;
            ret (returncode result =? 0)%Z)
      (fun e =>
         print ("Error formatting " ++ file_path ++ ": " ++ exn_str e) ;;
         ret false).

  (** The loop of check mode: the files found to need formatting. *)
Definition check_loop (source_files : list string) : M (list string) :=
    for_fold source_files []
      (fun file_path files_needing_format =>
         needs <- format_file file_path true ;;
         if needs
         then print ("  NEEDS FORMATTING: " ++ file_path) ;;
              ret (files_needing_format ++ [file_path])
         else print ("  OK: " ++ file_path) ;;
              ret files_needing_format).

  (** The loop of apply mode: the number of files formatted. *)
Definition apply_loop (source_files : list string) : M nat :=
    for_fold source_files 0
      (fun file_path formatted_count =>
         ok <- format_file file_path false ;;
         if ok
         then print ("  FORMATTED: " ++ file_path) ;;
              ret (formatted_count + 1)
         else print ("  ERROR: " ++ file_path) ;;
              ret formatted_count).

  (** [main()], with the parsed arguments [args.check] and
      [args.directory]; the value is what [sys.exit] receives. *)
Definition main (check : bool) (directory : string) : M Z :=
    available <- check_clang_format ;;
    if negb available then ret 1%Z
    else
      fs0 <- get_fs ;;
      print ("Searching for source files in: " ++ OsPath.abspath fs0 directory) ;;
      let source_files := find_source_files fs0 directory in
      match source_files with
      | [] => print "No source files found." ;; ret 0%Z
      | _ :: _ =>
          print ("Found " ++ Py.str_of_nat (length source_files)
                          ++ " source files.") ;;
          if check then
            print "Checking formatting..." ;;
            files_needing_format <- check_loop source_files ;;
            match files_needing_format with
            | _ :: _ =>
                print (nl ++ Py.str_of_nat (length files_needing_format)
                          ++ " files need formatting.") ;;
                print "Run without --check to format them." ;;
                ret 1%Z
            | [] =>
                print (nl ++ "All files are properly formatted!") ;;
                ret 0%Z
            end
          else
            print "Formatting files..." ;;
            formatted_count <- apply_loop source_files ;;
            print (nl ++ "Formatted " ++ Py.str_of_nat formatted_count ++ "/"
                      ++ Py.str_of_nat (length source_files) ++ " files.") ;;
            ret 0%Z
      end.

  End WithProcesses.

End Format.

(* ===================================================================== *)
(** * [scripts/common/analyze.py]                                         *)
(* ===================================================================== *)

Module Analyze.

(** The values [argparse] admits for [--tool]. *)
Inductive tool_choice : Type := Cppcheck | ClangTidy | Iwyu | All.

Definition tool_eqb (a b : tool_choice) : bool :=
  match a, b with
  | Cppcheck, Cppcheck | ClangTidy, ClangTidy | Iwyu, Iwyu | All, All => true
  | _, _ => false
  end.

(** [args.tool in choices]. *)
Definition tool_in (t : tool_choice) (choices : list tool_choice) : bool :=
  existsb (tool_eqb t) choices.

(** The dictionary [tools_available]: [d[k] = v] and the truth value of
    [d.get(k)] ([None] when the key is absent, which is falsy). *)
Definition dict : Type := list (string * bool).

Definition dict_set (k : string) (v : bool) (d : dict) : dict :=
  (k, v) :: filter (fun e => negb (String.eqb (fst e) k)) d.

Fixpoint dict_get (k : string) (d : dict) : option bool :=
  match d with
  | [] => None
  | (k', v) :: d' => if String.eqb k k' then Some v else dict_get k d'
  end.

Definition get_truthy (k : string) (d : dict) : bool :=
  match dict_get k d with
  | Some v => v
  | None => false
  end.

(** The fixed part of the cppcheck command line. *)
Definition cppcheck_base_cmd : list string :=
  [ "cppcheck";
    "--enable=all";
    "--inconclusive";
    "--std=c++17";
    "--suppress=missingIncludeSystem";
    "--suppress=unusedFunction";
    "--quiet";
    "--template={file}:{line}: {severity}: {message} [{id}]" ].

(** The body of the walk loop of [run_clang_tidy]. *)
Definition visit (root : string) (dirs files : list string)
           (source_files : list string) : list string * list string :=
  (filter (fun d => negb (Py.mem d ["build"; "external"; ".git"])) dirs,
   source_files
     ++ map (OsPath.join root)
            (filter (fun file =>
                       existsb (Py.endswith file) [".cpp"; ".cc"; ".cxx"])
                    files)).

(** The source files [run_clang_tidy] collects from the working
    directory. *)
Definition tidy_source_files (fs : FS) : list string :=
  os_walk visit fs "." [].

Section WithProcesses.

Variable spawn : process_model.

(** [check_tool(tool_name, install_instructions)]. *)
Definition check_tool (tool_name install_instructions : string) : M bool :=
  found <- try_except
             (result <- subprocess_run spawn [tool_name; "--version"] ;;
              if (returncode result =? 0)%Z
              then print ("✓ Found " ++ tool_name) ;; ret true
              else ret false)
             (fun e => match e with
                       | FileNotFoundError _ => ret false
                       | _ => raise e
                       end) ;;
  if found then ret true
  else
    print ("✗ " ++ tool_name ++ " not found") ;;
    print ("  Install: " ++ install_instructions) ;;
    ret false.

(** [run_cppcheck(source_dirs)]. *)
Definition run_cppcheck (source_dirs : list string) : M Z :=
  print (nl ++ rule60) ;;
  print "Running cppcheck..." ;;
  print rule60 ;;
  fs0 <- get_fs ;;
  let cmd := cppcheck_base_cmd
               ++ filter (fun source_dir => OsPath.exists_ fs0 source_dir)
                         source_dirs in
  try_except
    (result <- subprocess_run spawn cmd ;;
     (if Py.truthy (stdout result)
      then print "Issues found:" ;; print (stdout result)
      else print "No issues found by cppcheck!") ;;
     (if Py.truthy (stderr result)
      then print "Warnings/Info:" ;; print (stderr result)
      else ret tt) ;;
     ret (returncode result))
    (fun e => print ("Error running cppcheck: " ++ exn_str e) ;; ret 1%Z).

(** The per-file loop of [run_clang_tidy]: the number of files with
    issues. *)
Definition tidy_loop (build_dir : string) (source_files : list string)
  : M nat :=
  for_fold source_files 0
    (fun source_file issues_found =>
       let cmd := ["clang-tidy"; source_file; ("-p=" ++ build_dir)%string; "--quiet"] in
       try_except
         (result <- subprocess_run spawn cmd ;;
          if Py.truthy (stdout result)
             && Py.contains "warning:" (stdout result)
          then print (nl ++ "Issues in " ++ source_file ++ ":") ;;
               print (stdout result) ;;
               ret (issues_found + 1)
          else ret issues_found)
         (fun e =>
            print ("Error analyzing " ++ source_file ++ ": " ++ exn_str e) ;;
            ret issues_found)).

(** [run_clang_tidy(build_dir)]. *)
Definition run_clang_tidy (build_dir : string) : M Z :=
  print (nl ++ rule60) ;;
  print "Running clang-tidy..." ;;
  print rule60 ;;
  let compile_commands := OsPath.join build_dir "compile_commands.json" in
  fs0 <- get_fs ;;
  if negb (OsPath.exists_ fs0 compile_commands) then
    print ("ERROR: " ++ compile_commands ++ " not found!") ;;
    print "Please build the project with CMAKE_EXPORT_COMPILE_COMMANDS=ON" ;;
    ret 1%Z
  else
    let source_files := tidy_source_files fs0 in
    match source_files with
    | [] => print "No source files found!" ;; ret 0%Z
    | _ :: _ =>
        print ("Analyzing " ++ Py.str_of_nat (length source_files)
                            ++ " source files...") ;;
        issues_found <- tidy_loop build_dir source_files ;;
        (if Nat.eqb issues_found 0
         then print "No issues found by clang-tidy!"
         else print (nl ++ "clang-tidy found issues in "
                        ++ Py.str_of_nat issues_found ++ " files.")) ;;
        ret 0%Z
    end.

(** [run_include_what_you_use()]. *)
Definition run_include_what_you_use : M Z :=
  print (nl ++ rule60) ;;
  print "Running include-what-you-use..." ;;
  print rule60 ;;
  print "include-what-you-use requires compilation with special flags." ;;
  print "This is complex to set up automatically. Please refer to:" ;;
  print "https://include-what-you-use.org/" ;;
  ret 0%Z.

Definition source_dirs : list string :=
  ["SilicaEngine/src"; "SilicaEngine/include"; "Fractura/src"].

(** The block "Check available tools" of [main]: the dictionary
    [tools_available] it builds. *)
Definition probe_tools (tool : tool_choice) : M dict :=
  let tools_available : dict := [] in
  tools_available <-
    (if tool_in tool [Cppcheck; All]
     then a <- check_tool "cppcheck"
                 "apt install cppcheck / brew install cppcheck / choco install cppcheck" ;;
          ret (dict_set "cppcheck" a tools_available)
     else ret tools_available) ;;
  tools_available <-
    (if tool_in tool [ClangTidy; All]
     then a <- check_tool "clang-tidy"
                 "apt install clang-tidy / brew install llvm / install LLVM" ;;
          ret (dict_set "clang-tidy" a tools_available)
     else ret tools_available) ;;
  tools_available <-
    (if tool_in tool [Iwyu; All]
     then a <- check_tool "include-what-you-use"
                 "Complex setup - see https://include-what-you-use.org/" ;;
          ret (dict_set "iwyu" a tools_available)
     else ret tools_available) ;;
  ret tools_available.

(** The block "Run available tools" of [main]: the final [exit_code]. *)
Definition run_tools (tool : tool_choice) (build_dir : string)
           (tools_available : dict) : M Z :=
  let exit_code := 0%Z in
  exit_code <-
    (if tool_in tool [Cppcheck; All] && get_truthy "cppcheck" tools_available
     then c <- run_cppcheck source_dirs ;; ret (Z.lor exit_code c)
     else ret exit_code) ;;
  exit_code <-
    (if tool_in tool [ClangTidy; All] && get_truthy "clang-tidy" tools_available
     then c <- run_clang_tidy build_dir ;; ret (Z.lor exit_code c)
     else ret exit_code) ;;
  exit_code <-
    (if tool_in tool [Iwyu; All]
     then c <- run_include_what_you_use ;; ret (Z.lor exit_code c)
     else ret exit_code) ;;
  print (nl ++ rule60) ;;
  print "Static analysis completed!" ;;
  print rule60 ;;
  ret exit_code.

(** [main()], with the parsed arguments [args.tool] and
    [args.build_dir]; the value is what [sys.exit] receives. *)
Definition main (tool : tool_choice) (build_dir : string) : M Z :=
  print "Caelis Static Analysis" ;;
  print rule60 ;;
  tools_available <- probe_tools tool ;;
  run_tools tool build_dir tools_available.

End WithProcesses.

End Analyze.

(* ===================================================================== *)
(** * Vocabulary of the properties                                        *)
(* ===================================================================== *)

(** Induction on directory trees: the sub-trees of a directory are the
    nodes of its entries. *)
Fixpoint node_ind (P : node -> Prop)
         (HFile : forall content, P (File content))
         (HDir : forall es, Forall (fun e => P (snd e)) es -> P (Dir es))
         (HLink : forall target, P (Link target))
         (n : node) {struct n} : P n :=
  match n with
  | File content => HFile content
  | Dir es =>
      HDir es
        ((fix all (l : list (string * node)) : Forall (fun e => P (snd e)) l :=
            match l with
            | [] => Forall_nil _
            | e :: l' =>
                Forall_cons e (node_ind P HFile HDir HLink (snd e)) (all l')
            end) es)
  | Link target => HLink target
  end.

(** The string holds no [/]. *)
Fixpoint no_sep (s : string) : bool :=
  match s with
  | EmptyString => true
  | String c s' => negb (Ascii.eqb c OsPath.sep) && no_sep s'
  end.

(** Names a directory can hold: not empty, not [.] or [..], no [/]. *)
Definition valid_name (s : string) : bool :=
  Py.truthy s && negb (String.eqb s ".") && negb (String.eqb s "..")
  && no_sep s.

(** No string occurs twice. *)
Fixpoint distinct (xs : list string) : bool :=
  match xs with
  | [] => true
  | x :: xs' => negb (Py.mem x xs') && distinct xs'
  end.

(** A well-formed tree: in every directory the names are valid and pairwise
    different. *)
Fixpoint wf_node (n : node) : bool :=
  match n with
  | File _ | Link _ => true
  | Dir es =>
      forallb valid_name (map fst es)
      && distinct (map fst es)
      && (fix all (l : list (string * node)) : bool :=
            match l with
            | [] => true
            | e :: l' => wf_node (snd e) && all l'
            end) es
  end.

Definition wf_fs (fs : FS) : bool := wf_node (Dir (root_entries fs)).

(** The tree holds no symbolic link. *)
Fixpoint no_links (n : node) : bool :=
  match n with
  | File _ => true
  | Link _ => false
  | Dir es =>
      (fix all (l : list (string * node)) : bool :=
         match l with
         | [] => true
         | e :: l' => no_links (snd e) && all l'
         end) es
  end.

(** [top] made ready to take a further name: [os.path.join] puts a
    separator after it unless it already ends with one. *)
Definition with_sep (top : string) : string :=
  if OsPath.ends_with_sep top then top else (top ++ "/")%string.

(** The path obtained from [top] by joining the names [comps] in turn. *)
Definition join_all (top : string) (comps : list string) : string :=
  fold_left OsPath.join comps top.

(** Below the directory [n], the directories named [ds] lead to a directory
    that holds a regular file named [f]. *)
Definition file_at (n : node) (ds : list string) (f : string) : Prop :=
  exists es content,
    node_at n ds = Some (Dir es) /\ lookup_entry f es = Some (File content).

(** Below the directory [n] found at path [top], the directories named [ds]
    lead to a directory that holds an entry named [f] which [os.walk] lists
    among the files: a regular file, or a symbolic link whose path does not
    name a directory. *)
Definition listed_file (fs : FS) (top : string) (n : node)
           (ds : list string) (f : string) : Prop :=
  exists es e,
    node_at n ds = Some (Dir es) /\ lookup_entry f es = Some e
    /\ entry_is_dir fs (join_all top ds) (f, e) = false.

(** Below the directory [n], the directories named [ds] lead to a directory
    that holds a symbolic link named [f]. *)
Definition link_at (n : node) (ds : list string) (f : string) : Prop :=
  exists es target,
    node_at n ds = Some (Dir es) /\ lookup_entry f es = Some (Link target).

(** [file.endswith(ext)] for one of the extensions [exts]. *)
Definition has_ext (exts : list string) (file : string) : bool :=
  existsb (Py.endswith file) exts.

(** The directory names both walks prune. *)
Definition excluded : list string := ["build"; "external"; ".git"].

(** The walk loop body of both scripts, for a list of extensions. *)
Definition visit_exts (exts : list string) (root : string)
           (dirs files : list string) (source_files : list string)
  : list string * list string :=
  (filter (fun d => negb (Py.mem d excluded)) dirs,
   source_files ++ map (OsPath.join root) (filter (has_ext exts) files)).

(** The path [p] lies, below [top], inside a directory named [d]: cut into
    names after [top], it goes through [d] before it reaches its file. *)
Definition inside_dir (top p d : string) : Prop :=
  exists ds1 ds2 f,
    forallb valid_name (ds1 ++ d :: ds2 ++ [f]) = true
    /\ p = join_all top (ds1 ++ d :: ds2 ++ [f]).

(** The bytes of the regular file a path names, links followed. *)
Definition read_file (fs : FS) (path : string) : option (list byte) :=
  match OsPath.resolve fs path with
  | Some (File content) => Some content
  | _ => None
  end.

Section WalkSteps.

Context {A : Type}.
Variable body : string -> list string -> list string -> A -> list string * A.
Variable fs : FS.

(** What the walk does for one entry of a directory once the body has
    left [dirs']: it descends into a sub-directory still listed. *)
Definition descend_step (top : string) (dirs' : list string) (acc : A)
           (e : string * node) : A :=
  if is_dir (snd e) && Py.mem (fst e) dirs'
  then walk_node body fs (OsPath.join top (fst e)) (snd e) acc
  else acc.

End WalkSteps.

(** ** Running computations one after the other *)

(** The values of the computations [ms], run in order. *)
Fixpoint run_each {A : Type} (ms : list (M A)) : M (list A) :=
  match ms with
  | [] => ret []
  | m :: ms' => a <- m ;; rest <- run_each ms' ;; ret (a :: rest)
  end.

(** [R] relates the world before a computation to the world after it. *)
Definition runs_within (R : World -> World -> Prop) {A} (m : M A) : Prop :=
  forall w, R w (snd (m w)).

(** The computation returns a value: it does not raise. *)
Definition returns {A} (m : M A) : Prop :=
  forall w, exists a w', m w = (Val a, w').

(** The world [w] after printing the lines [ls]. *)
Definition printed (w : World) (ls : list string) : World :=
  mkWorld (fs w) (console w ++ ls) (spawned w).

(** ** What the scripts print and spawn *)

Definition analysis_header : list string := ["Caelis Static Analysis"; rule60].

Definition analysis_footer : list string :=
  [(nl ++ rule60)%string; "Static analysis completed!"; rule60].

Definition cppcheck_banner : list string :=
  [(nl ++ rule60)%string; "Running cppcheck..."; rule60].

Definition tidy_banner : list string :=
  [(nl ++ rule60)%string; "Running clang-tidy..."; rule60].

(** What [run_cppcheck] prints for a completed cppcheck process: its
    standard output and standard error as they are, each under a heading,
    when they are not empty. *)
Definition cppcheck_report (result : CompletedProcess) : list string :=
  (if Py.truthy (stdout result)
   then ["Issues found:"; stdout result]
   else ["No issues found by cppcheck!"])
  ++ (if Py.truthy (stderr result)
      then ["Warnings/Info:"; stderr result]
      else []).

(** What [run_clang_tidy] prints when the compilation database [db] is
    missing. *)
Definition missing_db_report (db : string) : list string :=
  tidy_banner ++
  [("ERROR: " ++ db ++ " not found!")%string;
   "Please build the project with CMAKE_EXPORT_COMPILE_COMMANDS=ON"].

(** The three command lines [format.py] hands to [subprocess.run]. *)
Definition version_cmd : list string := ["clang-format"; "--version"].

Definition dry_run_cmd (file_path : string) : list string :=
  ["clang-format"; "--dry-run"; "--Werror"; file_path].

Definition in_place_cmd (file_path : string) : list string :=
  ["clang-format"; "-i"; file_path].

(** The runners the block "Run available tools" of [Analyze.main] executes,
    in order, for the chosen tool and the dictionary the probes filled. *)
Definition executed_runners (spawn : process_model)
           (tool : Analyze.tool_choice) (build_dir : string)
           (tools_available : Analyze.dict) : list (M Z) :=
  (if Analyze.tool_in tool [Analyze.Cppcheck; Analyze.All]
      && Analyze.get_truthy "cppcheck" tools_available
   then [Analyze.run_cppcheck spawn Analyze.source_dirs] else [])
  ++ (if Analyze.tool_in tool [Analyze.ClangTidy; Analyze.All]
         && Analyze.get_truthy "clang-tidy" tools_available
      then [Analyze.run_clang_tidy spawn build_dir] else [])
  ++ (if Analyze.tool_in tool [Analyze.Iwyu; Analyze.All]
      then [Analyze.run_include_what_you_use] else []).

(** What [format_file(file_path, dry_run=True)] answers on the file system
    [fs0]: the file needs formatting when the dry run completes with an
    exit status other than 0. *)
Definition needs_formatting (spawn : process_model) (fs0 : FS)
           (file_path : string) : bool :=
  match spawn (dry_run_cmd file_path) fs0 with
  | (Val result, _) => negb (returncode result =? 0)%Z
  | (Raise _, _) => false
  end.

(** On the file system [fs0] the formatter accepts the file as it is: the
    dry run completes with exit status 0 and leaves the file system alone. *)
Definition well_formatted (spawn : process_model) (fs0 : FS)
           (file_path : string) : Prop :=
  exists result,
    spawn (dry_run_cmd file_path) fs0 = (Val result, fs0)
    /\ returncode result = 0%Z.

(** The file system is the same in both worlds. *)
Definition same_files (w w' : World) : Prop := fs w' = fs w.

(** ** Further vocabulary: what the scripts probe, spawn and report *)

(** The command line of an availability probe. *)
Definition probe_cmd (tool_name : string) : list string :=
  [tool_name; "--version"].

(** The command line [run_clang_tidy] builds for one source file. *)
Definition tidy_cmd (build_dir source_file : string) : list string :=
  ["clang-tidy"; source_file; ("-p=" ++ build_dir)%string; "--quiet"].

(** The command line [format_file] builds. *)
Definition format_cmd (file_path : string) (dry_run : bool) : list string :=
  if dry_run then dry_run_cmd file_path else in_place_cmd file_path.

(** The executables [Analyze.main] probes for a choice of [--tool], in the
    order of the probes. *)
Definition probed_tools (tool : Analyze.tool_choice) : list string :=
  (if Analyze.tool_in tool [Analyze.Cppcheck; Analyze.All]
   then ["cppcheck"] else [])
  ++ (if Analyze.tool_in tool [Analyze.ClangTidy; Analyze.All]
      then ["clang-tidy"] else [])
  ++ (if Analyze.tool_in tool [Analyze.Iwyu; Analyze.All]
      then ["include-what-you-use"] else []).

(** The process completed with exit status 0. *)
Definition completed_ok (r : outcome CompletedProcess * FS) : Prop :=
  exists result fs', r = (Val result, fs') /\ returncode result = 0%Z.

(** The process ended in a way a probe reads as "not installed": the
    executable was not found, or it exited with a status other than 0. *)
Definition reads_as_missing (r : outcome CompletedProcess * FS) : bool :=
  match r with
  | (Val result, _) => negb (returncode result =? 0)%Z
  | (Raise (FileNotFoundError _), _) => true
  | (Raise (OtherException _), _) => false
  end.

(** Between [w] and [w'] only command lines that [allowed] accepts were
    handed to [subprocess.run]. *)
Definition spawned_only (allowed : list string -> bool) (w w' : World) : Prop :=
  exists cmds, spawned w' = spawned w ++ cmds /\ forallb allowed cmds = true.

(** The command line asks a program for its version and nothing else. *)
Definition is_probe (cmd : list string) : bool :=
  match cmd with
  | [_; flag] => String.eqb flag "--version"
  | _ => false
  end.

(** A command line of cppcheck or of clang-tidy, or the version probe of
    include-what-you-use. *)
Definition analyzer_command (cmd : list string) : bool :=
  match cmd with
  | prog :: _ =>
      String.eqb prog "cppcheck" || String.eqb prog "clang-tidy"
      || (String.eqb prog "include-what-you-use" && is_probe cmd)
  | [] => false
  end.

(** What the loop of [run_clang_tidy] counts for a file on the file system
    [fs0]: the process completes and its standard output holds
    [warning:]. *)
Definition tidy_warns (spawn : process_model) (build_dir : string) (fs0 : FS)
           (source_file : string) : bool :=
  match spawn (tidy_cmd build_dir source_file) fs0 with
  | (Val result, _) =>
      Py.truthy (stdout result) && Py.contains "warning:" (stdout result)
  | (Raise _, _) => false
  end.

(** The closing line of [run_clang_tidy]. *)
Definition tidy_summary (issues_found : nat) : string :=
  if Nat.eqb issues_found 0
  then "No issues found by clang-tidy!"
  else nl ++ "clang-tidy found issues in " ++ Py.str_of_nat issues_found
          ++ " files.".

(** What [format_file(file_path, dry_run=False)] answers on the file system
    [fs0]: the in-place run completes with exit status 0. *)
Definition formats_in_place (spawn : process_model) (fs0 : FS)
           (file_path : string) : bool :=
  match spawn (in_place_cmd file_path) fs0 with
  | (Val result, _) => (returncode result =? 0)%Z
  | (Raise _, _) => false
  end.

(** The closing line of apply mode. *)
Definition apply_summary (formatted_count total : nat) : string :=
  nl ++ "Formatted " ++ Py.str_of_nat formatted_count ++ "/"
     ++ Py.str_of_nat total ++ " files.".

(* ===================================================================== *)
(** * Sample machines                                                     *)
(* ===================================================================== *)

Module Examples.

(** The tree of the enumeration scenario: [a.cpp], [build/b.cpp],
    [sub/c.hpp] and [sub/d.txt]. *)
Definition scenario_tree (a b c d : list byte) : node :=
  Dir [ ("a.cpp", File a);
        ("build", Dir [("b.cpp", File b)]);
        ("sub", Dir [("c.hpp", File c); ("d.txt", File d)]) ].

Definition bytes (s : string) : list byte := list_byte_of_string s.

Definition tab : byte := x09.
Definition space : byte := x20.

(** A checkout of the project: the scenario files (with a TAB in [a.cpp]),
    the three source roots of the analyzer and a build directory [out] that
    holds a compilation database. *)
Definition project : node :=
  Dir [ ("a.cpp", File (tab :: bytes "int x;"));
        ("build", Dir [("b.cpp", File (bytes "int y;"))]);
        ("sub", Dir [("c.hpp", File (bytes "int z;"));
                     ("d.txt", File (bytes "notes"))]);
        ("SilicaEngine",
         Dir [("src", Dir [("engine.cpp", File (bytes "void run();"))]);
              ("include", Dir [("engine.h", File (bytes "void run();"))])]);
        ("Fractura", Dir [("src", Dir [("game.cpp", File (bytes "int main();"))])]);
        ("out", Dir [("compile_commands.json", File (bytes "[]"))]) ].

Definition project_fs : FS :=
  mkFS [("home", Dir [("caelis", project)])] ["home"; "caelis"].

(** A checkout in which every source file is already formatted. *)
Definition tidy_fs : FS :=
  mkFS [("work", scenario_tree (bytes "int x;") (bytes "int y;")
                               (bytes "int z;") (bytes "notes"))]
       ["work"].

(** A checkout with symbolic links: [alias.hpp] leads to [a.cpp],
    [dangling.cpp] leads nowhere, [loop.cpp] leads to itself, and
    [vendor.cpp] leads to the directory [sub]. *)
Definition linked_fs : FS :=
  mkFS [("work", Dir [("a.cpp", File (bytes "int x;"));
                      ("alias.hpp", Link "a.cpp");
                      ("dangling.cpp", Link "missing.cpp");
                      ("loop.cpp", Link "loop.cpp");
                      ("vendor.cpp", Link "sub");
                      ("sub", Dir [("c.hpp", File (bytes "int z;"))])])]
       ["work"].

(** A checkout whose only directory is called [build2]. *)
Definition lookalike_fs : FS :=
  mkFS [("work", Dir [("build2", Dir [("gen.cpp", File (bytes "int g;"))])])]
       ["work"].

(** The start of a run: nothing printed, nothing spawned. *)
Definition start (fs0 : FS) : World := mkWorld fs0 [] [].

Definition not_found (prog : string) : exn :=
  FileNotFoundError
    ("[Errno 2] No such file or directory: '" ++ prog ++ "'").

Definition done (code : Z) (out err : string) : CompletedProcess :=
  mkCompleted code out err.

(** A machine with none of the tools installed. *)
Definition nothing_installed : process_model :=
  fun cmd fs0 =>
    match cmd with
    | prog :: _ => (Raise (not_found prog), fs0)
    | [] => (Raise (OtherException "list index out of range"), fs0)
    end.

(** Replace the node at position [pos] below [n] by [new]. *)
Fixpoint update_at (n : node) (pos : list string) (new : node) : node :=
  match pos with
  | [] => new
  | c :: pos' =>
      match n with
      | File _ | Link _ => n
      | Dir es =>
          Dir ((fix upd (l : list (string * node)) : list (string * node) :=
                  match l with
                  | [] => []
                  | (k, m) :: l' =>
                      if String.eqb k c
                      then (k, update_at m pos' new) :: l'
                      else (k, m) :: upd l'
                  end) es)
      end
  end.

(** Overwrite the regular file [path] names, if it names one. *)
Definition write_file (fs0 : FS) (path : string) (content : list byte) : FS :=
  match OsPath.resolve_pos fs0 path with
  | Some pos =>
      match update_at (Dir (root_entries fs0)) pos (File content) with
      | Dir es => mkFS es (cwd fs0)
      | File _ | Link _ => fs0
      end
  | None => fs0
  end.

Definition has_tab (content : list byte) : bool :=
  existsb (Byte.eqb tab) content.

Definition untab (content : list byte) : list byte :=
  map (fun b => if Byte.eqb tab b then space else b) content.

(** A toy clang-format whose style forbids TABs.  [in_place] says what
    [-i] does to a file that exists: rewrite it and succeed, or fail and
    leave it (a read-only checkout). *)
Definition toy_clang_format (in_place_works : bool) : process_model :=
  fun cmd fs0 =>
    match cmd with
    | [] => (Raise (OtherException "list index out of range"), fs0)
    | prog :: args =>
        if negb (String.eqb prog "clang-format")
        then (Raise (not_found prog), fs0)
        else
          match args with
          | [flag] =>
              if String.eqb flag "--version"
              then (Val (done 0 ("clang-format version 14.0.0" ++ nl) ""), fs0)
              else (Val (done 1 "" "unknown argument"), fs0)
          | [flag; file_path] =>
              if String.eqb flag "-i"
              then match read_file fs0 file_path with
                   | Some content =>
                       if in_place_works
                       then (Val (done 0 "" ""),
                             write_file fs0 file_path (untab content))
                       else (Val (done 1 "" "Permission denied"), fs0)
                   | None => (Val (done 1 "" "No such file or directory"), fs0)
                   end
              else (Val (done 1 "" "unknown argument"), fs0)
          | [flag1; flag2; file_path] =>
              if String.eqb flag1 "--dry-run" && String.eqb flag2 "--Werror"
              then match read_file fs0 file_path with
                   | Some content =>
                       if has_tab content
                       then (Val (done 1 "" "code should be clang-formatted"), fs0)
                       else (Val (done 0 "" ""), fs0)
                   | None => (Val (done 1 "" "No such file or directory"), fs0)
                   end
              else (Val (done 1 "" "unknown argument"), fs0)
          | _ => (Val (done 1 "" "unknown argument"), fs0)
          end
    end.

Definition clang_format : process_model := toy_clang_format true.

Definition clang_format_read_only : process_model := toy_clang_format false.

(** A machine with cppcheck and clang-tidy but without
    include-what-you-use.  cppcheck reports one style finding on standard
    error and exits with 0; clang-tidy warns about every file. *)
Definition analysis_tools : process_model :=
  fun cmd fs0 =>
    match cmd with
    | [] => (Raise (OtherException "list index out of range"), fs0)
    | prog :: args =>
        if String.eqb prog "cppcheck"
        then match args with
             | ["--version"%string] => (Val (done 0 "Cppcheck 2.7" ""), fs0)
             | _ => (Val (done 0 ""
                           "SilicaEngine/src/engine.cpp:1: style: unused [unusedVariable]"),
                     fs0)
             end
        else if String.eqb prog "clang-tidy"
        then match args with
             | ["--version"%string] => (Val (done 0 "LLVM version 14.0.0" ""), fs0)
             | _ => (Val (done 0 "1:1: warning: use nullptr [modernize-use-nullptr]" ""),
                     fs0)
             end
        else (Raise (not_found prog), fs0)
    end.

(** A machine on which no program may be executed: every attempt to start
    one fails with a permission error. *)
Definition permission_denied : process_model :=
  fun cmd fs0 =>
    (Raise (OtherException "[Errno 13] Permission denied"), fs0).

End Examples.

(* ===================================================================== *)
(** * Facts about the model                                             *)
(* ===================================================================== *)

(** ** The walk as a fold over the entries *)

Section WalkFacts.
Context {A : Type}.
Variable body : string -> list string -> list string -> A -> list string * A.
Variable fs : FS.

Lemma walk_node_dir top es acc :
  walk_node body fs top (Dir es) acc =
  fold_left (descend_step body fs top
               (fst (body top (subdir_names fs top es) (file_names fs top es) acc)))
            es
            (snd (body top (subdir_names fs top es) (file_names fs top es) acc)).
Proof.
  simpl.
  destruct (body top (subdir_names fs top es) (file_names fs top es) acc)
    as [dirs' acc1].
  simpl. generalize acc1. clear acc1.
  induction es as [|[name c] es IH]; intros acc1; simpl; [reflexivity|].
  unfold descend_step at 2. simpl.
  destruct c; simpl; [apply IH| |apply IH].
  destruct (Py.mem name dirs'); apply IH.
Qed.
End WalkFacts.

Lemma fold_left_acc {E} (g : list string -> E -> list string) es :
  (forall e a, In e es -> g a e = a ++ g [] e) ->
  forall acc, fold_left g es acc = acc ++ fold_left g es [].
Proof.
  induction es as [|e es IH]; intros H acc; simpl.
  - now rewrite app_nil_r.
  - rewrite IH by (intros; apply H; now right).
    rewrite (IH (fun e' a' Hin => H e' a' (or_intror Hin)) (g [] e)).
    rewrite (H e acc) by now left. now rewrite app_assoc.
Qed.

Lemma in_fold_left_acc {E} (g : list string -> E -> list string) es :
  (forall e a, In e es -> g a e = a ++ g [] e) ->
  forall acc p, In p (fold_left g es acc) <->
                In p acc \/ exists e, In e es /\ In p (g [] e).
Proof.
  induction es as [|e es IH]; intros H acc p; simpl.
  - split; [auto|]. intros [?|[e [[] _]]]; auto.
  - rewrite IH by (intros; apply H; now right).
    rewrite (H e acc) by now left. rewrite in_app_iff.
    split.
    + intros [[?|?]|[e' [? ?]]]; eauto.
    + intros [?|[e' [[->|?] ?]]]; eauto.
Qed.

Lemma walk_acc exts fs n : forall top acc,
  walk_node (visit_exts exts) fs top n acc
  = acc ++ walk_node (visit_exts exts) fs top n [].
Proof.
  induction n as [c|es IH|t] using node_ind; intros top acc;
    [simpl; now rewrite app_nil_r| |simpl; now rewrite app_nil_r].
  - rewrite !walk_node_dir. simpl.
    set (g := descend_step _ _ _ _).
    assert (Hg : forall e a, In e es -> g a e = a ++ g [] e).
    { intros e a Hin. unfold g, descend_step.
      destruct (_ && _); [|now rewrite app_nil_r].
      rewrite Forall_forall in IH. apply (IH e Hin). }
    rewrite (fold_left_acc g es Hg (acc ++ _)).
    rewrite (fold_left_acc g es Hg (map _ _)).
    now rewrite app_assoc.
Qed.

(** ** Strings and joined paths *)

Lemma mem_In x xs : Py.mem x xs = true <-> In x xs.
Proof.
  unfold Py.mem. rewrite existsb_exists. split.
  - intros [y [Hin Heq]]. apply String.eqb_eq in Heq. now subst.
  - intros Hin. exists x. split; [assumption|apply String.eqb_refl].
Qed.

Lemma mem_false_In x xs : Py.mem x xs = false <-> ~ In x xs.
Proof.
  rewrite <- mem_In. destruct (Py.mem x xs); split; intros; congruence.
Qed.

Lemma append_assoc' (a b c : string) : ((a ++ b) ++ c = a ++ (b ++ c))%string.
Proof. induction a; simpl; congruence. Qed.

Lemma append_inj_l (a b c : string) : (a ++ b = a ++ c)%string -> b = c.
Proof. induction a; simpl; intros H; [assumption|]. injection H. auto. Qed.

Lemma truthy_append_r (a b : string) :
  Py.truthy b = true -> Py.truthy (a ++ b) = true.
Proof. destruct a; simpl; auto. Qed.

Lemma last_char_append (a b : string) :
  Py.truthy b = true -> OsPath.last_char (a ++ b) = OsPath.last_char b.
Proof.
  intros Hb. induction a as [|c a IH]; simpl; [reflexivity|].
  rewrite IH. destruct (a ++ b)%string eqn:E; [|reflexivity].
  destruct a; simpl in E; [subst; discriminate|discriminate].
Qed.

Lemma no_sep_last_char s c :
  no_sep s = true -> OsPath.last_char s = Some c -> Ascii.eqb c OsPath.sep = false.
Proof.
  induction s as [|a s IH]; simpl; [discriminate|].
  intros H. apply andb_true_iff in H as [Ha Hs].
  destruct s.
  - intros [= <-]. now apply negb_true_iff.
  - auto.
Qed.

Lemma valid_name_truthy x : valid_name x = true -> Py.truthy x = true.
Proof. unfold valid_name. rewrite !andb_true_iff. tauto. Qed.

Lemma valid_name_no_sep x : valid_name x = true -> no_sep x = true.
Proof. unfold valid_name. rewrite !andb_true_iff. tauto. Qed.

Lemma no_sep_not_abs x : no_sep x = true -> OsPath.isabs x = false.
Proof.
  destruct x; simpl; [reflexivity|]. rewrite andb_true_iff, negb_true_iff. tauto.
Qed.

Lemma join_valid top x :
  Py.truthy top = true -> valid_name x = true ->
  OsPath.join top x = (with_sep top ++ x)%string.
Proof.
  intros Ht Hx. unfold OsPath.join, with_sep.
  rewrite (no_sep_not_abs x (valid_name_no_sep x Hx)), Ht. simpl.
  destruct (OsPath.ends_with_sep top); [reflexivity|].
  now rewrite append_assoc'.
Qed.

Lemma join_valid_truthy top x :
  Py.truthy top = true -> valid_name x = true ->
  Py.truthy (OsPath.join top x) = true.
Proof.
  intros Ht Hx. rewrite join_valid by assumption.
  apply truthy_append_r, valid_name_truthy, Hx.
Qed.

Lemma join_valid_ends top x :
  Py.truthy top = true -> valid_name x = true ->
  OsPath.ends_with_sep (OsPath.join top x) = false.
Proof.
  intros Ht Hx. rewrite join_valid by assumption.
  unfold OsPath.ends_with_sep.
  rewrite last_char_append by (apply valid_name_truthy, Hx).
  destruct (OsPath.last_char x) eqn:E; [|reflexivity].
  eapply no_sep_last_char; [apply valid_name_no_sep, Hx|exact E].
Qed.

Lemma join_all_chain top x xs :
  Py.truthy top = true -> forallb valid_name (x :: xs) = true ->
  join_all top (x :: xs) = (with_sep top ++ Py.str_join "/" (x :: xs))%string.
Proof.
  revert top x. induction xs as [|y ys IH]; intros top x Ht Hv.
  - simpl in *. apply andb_true_iff in Hv as [Hx _]. now apply join_valid.
  - change (join_all top (x :: y :: ys)) with (join_all (OsPath.join top x) (y :: ys)).
    simpl in Hv. apply andb_true_iff in Hv as [Hx Hv].
    rewrite IH; [|now apply join_valid_truthy|exact Hv].
    unfold with_sep at 1. rewrite join_valid_ends by assumption.
    rewrite join_valid by assumption.
    change (Py.str_join "/" (x :: y :: ys))
      with (x ++ "/" ++ Py.str_join "/" (y :: ys))%string.
    now rewrite !append_assoc'.
Qed.

Lemma split_sep_nonempty s : OsPath.split_sep s <> [].
Proof.
  destruct s as [|c s]; simpl; [discriminate|].
  destruct (Ascii.eqb c OsPath.sep); [discriminate|].
  destruct (OsPath.split_sep s); discriminate.
Qed.

Lemma split_sep_cons_sep a b :
  OsPath.split_sep (a ++ String OsPath.sep b)
  = OsPath.split_sep a ++ OsPath.split_sep b.
Proof.
  induction a as [|c a IH]; simpl; [reflexivity|].
  destruct (Ascii.eqb c OsPath.sep); [now rewrite IH|].
  rewrite IH. destruct (OsPath.split_sep a) eqn:E; [|reflexivity].
  now destruct (split_sep_nonempty a).
Qed.

Lemma split_sep_app a b :
  OsPath.split_sep (a ++ "/" ++ b) = OsPath.split_sep a ++ OsPath.split_sep b.
Proof. exact (split_sep_cons_sep a b). Qed.

Lemma split_sep_no_sep s : no_sep s = true -> OsPath.split_sep s = [s].
Proof.
  induction s as [|c s IH]; simpl; [reflexivity|].
  rewrite andb_true_iff, negb_true_iff. intros [-> Hs]. now rewrite IH.
Qed.

Lemma split_sep_chain x xs :
  forallb no_sep (x :: xs) = true ->
  OsPath.split_sep (Py.str_join "/" (x :: xs)) = x :: xs.
Proof.
  revert x. induction xs as [|y ys IH]; intros x Hv.
  - simpl in *. apply andb_true_iff in Hv as [Hx _]. now apply split_sep_no_sep.
  - change (Py.str_join "/" (x :: y :: ys))
      with (x ++ "/" ++ Py.str_join "/" (y :: ys))%string.
    simpl in Hv. apply andb_true_iff in Hv as [Hx Hv].
    rewrite split_sep_app, IH by exact Hv.
    now rewrite split_sep_no_sep.
Qed.

Lemma forallb_valid_no_sep xs :
  forallb valid_name xs = true -> forallb no_sep xs = true.
Proof.
  rewrite !forallb_forall. intros H x Hx. apply valid_name_no_sep, H, Hx.
Qed.

(** Below a given [top], a path determines the names it was joined from. *)
Lemma join_all_inj top xs ys :
  Py.truthy top = true ->
  xs <> [] -> ys <> [] ->
  forallb valid_name xs = true -> forallb valid_name ys = true ->
  join_all top xs = join_all top ys -> xs = ys.
Proof.
  intros Ht Hxs Hys Hvx Hvy E.
  destruct xs as [|x xs]; [congruence|]. destruct ys as [|y ys]; [congruence|].
  rewrite !join_all_chain in E by assumption.
  apply append_inj_l in E.
  rewrite <- (split_sep_chain x xs), <- (split_sep_chain y ys)
    by now apply forallb_valid_no_sep.
  now rewrite E.
Qed.

Lemma length_app_string (a b : string) :
  String.length (a ++ b) = String.length a + String.length b.
Proof. induction a; simpl; congruence. Qed.

Lemma substring_skip (a s : string) k m :
  String.substring (String.length a + k) m (a ++ s) = String.substring k m s.
Proof. induction a as [|c a IH]; simpl; [reflexivity|exact IH]. Qed.

Lemma endswith_append a f ext :
  Py.endswith f ext = true -> Py.endswith (a ++ f) ext = true.
Proof.
  unfold Py.endswith. rewrite length_app_string.
  destruct (Nat.leb_spec (String.length ext) (String.length f)) as [Hle|];
    [|discriminate].
  intros H.
  destruct (Nat.leb_spec (String.length ext)
                         (String.length a + String.length f)); [|lia].
  replace (String.length a + String.length f - String.length ext)
    with (String.length a + (String.length f - String.length ext)) by lia.
  now rewrite substring_skip.
Qed.

Lemma has_ext_append exts a f :
  has_ext exts f = true -> has_ext exts (a ++ f) = true.
Proof.
  unfold has_ext. rewrite !existsb_exists.
  intros [ext [Hin H]]. exists ext. split; [assumption|now apply endswith_append].
Qed.

Lemma join_suffix a f :
  OsPath.isabs f = false -> exists a', OsPath.join a f = (a' ++ f)%string.
Proof.
  intros H. unfold OsPath.join. rewrite H.
  destruct (negb (Py.truthy a) || OsPath.ends_with_sep a).
  - now exists a.
  - exists (a ++ "/")%string. now rewrite append_assoc'.
Qed.

Lemma join_all_snoc top ds f :
  join_all top (ds ++ [f]) = OsPath.join (join_all top ds) f.
Proof. unfold join_all. now rewrite fold_left_app. Qed.

(** ** Trees *)

Lemma wf_node_dir es :
  wf_node (Dir es) = true <->
  forallb valid_name (map fst es) = true
  /\ distinct (map fst es) = true
  /\ (forall e, In e es -> wf_node (snd e) = true).
Proof.
  simpl. rewrite !andb_true_iff.
  assert (H : forall l,
             (fix all (l : list (string * node)) : bool :=
                match l with
                | [] => true
                | e :: l' => wf_node (snd e) && all l'
                end) l = true
             <-> (forall e, In e l -> wf_node (snd e) = true)).
  { induction l as [|e l IH]; simpl.
    - split; [intros _ e []|reflexivity].
    - rewrite andb_true_iff, IH. split.
      + intros [He Hl] e' [<-|Hin]; auto.
      + intros H. split; [apply H; now left|intros; apply H; now right]. }
  rewrite H. tauto.
Qed.

Lemma lookup_entry_In k es n : lookup_entry k es = Some n -> In (k, n) es.
Proof.
  induction es as [|[k' n'] es IH]; simpl; [discriminate|].
  destruct (String.eqb_spec k k') as [->|Hne].
  - intros [= ->]. now left.
  - intros H. right. auto.
Qed.

Lemma In_lookup_entry k es n :
  distinct (map fst es) = true -> In (k, n) es -> lookup_entry k es = Some n.
Proof.
  induction es as [|[k' n'] es IH]; simpl; [intros _ []|].
  rewrite andb_true_iff, negb_true_iff. intros [Hk Hd] [[= -> ->]|Hin].
  - now rewrite String.eqb_refl.
  - destruct (String.eqb_spec k k') as [->|Hne]; [|auto].
    apply mem_false_In in Hk. destruct Hk.
    apply (in_map fst) in Hin. exact Hin.
Qed.

Lemma in_file_names fs top f es :
  In f (file_names fs top es)
  <-> exists c, In (f, c) es /\ entry_is_dir fs top (f, c) = false.
Proof.
  unfold file_names. rewrite in_map_iff. split.
  - intros [[k n] [<- Hin]]. apply filter_In in Hin as [Hin Hd].
    exists n. split; [exact Hin|]. now apply negb_true_iff.
  - intros [c [Hin Hd]]. exists (f, c). split; [reflexivity|].
    apply filter_In. split; [exact Hin|]. now apply negb_true_iff.
Qed.

Lemma in_subdir_names fs top d es :
  In d (subdir_names fs top es)
  <-> exists c, In (d, c) es /\ entry_is_dir fs top (d, c) = true.
Proof.
  unfold subdir_names. rewrite in_map_iff. split.
  - intros [[k n] [<- Hin]]. apply filter_In in Hin as [Hin Hd]. now exists n.
  - intros [c [Hin Hd]]. exists (d, c). split; [reflexivity|].
    apply filter_In. now split.
Qed.

Lemma not_excluded_iff d :
  negb (Py.mem d excluded) = true <-> ~ In d excluded.
Proof. rewrite negb_true_iff. apply mem_false_In. Qed.

Lemma walk_visit_exts exts fs top es acc :
  walk_node (visit_exts exts) fs top (Dir es) acc =
  fold_left
    (descend_step (visit_exts exts) fs top
       (filter (fun d => negb (Py.mem d excluded)) (subdir_names fs top es)))
    es
    (acc ++ map (OsPath.join top) (filter (has_ext exts) (file_names fs top es))).
Proof. apply walk_node_dir. Qed.

Lemma descend_step_acc exts fs top dirs' e a :
  descend_step (visit_exts exts) fs top dirs' a e
  = a ++ descend_step (visit_exts exts) fs top dirs' [] e.
Proof.
  unfold descend_step.
  destruct (_ && _); [apply walk_acc|now rewrite app_nil_r].
Qed.

(** A regular file is listed among the files. *)
Lemma file_at_listed fs top n ds f :
  file_at n ds f -> listed_file fs top n ds f.
Proof.
  intros (es & c & Hn & Hl). exists es, (File c). now repeat split.
Qed.

(** What is listed among the files is a regular file or a symbolic link
    whose path does not name a directory. *)
Lemma listed_file_inv fs top n ds f :
  listed_file fs top n ds f ->
  file_at n ds f
  \/ (link_at n ds f
      /\ OsPath.isdir fs (OsPath.join (join_all top ds) f) = false).
Proof.
  intros (es & e & Hn & Hl & Hd). destruct e as [c|es'|t].
  - left. now exists es, c.
  - discriminate.
  - right. split; [now exists es, t|exact Hd].
Qed.

(** The walk returns only entries of the tree that lie below directories
    with allowed names, are listed among the files and carry one of the
    extensions. *)
Lemma walk_sound exts fs n :
  wf_node n = true ->
  forall top p,
    In p (walk_node (visit_exts exts) fs top n []) ->
    exists ds f,
      p = join_all top (ds ++ [f]) /\ listed_file fs top n ds f
      /\ (forall d, In d ds -> ~ In d excluded)
      /\ has_ext exts f = true.
Proof.
  induction n as [c|es IH|t] using node_ind; intros Hwf top p Hin;
    [destruct Hin| |destruct Hin].
  apply wf_node_dir in Hwf as (Hval & Hdis & Hsub).
  rewrite walk_visit_exts in Hin.
  apply in_fold_left_acc in Hin; [|intros; apply descend_step_acc].
  destruct Hin as [Hin|[e [He Hin]]].
  - apply in_map_iff in Hin as [f [<- Hf]].
    apply filter_In in Hf as [Hf Hext].
    apply in_file_names in Hf as [c [Hc Hd]].
    exists [], f. repeat split; [|intros d []|exact Hext].
    exists es, c. split; [reflexivity|]. split; [|exact Hd].
    now apply In_lookup_entry.
  - unfold descend_step in Hin.
    destruct (is_dir (snd e) && _) eqn:Hc; [|destruct Hin].
    apply andb_true_iff in Hc as [Hd Hm].
    apply mem_In, filter_In in Hm as [_ Hm]. apply not_excluded_iff in Hm.
    rewrite Forall_forall in IH.
    destruct (IH e He (Hsub e He) _ _ Hin) as (ds & f & -> & Hat & Hds & Hext).
    exists (fst e :: ds), f. repeat split; [|intros d [<-|Hd']; auto|exact Hext].
    destruct Hat as (es' & c & Hnode & Hlook & Hfile).
    exists es', c. split; [|split; [exact Hlook|exact Hfile]].
    simpl. destruct e as [k n']. simpl in *.
    now rewrite (In_lookup_entry k es n' Hdis He).
Qed.

Lemma node_at_cons_dir n d ds es' :
  node_at n (d :: ds) = Some (Dir es') ->
  exists es n', n = Dir es /\ lookup_entry d es = Some n'
                /\ is_dir n' = true /\ node_at n' ds = Some (Dir es').
Proof.
  simpl. destruct n as [c|es|t]; [discriminate| |discriminate].
  destruct (lookup_entry d es) as [n'|] eqn:E; [|discriminate].
  intros H. exists es, n'. repeat split; try assumption.
  destruct n'; [|reflexivity|]; destruct ds; simpl in H; discriminate.
Qed.

(** The walk leaves out no entry listed among the files below directories
    with allowed names. *)
Lemma walk_complete exts fs ds : forall n top f,
  listed_file fs top n ds f ->
  (forall d, In d ds -> ~ In d excluded) ->
  has_ext exts f = true ->
  In (join_all top (ds ++ [f])) (walk_node (visit_exts exts) fs top n []).
Proof.
  induction ds as [|d ds IH];
    intros n top f (es' & c & Hnode & Hlook & Hfile) Hds Hext.
  - simpl in Hnode. injection Hnode as ->.
    rewrite walk_visit_exts.
    apply in_fold_left_acc; [intros; apply descend_step_acc|].
    left. change (join_all top ([] ++ [f])) with (OsPath.join top f).
    apply in_map, filter_In. split; [|exact Hext].
    apply in_file_names. exists c. split; [|exact Hfile].
    now apply lookup_entry_In.
  - apply node_at_cons_dir in Hnode as (es & n' & -> & Hl & Hd & Hnode).
    rewrite walk_visit_exts.
    apply in_fold_left_acc; [intros; apply descend_step_acc|].
    right. exists (d, n'). split; [now apply lookup_entry_In|].
    unfold descend_step. cbn [fst snd]. rewrite Hd. cbn [andb].
    assert (Hm : Py.mem d (filter (fun d0 => negb (Py.mem d0 excluded))
                                  (subdir_names fs top es)) = true).
    { apply mem_In, filter_In. split.
      - apply in_subdir_names. exists n'. split; [now apply lookup_entry_In|].
        destruct n'; [discriminate|reflexivity|discriminate].
      - apply not_excluded_iff, Hds. now left. }
    rewrite Hm. apply IH; [|intros; apply Hds; now right|exact Hext].
    exists es', c. now repeat split.
Qed.

(** ** Path resolution *)

Lemma node_at_app n p q :
  node_at n (p ++ q) =
  match node_at n p with Some m => node_at m q | None => None end.
Proof.
  revert n. induction p as [|c p IH]; intros n; simpl; [reflexivity|].
  destruct n as [|es|]; [reflexivity| |reflexivity].
  destruct (lookup_entry c es); [apply IH|reflexivity].
Qed.

Lemma ends_with_sep_inv top :
  OsPath.ends_with_sep top = true ->
  exists t, top = (t ++ String OsPath.sep "")%string.
Proof.
  unfold OsPath.ends_with_sep.
  induction top as [|c top IH]; simpl; [discriminate|].
  destruct top as [|c' top'].
  - intros H. apply Ascii.eqb_eq in H. subst. now exists ""%string.
  - intros H. destruct (IH H) as [t Ht]. exists (String c t). simpl. now rewrite <- Ht.
Qed.

Lemma isabs_append a b :
  Py.truthy a = true -> OsPath.isabs (a ++ b) = OsPath.isabs a.
Proof. destruct a; simpl; [discriminate|reflexivity]. Qed.

Lemma with_sep_truthy top : Py.truthy top = true -> Py.truthy (with_sep top) = true.
Proof.
  unfold with_sep. destruct (OsPath.ends_with_sep top); [auto|].
  destruct top; simpl; auto.
Qed.

Lemma isabs_with_sep top :
  Py.truthy top = true -> OsPath.isabs (with_sep top) = OsPath.isabs top.
Proof.
  unfold with_sep. destruct (OsPath.ends_with_sep top); [reflexivity|].
  apply isabs_append.
Qed.

(** The resolution, component by component. *)
Lemma resolve_comps_nil r l pos : OsPath.resolve_comps r l pos [] = Some pos.
Proof. destruct l; reflexivity. Qed.

Lemma resolve_comps_cons r l pos comp rest :
  OsPath.resolve_comps r l pos (comp :: rest)
  = match node_at r pos with
    | Some (Dir es) =>
        if String.eqb comp "" || String.eqb comp "."
        then OsPath.resolve_comps r l pos rest
        else if String.eqb comp ".."
        then OsPath.resolve_comps r l (removelast pos) rest
        else match lookup_entry comp es with
             | Some (Link target) =>
                 match l with
                 | S l' =>
                     if Py.truthy target
                     then OsPath.resolve_comps r l'
                            (if OsPath.isabs target then [] else pos)
                            (OsPath.split_sep target ++ rest)
                     else None
                 | O => None
                 end
             | Some _ => OsPath.resolve_comps r l (pos ++ [comp]) rest
             | None => None
             end
    | _ => None
    end.
Proof. destruct l; reflexivity. Qed.

(** A name that is neither empty nor [.] nor [..]. *)
Lemma valid_name_plain x :
  valid_name x = true ->
  String.eqb x "" || String.eqb x "." = false /\ String.eqb x ".." = false.
Proof.
  unfold valid_name. rewrite !andb_true_iff, !negb_true_iff.
  intros [[[Ht H1] H2] _]. rewrite H1, H2.
  destruct x; [discriminate|]. now split.
Qed.

(** The name of an entry that is no link is one step of the resolution. *)
Lemma resolve_comps_name r l pos es x c rest :
  node_at r pos = Some (Dir es) -> lookup_entry x es = Some c ->
  is_link c = false -> valid_name x = true ->
  OsPath.resolve_comps r l pos (x :: rest)
  = OsPath.resolve_comps r l (pos ++ [x]) rest.
Proof.
  intros Hn Hl Hc Hv. rewrite resolve_comps_cons, Hn, Hl.
  destruct (valid_name_plain x Hv) as [-> ->].
  destruct c; [reflexivity|reflexivity|discriminate].
Qed.

(** Once a path is resolved, the name of an entry that is no link can
    follow. *)
Lemma resolve_comps_snoc r es x c :
  lookup_entry x es = Some c -> is_link c = false -> valid_name x = true ->
  forall l comps start pos,
    OsPath.resolve_comps r l start comps = Some pos ->
    node_at r pos = Some (Dir es) ->
    OsPath.resolve_comps r l start (comps ++ [x]) = Some (pos ++ [x]).
Proof.
  intros Hl Hc Hv.
  induction l as [|l IHl]; induction comps as [|c0 rest IHc];
    intros start pos H Hn.
  - rewrite resolve_comps_nil in H. injection H as ->. cbn [app].
    now rewrite (resolve_comps_name r _ pos es x c), resolve_comps_nil.
  - cbn [app]. rewrite resolve_comps_cons in H. rewrite resolve_comps_cons.
    destruct (node_at r start) as [[|es0|]|]; try discriminate.
    destruct (String.eqb c0 "" || String.eqb c0 "."); [now apply IHc|].
    destruct (String.eqb c0 ".."); [now apply IHc|].
    destruct (lookup_entry c0 es0) as [[| |]|]; try discriminate;
      now apply IHc.
  - rewrite resolve_comps_nil in H. injection H as ->. cbn [app].
    now rewrite (resolve_comps_name r _ pos es x c), resolve_comps_nil.
  - cbn [app]. rewrite resolve_comps_cons in H. rewrite resolve_comps_cons.
    destruct (node_at r start) as [[|es0|]|]; try discriminate.
    destruct (String.eqb c0 "" || String.eqb c0 "."); [now apply IHc|].
    destruct (String.eqb c0 ".."); [now apply IHc|].
    destruct (lookup_entry c0 es0) as [[| |t]|]; try discriminate;
      try now apply IHc.
    destruct (Py.truthy t); [|discriminate].
    rewrite app_assoc. now apply IHl.
Qed.

(** A trailing separator changes nothing where the path names a
    directory. *)
Lemma resolve_comps_drop_empty r :
  forall l comps start pos,
    OsPath.resolve_comps r l start (comps ++ [""%string]) = Some pos ->
    OsPath.resolve_comps r l start comps = Some pos.
Proof.
  induction l as [|l IHl]; induction comps as [|c0 rest IHc];
    intros start pos H.
  - cbn [app] in H. rewrite resolve_comps_cons in H.
    destruct (node_at r start) as [[|es0|]|]; try discriminate.
    cbn [String.eqb orb] in H. now rewrite resolve_comps_nil in *.
  - cbn [app] in H. rewrite resolve_comps_cons in H. rewrite resolve_comps_cons.
    destruct (node_at r start) as [[|es0|]|]; try discriminate.
    destruct (String.eqb c0 "" || String.eqb c0 "."); [now apply IHc|].
    destruct (String.eqb c0 ".."); [now apply IHc|].
    destruct (lookup_entry c0 es0) as [[| |]|]; try discriminate;
      now apply IHc.
  - cbn [app] in H. rewrite resolve_comps_cons in H.
    destruct (node_at r start) as [[|es0|]|]; try discriminate.
    cbn [String.eqb orb] in H. now rewrite resolve_comps_nil in *.
  - cbn [app] in H. rewrite resolve_comps_cons in H. rewrite resolve_comps_cons.
    destruct (node_at r start) as [[|es0|]|]; try discriminate.
    destruct (String.eqb c0 "" || String.eqb c0 "."); [now apply IHc|].
    destruct (String.eqb c0 ".."); [now apply IHc|].
    destruct (lookup_entry c0 es0) as [[| |t]|]; try discriminate;
      try now apply IHc.
    destruct (Py.truthy t); [|discriminate].
    rewrite app_assoc in H. now apply IHl.
Qed.

(** Splitting [top] followed by the name [x] gives the components of [top]
    up to a trailing empty one, then [x]. *)
Lemma split_sep_with_sep top x :
  no_sep x = true ->
  exists comps,
    OsPath.split_sep (with_sep top ++ x) = comps ++ [x]
    /\ (OsPath.split_sep top = comps
        \/ OsPath.split_sep top = comps ++ [""%string]).
Proof.
  intros Hx. unfold with_sep.
  destruct (OsPath.ends_with_sep top) eqn:E.
  - apply ends_with_sep_inv in E as [t ->]. exists (OsPath.split_sep t).
    rewrite append_assoc'. simpl append at 2.
    rewrite !split_sep_cons_sep, (split_sep_no_sep x) by assumption.
    split; [reflexivity|now right].
  - exists (OsPath.split_sep top).
    rewrite append_assoc'. simpl append at 2.
    rewrite split_sep_cons_sep, (split_sep_no_sep x) by assumption.
    split; [reflexivity|now left].
Qed.

Lemma resolve_pos_join fs top pos es x c :
  OsPath.resolve_pos fs top = Some pos ->
  node_at (Dir (root_entries fs)) pos = Some (Dir es) ->
  lookup_entry x es = Some c ->
  is_link c = false ->
  valid_name x = true ->
  OsPath.resolve_pos fs (OsPath.join top x) = Some (pos ++ [x]).
Proof.
  intros Hr Hn Hl Hc Hv. unfold OsPath.resolve_pos in *.
  destruct (Py.truthy top) eqn:Ht; [|discriminate].
  rewrite (join_valid_truthy top x Ht Hv), join_valid by assumption.
  rewrite isabs_append, isabs_with_sep by auto using with_sep_truthy.
  destruct (split_sep_with_sep top x (valid_name_no_sep x Hv))
    as (comps & -> & [E|E]); rewrite E in Hr.
  - eapply resolve_comps_snoc; eassumption.
  - apply resolve_comps_drop_empty in Hr.
    eapply resolve_comps_snoc; eassumption.
Qed.

Lemma resolve_pos_join_all fs ds : forall top pos n n',
  OsPath.resolve_pos fs top = Some pos ->
  node_at (Dir (root_entries fs)) pos = Some n ->
  forallb valid_name ds = true ->
  node_at n ds = Some n' ->
  is_link n' = false ->
  OsPath.resolve_pos fs (join_all top ds) = Some (pos ++ ds)
  /\ node_at (Dir (root_entries fs)) (pos ++ ds) = Some n'.
Proof.
  induction ds as [|d ds IH]; intros top pos n n' Hr Hn Hv Hat Hnl.
  - simpl in *. rewrite app_nil_r. split; congruence.
  - simpl in Hv. apply andb_true_iff in Hv as [Hd Hv].
    simpl in Hat. destruct n as [|es|]; [discriminate| |discriminate].
    destruct (lookup_entry d es) as [n1|] eqn:Hl; [|discriminate].
    change (join_all top (d :: ds)) with (join_all (OsPath.join top d) ds).
    replace (pos ++ d :: ds) with ((pos ++ [d]) ++ ds)
      by now rewrite <- app_assoc.
    assert (Hn1 : is_link n1 = false).
    { destruct ds; simpl in Hat; [now injection Hat as ->|].
      destruct n1; [discriminate|reflexivity|discriminate]. }
    apply (IH _ _ n1 n'); try assumption.
    + eapply resolve_pos_join; eassumption.
    + rewrite node_at_app, Hn. simpl. now rewrite Hl.
Qed.

Lemma wf_node_at n : forall ds n',
  wf_node n = true -> node_at n ds = Some n' ->
  forallb valid_name ds = true /\ wf_node n' = true.
Proof.
  intros ds. revert n. induction ds as [|d ds IH]; intros n n' Hwf Hat.
  - simpl in Hat. injection Hat as <-. now split.
  - simpl in Hat. destruct n as [|es|]; [discriminate| |discriminate].
    destruct (lookup_entry d es) as [n1|] eqn:Hl; [|discriminate].
    apply wf_node_dir in Hwf as (Hval & _ & Hsub).
    apply lookup_entry_In in Hl.
    destruct (IH n1 n' (Hsub _ Hl) Hat) as [Hv Hw].
    split; [|exact Hw]. simpl. rewrite Hv, andb_true_r.
    rewrite forallb_forall in Hval. apply Hval.
    apply (in_map fst) in Hl. exact Hl.
Qed.

Lemma file_at_node_at n ds f :
  file_at n ds f <-> exists c, node_at n (ds ++ [f]) = Some (File c).
Proof.
  unfold file_at. split.
  - intros (es & c & Hn & Hl). exists c. rewrite node_at_app, Hn. simpl. now rewrite Hl.
  - intros [c H]. rewrite node_at_app in H.
    destruct (node_at n ds) as [[|es|]|]; simpl in H; try discriminate.
    destruct (lookup_entry f es) as [m|] eqn:Hl; [|discriminate].
    injection H as ->. now exists es, c.
Qed.

(** A file of a well-formed tree is found again under its joined path. *)
Lemma resolve_file_at fs top n ds f :
  wf_fs fs = true ->
  OsPath.resolve fs top = Some n ->
  file_at n ds f ->
  exists c, OsPath.resolve fs (join_all top (ds ++ [f])) = Some (File c).
Proof.
  intros Hwf Hr Hat. apply file_at_node_at in Hat as [c Hat]. exists c.
  unfold OsPath.resolve in *.
  destruct (OsPath.resolve_pos fs top) as [pos|] eqn:Hp; [|discriminate].
  destruct (wf_node_at _ _ _ Hwf Hr) as [_ Hwn].
  destruct (wf_node_at _ _ _ Hwn Hat) as [Hv _].
  destruct (resolve_pos_join_all fs _ _ _ _ _ Hp Hr Hv Hat eq_refl) as [-> ->].
  reflexivity.
Qed.

Lemma resolve_truthy fs top n : OsPath.resolve fs top = Some n -> Py.truthy top = true.
Proof.
  unfold OsPath.resolve, OsPath.resolve_pos.
  destruct (Py.truthy top); [reflexivity|discriminate].
Qed.

Lemma resolve_wf fs top n :
  wf_fs fs = true -> OsPath.resolve fs top = Some n -> wf_node n = true.
Proof.
  unfold OsPath.resolve. intros Hwf H.
  destruct (OsPath.resolve_pos fs top) as [pos|]; [|discriminate].
  now destruct (wf_node_at _ _ _ Hwf H).
Qed.

(** ** No path twice *)

Lemma distinct_NoDup xs : distinct xs = true -> NoDup xs.
Proof.
  induction xs as [|x xs IH]; simpl; [constructor|].
  rewrite andb_true_iff, negb_true_iff. intros [Hx Hd].
  constructor; [now apply mem_false_In|auto].
Qed.

Lemma NoDup_fold_left_acc {E} (key : E -> string)
      (g : list string -> E -> list string) es :
  (forall e a, In e es -> g a e = a ++ g [] e) ->
  NoDup (map key es) ->
  (forall e, In e es -> NoDup (g [] e)) ->
  (forall e1 e2 p, In e1 es -> In e2 es ->
                   In p (g [] e1) -> In p (g [] e2) -> key e1 = key e2) ->
  forall acc,
    NoDup acc ->
    (forall e p, In e es -> In p acc -> ~ In p (g [] e)) ->
    NoDup (fold_left g es acc).
Proof.
  induction es as [|e es IH]; intros Hg Hk Hn Hd acc Ha Hacc; simpl; [assumption|].
  inversion Hk as [|? ? Hke Hk']; subst.
  rewrite (Hg e acc) by now left.
  apply IH; auto.
  - intros; apply Hg; now right.
  - intros; apply Hn; now right.
  - intros e1 e2 p H1 H2. apply Hd; now right.
  - apply NoDup_app; [assumption|apply Hn; now left|].
    intros p Hp. apply (Hacc e p); [now left|assumption].
  - intros e' p He' Hp Hp'. apply in_app_or in Hp as [Hp|Hp].
    + apply (Hacc e' p); [now right|assumption|assumption].
    + apply Hke. rewrite (Hd e e' p); auto.
      * now apply in_map.
      * now left.
      * now right.
Qed.

Lemma file_at_valid n ds f :
  wf_node n = true -> file_at n ds f -> forallb valid_name (ds ++ [f]) = true.
Proof.
  intros Hwf Hat. apply file_at_node_at in Hat as [c Hat].
  now destruct (wf_node_at _ _ _ Hwf Hat).
Qed.

Lemma listed_file_valid fs top n ds f :
  wf_node n = true -> listed_file fs top n ds f ->
  forallb valid_name (ds ++ [f]) = true.
Proof.
  intros Hwf (es & e & Hn & Hl & _).
  destruct (wf_node_at _ _ _ Hwf Hn) as [Hv Hw].
  apply wf_node_dir in Hw as (Hval & _ & _).
  rewrite forallb_app, Hv. simpl. rewrite andb_true_r.
  rewrite forallb_forall in Hval. apply Hval.
  apply lookup_entry_In in Hl. apply (in_map fst) in Hl. exact Hl.
Qed.

Lemma NoDup_sub_names (keep : string * node -> bool) es :
  distinct (map fst es) = true ->
  NoDup (map fst (filter keep es)).
Proof.
  intros Hd. apply distinct_NoDup in Hd.
  induction es as [|[k n] es IH]; simpl in *; [constructor|].
  inversion Hd as [|? ? Hk Hd']; subst.
  destruct (keep (k, n)); simpl; [constructor|]; auto.
  intros Hin. apply Hk. apply in_map_iff in Hin as [e [<- He]].
  apply filter_In in He as [He _]. now apply in_map.
Qed.

Lemma walk_NoDup exts fs n :
  wf_node n = true ->
  forall top, Py.truthy top = true ->
    NoDup (walk_node (visit_exts exts) fs top n []).
Proof.
  induction n as [c|es IH|t] using node_ind; intros Hwf top Ht;
    [constructor| |constructor].
  pose proof Hwf as Hwf'.
  apply wf_node_dir in Hwf as (Hval & Hdis & Hsub).
  rewrite Forall_forall in IH. rewrite forallb_forall in Hval.
  assert (Hvalid : forall e, In e es -> valid_name (fst e) = true).
  { intros e He. apply Hval. now apply in_map. }
  assert (Hvalid' : forall k m, In (k, m) es -> valid_name k = true).
  { intros k m He. apply (Hvalid _ He). }
  assert (Hdesc : forall e p,
             In e es ->
             In p (descend_step (visit_exts exts) fs top
                     (filter (fun d => negb (Py.mem d excluded))
                             (subdir_names fs top es))
                     [] e) ->
             exists comps, forallb valid_name (fst e :: comps) = true
                           /\ comps <> []
                           /\ p = join_all top (fst e :: comps)).
  { intros e p He Hp. unfold descend_step in Hp.
    destruct (_ && _); [|destruct Hp].
    destruct (walk_sound exts fs (snd e) (Hsub e He) _ _ Hp)
      as (ds & f & -> & Hat & _ & _).
    exists (ds ++ [f]). split; [|split; [now destruct ds|reflexivity]].
    simpl. rewrite (Hvalid e He). simpl.
    eapply listed_file_valid; [apply (Hsub e He)|exact Hat]. }
  rewrite walk_visit_exts. simpl app.
  apply (NoDup_fold_left_acc fst).
  - intros; apply descend_step_acc.
  - now apply distinct_NoDup.
  - intros e He. unfold descend_step.
    destruct (_ && _); [|constructor].
    apply IH; [assumption|auto|].
    apply join_valid_truthy; auto.
  - intros e1 e2 p H1 H2 Hp1 Hp2.
    destruct (Hdesc e1 p H1 Hp1) as (c1 & Hv1 & _ & E1).
    destruct (Hdesc e2 p H2 Hp2) as (c2 & Hv2 & _ & E2).
    assert (E : fst e1 :: c1 = fst e2 :: c2).
    { apply (join_all_inj top); try assumption; try discriminate. congruence. }
    now injection E.
  - apply NoDup_map_NoDup_ForallPairs.
    + intros x y Hx Hy E.
      apply filter_In in Hx as [Hx _]. apply filter_In in Hy as [Hy _].
      apply in_file_names in Hx as [cx [Hx _]].
      apply in_file_names in Hy as [cy [Hy _]].
      assert (E' : [x] = [y]).
      { apply (join_all_inj top); try assumption; try discriminate.
        - simpl. now rewrite (Hvalid' _ _ Hx).
        - simpl. now rewrite (Hvalid' _ _ Hy). }
      now injection E'.
    + apply NoDup_filter. unfold file_names.
      now apply NoDup_sub_names.
  - intros e p He Hp Hp'.
    apply in_map_iff in Hp as [f [<- Hf]].
    apply filter_In in Hf as [Hf _]. apply in_file_names in Hf as [cf [Hf _]].
    destruct (Hdesc e _ He Hp') as (comps & Hv & Hne & E).
    assert (E' : [f] = fst e :: comps).
    { apply (join_all_inj top); try assumption; try discriminate.
      simpl. now rewrite (Hvalid' _ _ Hf). }
    injection E' as _ E'. congruence.
Qed.

(* ===================================================================== *)
(** * Facts about computations                                           *)
(* ===================================================================== *)

Local Open Scope py_scope.

Lemma bind_val {A B} (m : M A) (k : A -> M B) w a w' :
  m w = (Val a, w') -> bind m k w = k a w'.
Proof. unfold bind. now intros ->. Qed.

Lemma print_run s w : print s w = (Val tt, printed w [s]).
Proof. reflexivity. Qed.

(** ** Computations that return *)

Lemma returns_ret {A} (a : A) : returns (ret a).
Proof. intros w. now exists a, w. Qed.

Lemma returns_print s : returns (print s).
Proof. intros w. now exists tt, (printed w [s]). Qed.

Lemma returns_get_fs : returns get_fs.
Proof. intros w. now exists (fs w), w. Qed.

Lemma returns_bind {A B} (m : M A) (k : A -> M B) :
  returns m -> (forall a, returns (k a)) -> returns (bind m k).
Proof.
  intros Hm Hk w. destruct (Hm w) as (a & w' & E).
  rewrite (bind_val _ _ _ _ _ E). apply Hk.
Qed.

Lemma returns_try_except {A} (m : M A) (h : exn -> M A) :
  (forall e, returns (h e)) -> returns (try_except m h).
Proof.
  intros Hh w. unfold try_except.
  destruct (m w) as [[a|e] w']; [now exists a, w'|apply Hh].
Qed.

Lemma returns_for_fold {A S} (body : A -> S -> M S) :
  (forall x s, returns (body x s)) ->
  forall xs s, returns (for_fold xs s body).
Proof.
  intros Hb xs. induction xs as [|x xs IH]; intros s; simpl.
  - apply returns_ret.
  - apply returns_bind; [apply Hb|intros; apply IH].
Qed.

Lemma returns_if {A} (b : bool) (m1 m2 : M A) :
  returns m1 -> returns m2 -> returns (if b then m1 else m2).
Proof. now destruct b. Qed.

Ltac returns_tac :=
  repeat first
         [ apply returns_ret | apply returns_print | apply returns_get_fs
         | apply returns_for_fold; intros
         | apply returns_try_except; intros
         | apply returns_bind; [|intros]
         | apply returns_if
         | match goal with |- returns (match ?x with _ => _ end) => destruct x end ].

(** ** Relations between the world before and after *)

Section RunsWithin.

Variable R : World -> World -> Prop.
Hypothesis R_refl : forall w, R w w.
Hypothesis R_trans : forall w1 w2 w3, R w1 w2 -> R w2 w3 -> R w1 w3.

Lemma runs_within_ret {A} (a : A) : runs_within R (ret a).
Proof. intros w. apply R_refl. Qed.

Lemma runs_within_raise {A} e : runs_within R (@raise A e).
Proof. intros w. apply R_refl. Qed.

Lemma runs_within_get_fs : runs_within R get_fs.
Proof. intros w. apply R_refl. Qed.

Lemma runs_within_bind {A B} (m : M A) (k : A -> M B) :
  runs_within R m -> (forall a, runs_within R (k a)) ->
  runs_within R (bind m k).
Proof.
  intros Hm Hk w. unfold bind. specialize (Hm w).
  destruct (m w) as [[a|e] w']; simpl in *; [|assumption].
  eapply R_trans; [exact Hm|apply Hk].
Qed.

Lemma runs_within_try_except {A} (m : M A) (h : exn -> M A) :
  runs_within R m -> (forall e, runs_within R (h e)) ->
  runs_within R (try_except m h).
Proof.
  intros Hm Hh w. unfold try_except. specialize (Hm w).
  destruct (m w) as [[a|e] w']; simpl in *; [assumption|].
  eapply R_trans; [exact Hm|apply Hh].
Qed.

Lemma runs_within_for_fold {A S} (body : A -> S -> M S) :
  (forall x s, runs_within R (body x s)) ->
  forall xs s, runs_within R (for_fold xs s body).
Proof.
  intros Hb xs. induction xs as [|x xs IH]; intros s; simpl.
  - apply runs_within_ret.
  - apply runs_within_bind; [apply Hb|intros; apply IH].
Qed.

Lemma runs_within_if {A} (b : bool) (m1 m2 : M A) :
  runs_within R m1 -> runs_within R m2 -> runs_within R (if b then m1 else m2).
Proof. now destruct b. Qed.

End RunsWithin.

Ltac within_tac R Rrefl Rtrans leaf :=
  repeat first
         [ apply (runs_within_ret R Rrefl)
         | apply (runs_within_get_fs R Rrefl)
         | apply (runs_within_raise R Rrefl)
         | leaf
         | apply (runs_within_for_fold R Rrefl Rtrans); intros
         | apply (runs_within_try_except R Rtrans); [|intros]
         | apply (runs_within_bind R Rtrans); [|intros]
         | apply runs_within_if
         | match goal with
           | |- runs_within _ (match ?x with _ => _ end) => destruct x
           end ].

(* ===================================================================== *)
(** * The source file enumerators                                       *)
(* ===================================================================== *)

(** The enumeration of both scripts is the walk with the shared body. *)
Lemma find_source_files_walk fs directory :
  Format.find_source_files fs directory
  = match OsPath.resolve fs directory with
    | Some n => walk_node (visit_exts Format.extensions) fs directory n []
    | None => []
    end.
Proof. reflexivity. Qed.

Lemma tidy_source_files_walk fs :
  Analyze.tidy_source_files fs
  = match OsPath.resolve fs "." with
    | Some n => walk_node (visit_exts [".cpp"; ".cc"; ".cxx"]) fs "." n []
    | None => []
    end.
Proof. reflexivity. Qed.

(** A tree without symbolic links holds none at any depth. *)
Lemma no_links_lookup es f e :
  no_links (Dir es) = true -> lookup_entry f es = Some e -> no_links e = true.
Proof.
  simpl. induction es as [|[k m] es IH]; simpl; [discriminate|].
  rewrite andb_true_iff. intros [Hm Hes].
  destruct (String.eqb f k); [now intros [= <-]|auto].
Qed.

Lemma no_links_node_at ds : forall n m,
  no_links n = true -> node_at n ds = Some m -> no_links m = true.
Proof.
  induction ds as [|d ds IH]; intros n m Hn Hat; simpl in Hat.
  - now injection Hat as <-.
  - destruct n as [|es|]; [discriminate| |discriminate].
    destruct (lookup_entry d es) as [n1|] eqn:Hl; [|discriminate].
    eapply IH; [|exact Hat]. eapply no_links_lookup; eassumption.
Qed.

Lemma no_links_link_at n ds f : no_links n = true -> ~ link_at n ds f.
Proof.
  intros Hn (es & t & Hat & Hl).
  pose proof (no_links_node_at _ _ _ Hn Hat) as Hes.
  pose proof (no_links_lookup _ _ _ Hes Hl) as Ht. discriminate.
Qed.

Section Enumeration.

Variables (exts : list string) (fs : FS) (top : string) (n : node).
Hypothesis fs_wf : wf_fs fs = true.
Hypothesis top_dir : OsPath.resolve fs top = Some n.

Let result := walk_node (visit_exts exts) fs top n [].

Lemma walk_outside_excluded p d :
  In p result -> In d excluded -> ~ inside_dir top p d.
Proof.
  intros Hp Hd (ds1 & ds2 & f' & Hv' & E').
  pose proof (resolve_wf _ _ _ fs_wf top_dir) as Hwn.
  destruct (walk_sound exts fs n Hwn top p Hp) as (ds & f & E & Hat & Hds & _).
  pose proof (listed_file_valid _ _ _ _ _ Hwn Hat) as Hv.
  assert (El : ds ++ [f] = ds1 ++ d :: ds2 ++ [f']).
  { apply (join_all_inj top); try assumption.
    - eapply resolve_truthy, top_dir.
    - now destruct ds.
    - now destruct ds1.
    - congruence. }
  change (ds1 ++ d :: ds2 ++ [f']) with (ds1 ++ (d :: ds2) ++ [f']) in El.
  rewrite app_assoc in El. apply app_inj_tail in El as [-> _].
  apply (Hds d); [|exact Hd]. apply in_or_app. right. now left.
Qed.

(** A returned path ends with one of the extensions and names a regular
    file, which is found again under that path, or a symbolic link that
    does not lead to a directory. *)
Lemma walk_has_ext_and_entry p :
  In p result ->
  has_ext exts p = true
  /\ ((exists content, OsPath.resolve fs p = Some (File content))
      \/ (exists ds f,
             p = join_all top (ds ++ [f]) /\ link_at n ds f
             /\ OsPath.isdir fs p = false)).
Proof.
  intros Hp.
  pose proof (resolve_wf _ _ _ fs_wf top_dir) as Hwn.
  destruct (walk_sound exts fs n Hwn top p Hp) as (ds & f & E & Hat & _ & Hext).
  split.
  - pose proof (listed_file_valid _ _ _ _ _ Hwn Hat) as Hv.
    rewrite forallb_app in Hv. apply andb_true_iff in Hv as [_ Hf].
    simpl in Hf. rewrite andb_true_r in Hf.
    rewrite E, join_all_snoc.
    destruct (join_suffix (join_all top ds) f) as [a' ->].
    + apply no_sep_not_abs, valid_name_no_sep, Hf.
    + now apply has_ext_append.
  - destruct (listed_file_inv _ _ _ _ _ Hat) as [Hfile|[Hlink Hnd]].
    + left. rewrite E. eapply resolve_file_at; eassumption.
    + right. exists ds, f. split; [exact E|]. split; [exact Hlink|].
      now rewrite E, join_all_snoc.
Qed.

Lemma walk_result_NoDup : NoDup result.
Proof.
  apply walk_NoDup.
  - eapply resolve_wf; eassumption.
  - eapply resolve_truthy, top_dir.
Qed.

End Enumeration.

(** C6: in a well-formed file system, no path returned by the enumerator of
    the formatter, or by the one of the clang-tidy runner, goes, below the
    directory the walk started from, through a directory named [build],
    [external] or [.git], at whatever depth.  The match is on the exact
    name: a file with one of the extensions is returned whenever none of the
    directories above it (below the start) bears exactly one of those
    names. *)
Theorem enumerators_skip_excluded_directories fs directory :
  wf_fs fs = true ->
  (forall p d,
      In p (Format.find_source_files fs directory) ->
      In d excluded -> ~ inside_dir directory p d)
  /\ (forall p d,
         In p (Analyze.tidy_source_files fs) ->
         In d excluded -> ~ inside_dir "." p d)
  /\ (forall n ds f,
         OsPath.resolve fs directory = Some n ->
         file_at n ds f ->
         (forall d, In d ds -> ~ In d excluded) ->
         has_ext Format.extensions f = true ->
         In (join_all directory (ds ++ [f]))
            (Format.find_source_files fs directory))
  /\ (forall n ds f,
         OsPath.resolve fs "." = Some n ->
         file_at n ds f ->
         (forall d, In d ds -> ~ In d excluded) ->
         has_ext [".cpp"; ".cc"; ".cxx"] f = true ->
         In (join_all "." (ds ++ [f])) (Analyze.tidy_source_files fs)).
Proof.
  intros Hwf. repeat split.
  - intros p d Hp. rewrite find_source_files_walk in Hp.
    destruct (OsPath.resolve fs directory) as [n|] eqn:Hr; [|destruct Hp].
    now apply (walk_outside_excluded Format.extensions fs directory n Hwf Hr).
  - intros p d Hp. rewrite tidy_source_files_walk in Hp.
    destruct (OsPath.resolve fs ".") as [n|] eqn:Hr; [|destruct Hp].
    now apply (walk_outside_excluded [".cpp"; ".cc"; ".cxx"] fs "." n Hwf Hr).
  - intros n ds f Hr Hat Hds Hext.
    rewrite find_source_files_walk, Hr.
    apply walk_complete; [now apply file_at_listed|assumption|assumption].
  - intros n ds f Hr Hat Hds Hext.
    rewrite tidy_source_files_walk, Hr.
    apply walk_complete; [now apply file_at_listed|assumption|assumption].
Qed.

(** C7 (as amended): in a well-formed file system, every path
    [find_source_files] returns ends with one of the extensions and does
    not name a directory; it names a regular file, which exists, or a
    symbolic link of a traversed directory, which may lead to a file or
    nowhere.  In a tree without symbolic links every returned path names an
    existing regular file.  No path is returned twice.  In particular, for
    a directory that holds [a.cpp], [build/b.cpp], [sub/c.hpp] and
    [sub/d.txt], what is returned is [a.cpp] and [sub/c.hpp], each joined
    onto the directory given. *)
Theorem enumerator_returns_source_files_and_links fs directory :
  wf_fs fs = true ->
  (forall p,
      In p (Format.find_source_files fs directory) ->
      has_ext Format.extensions p = true
      /\ OsPath.isdir fs p = false
      /\ ((OsPath.exists_ fs p = true
           /\ exists content, read_file fs p = Some content)
          \/ (exists n ds f,
                 OsPath.resolve fs directory = Some n
                 /\ p = join_all directory (ds ++ [f])
                 /\ link_at n ds f)))
  /\ (forall n,
         OsPath.resolve fs directory = Some n -> no_links n = true ->
         forall p,
           In p (Format.find_source_files fs directory) ->
           OsPath.exists_ fs p = true
           /\ exists content, read_file fs p = Some content)
  /\ NoDup (Format.find_source_files fs directory)
  /\ (forall a b c d,
         OsPath.resolve fs directory = Some (Examples.scenario_tree a b c d) ->
         Format.find_source_files fs directory
         = [OsPath.join directory "a.cpp";
            OsPath.join (OsPath.join directory "sub") "c.hpp"]).
Proof.
  intros Hwf.
  assert (Hfile : forall p content,
             OsPath.resolve fs p = Some (File content) ->
             OsPath.isdir fs p = false
             /\ OsPath.exists_ fs p = true
             /\ exists content', read_file fs p = Some content').
  { intros p content Hc. unfold OsPath.isdir, OsPath.exists_, read_file.
    rewrite Hc. repeat split. now exists content. }
  split; [|split; [|split]].
  - intros p Hp. rewrite find_source_files_walk in Hp.
    destruct (OsPath.resolve fs directory) as [n|] eqn:Hr; [|destruct Hp].
    destruct (walk_has_ext_and_entry Format.extensions fs directory n Hwf Hr p Hp)
      as [Hext [[content Hc]|(ds & f & E & Hlink & Hnd)]].
    + destruct (Hfile p content Hc) as (H1 & H2 & H3).
      split; [exact Hext|]. split; [exact H1|]. left. now split.
    + split; [exact Hext|]. split; [exact Hnd|]. right. now exists n, ds, f.
  - intros n Hr Hnl p Hp. rewrite find_source_files_walk, Hr in Hp.
    destruct (walk_has_ext_and_entry Format.extensions fs directory n Hwf Hr p Hp)
      as [_ [[content Hc]|(ds & f & _ & Hlink & _)]].
    + now destruct (Hfile p content Hc) as (_ & H2 & H3).
    + now destruct (no_links_link_at n ds f Hnl).
  - rewrite find_source_files_walk.
    destruct (OsPath.resolve fs directory) as [n|] eqn:Hr; [|constructor].
    now apply (walk_result_NoDup Format.extensions fs directory n Hwf Hr).
  - intros a b c d Hr. rewrite find_source_files_walk, Hr. reflexivity.
Qed.

(* ===================================================================== *)
(** * The availability probes                                           *)
(* ===================================================================== *)

(** C9: when the operating system cannot locate the executable the probe
    tries to run, [subprocess.run] raises [FileNotFoundError]; the probe
    catches it, prints that the tool was not found together with the
    install hint, and returns [False] to its caller.  This holds for
    [check_tool] of the analyzer and for [check_clang_format] of the
    formatter. *)
Theorem probe_catches_lookup_failure
        (spawn : process_model) (tool_name install_instructions : string)
        (w : World) (msg : string) (fs' : FS) :
  spawn [tool_name; "--version"] (fs w) = (Raise (FileNotFoundError msg), fs') ->
  Analyze.check_tool spawn tool_name install_instructions w
  = (Val false,
     mkWorld fs'
             (console w ++ [("✗ " ++ tool_name ++ " not found")%string;
                            ("  Install: " ++ install_instructions)%string])
             (spawned w ++ [[tool_name; "--version"]]))
  /\ (tool_name = "clang-format" ->
      Format.check_clang_format spawn w
      = (Val false,
         mkWorld fs'
                 (console w ++
                    ["ERROR: clang-format not found!";
                     "Please install clang-format:";
                     "  Windows: Install LLVM from https://llvm.org/builds/";
                     "  Linux: sudo apt install clang-format (or equivalent)";
                     "  macOS: brew install clang-format"])
                 (spawned w ++ [["clang-format"; "--version"]]))).
Proof.
  intros H. split.
  - unfold Analyze.check_tool, bind, try_except, subprocess_run.
    rewrite H. unfold print, ret. simpl. now rewrite <- !app_assoc.
  - intros ->.
    unfold Format.check_clang_format, bind, try_except, subprocess_run.
    rewrite H. unfold print, ret. simpl. now rewrite <- !app_assoc.
Qed.

(** Other failures of the probe are not handled: they reach the caller. *)
Lemma check_tool_propagates spawn tool_name install_instructions w msg fs' :
  spawn [tool_name; "--version"] (fs w) = (Raise (OtherException msg), fs') ->
  fst (Analyze.check_tool spawn tool_name install_instructions w)
  = Raise (OtherException msg).
Proof.
  intros H. unfold Analyze.check_tool, bind, try_except, subprocess_run.
  now rewrite H.
Qed.

(* ===================================================================== *)
(** * The analyzer                                                      *)
(* ===================================================================== *)

Theorem missing_compile_commands_runner spawn build_dir w :
  let db := OsPath.join build_dir "compile_commands.json" in
  OsPath.exists_ (fs w) db = false ->
  Analyze.run_clang_tidy spawn build_dir w
  = (Val 1%Z,
     printed w (tidy_banner ++
                [("ERROR: " ++ db ++ " not found!")%string;
                 "Please build the project with CMAKE_EXPORT_COMPILE_COMMANDS=ON"])).
Proof.
  intros db H. unfold Analyze.run_clang_tidy, bind, get_fs, print, ret. simpl.
  fold db. rewrite H. simpl. unfold printed. simpl. now rewrite <- !app_assoc.
Qed.


Section Analyzer.

Import Analyze.

Lemma run_cppcheck_returns spawn dirs : returns (run_cppcheck spawn dirs).
Proof. unfold run_cppcheck. returns_tac. Qed.

Lemma tidy_loop_returns spawn build_dir files :
  returns (tidy_loop spawn build_dir files).
Proof. unfold tidy_loop. returns_tac. Qed.

Lemma run_clang_tidy_returns spawn build_dir :
  returns (run_clang_tidy spawn build_dir).
Proof.
  unfold run_clang_tidy. returns_tac.
Qed.

Lemma run_iwyu_returns : returns run_include_what_you_use.
Proof. unfold run_include_what_you_use. returns_tac. Qed.

Lemma fold_lor_zero codes : forall a,
  fold_left Z.lor codes a = 0%Z <-> a = 0%Z /\ Forall (fun c => c = 0%Z) codes.
Proof.
  induction codes as [|c codes IH]; intros a; simpl.
  - split; [auto|tauto].
  - rewrite IH, Z.lor_eq_0_iff. split.
    + intros [[Ha Hc] Hf]. auto.
    + intros [Ha Hf]. inversion Hf; subst. auto.
Qed.

Lemma main_unfold spawn tool build_dir w0 :
  main spawn tool build_dir w0
  = bind (probe_tools spawn tool) (run_tools spawn tool build_dir)
         (printed w0 analysis_header).
Proof.
  unfold main, bind at 1 2, print. simpl. unfold printed, analysis_header.
  simpl. now rewrite <- app_assoc.
Qed.

(** A gated step of [run_tools]: the runner, if it is executed, ORs its
    return code into [exit_code]. *)
Lemma gated_step (b : bool) (runner : M Z) (exit_code : Z) w :
  returns runner ->
  exists codes w',
    run_each (if b then [runner] else []) w = (Val codes, w')
    /\ (if b then c <- runner ;; ret (Z.lor exit_code c) else ret exit_code) w
       = (Val (fold_left Z.lor codes exit_code), w').
Proof.
  intros Hr. destruct b.
  - destruct (Hr w) as (c & w' & E). exists [c], w'.
    simpl. rewrite !(bind_val _ _ _ _ _ E). now split.
  - exists [], w. now split.
Qed.

Lemma run_each_app {A} (ms1 ms2 : list (M A)) w codes1 w1 codes2 w2 :
  run_each ms1 w = (Val codes1, w1) ->
  run_each ms2 w1 = (Val codes2, w2) ->
  run_each (ms1 ++ ms2) w = (Val (codes1 ++ codes2), w2).
Proof.
  revert w codes1. induction ms1 as [|m ms1 IH]; intros w codes1 E1 E2; simpl in *.
  - injection E1 as <- <-. exact E2.
  - unfold bind in *. destruct (m w) as [[a|e] w'] eqn:Em; [|discriminate].
    destruct (run_each ms1 w') as [[rest|e] w''] eqn:Er; [|discriminate].
    injection E1 as <- <-. simpl.
    erewrite IH; [reflexivity|exact Er|]. exact E2.
Qed.

Lemma run_tools_codes spawn tool build_dir avail w :
  exists codes w',
    run_each (executed_runners spawn tool build_dir avail) w = (Val codes, w')
    /\ run_tools spawn tool build_dir avail w
       = (Val (fold_left Z.lor codes 0%Z), printed w' analysis_footer).
Proof.
  unfold executed_runners, run_tools.
  destruct (gated_step (tool_in tool [Cppcheck; All] && get_truthy "cppcheck" avail)
              (run_cppcheck spawn source_dirs) 0%Z w
              (run_cppcheck_returns spawn source_dirs))
    as (cs1 & w1 & R1 & S1).
  rewrite (bind_val _ _ _ _ _ S1).
  destruct (gated_step (tool_in tool [ClangTidy; All] && get_truthy "clang-tidy" avail)
              (run_clang_tidy spawn build_dir) (fold_left Z.lor cs1 0%Z) w1
              (run_clang_tidy_returns spawn build_dir))
    as (cs2 & w2 & R2 & S2).
  rewrite (bind_val _ _ _ _ _ S2).
  destruct (gated_step (tool_in tool [Iwyu; All])
              run_include_what_you_use
              (fold_left Z.lor cs2 (fold_left Z.lor cs1 0%Z)) w2
              run_iwyu_returns)
    as (cs3 & w3 & R3 & S3).
  rewrite (bind_val _ _ _ _ _ S3).
  exists (cs1 ++ cs2 ++ cs3), w3. split.
  - eapply run_each_app; [exact R1|]. eapply run_each_app; eassumption.
  - rewrite !fold_left_app. unfold bind, print, ret, printed, analysis_footer.
    simpl. now rewrite <- !app_assoc.
Qed.

(** C2: once the probes have filled [tools_available], the value
    [Analyze.main] hands to [sys.exit] is the bitwise OR of the return codes
    of the runners it executes (cppcheck, clang-tidy and include-what-you-use,
    each if selected and, for the first two, found), taken in order; it is 0
    exactly when every executed runner returned 0. *)
Theorem analyzer_exit_code_is_or spawn tool build_dir w0 avail w :
  probe_tools spawn tool (printed w0 analysis_header) = (Val avail, w) ->
  exists codes w',
    run_each (executed_runners spawn tool build_dir avail) w = (Val codes, w')
    /\ main spawn tool build_dir w0
       = (Val (fold_left Z.lor codes 0%Z), printed w' analysis_footer)
    /\ (fold_left Z.lor codes 0%Z = 0%Z <-> Forall (fun c => c = 0%Z) codes).
Proof.
  intros Hp. destruct (run_tools_codes spawn tool build_dir avail w)
    as (codes & w' & Hr & Ht).
  exists codes, w'. repeat split.
  - exact Hr.
  - rewrite main_unfold, (bind_val _ _ _ _ _ Hp). exact Ht.
  - intros H. now apply fold_lor_zero in H.
  - intros H. apply fold_lor_zero. now split.
Qed.

Lemma gated_step_run (b : bool) (runner : M Z) (exit_code : Z) w codes w' :
  run_each (if b then [runner] else []) w = (Val codes, w') ->
  (if b then c <- runner ;; ret (Z.lor exit_code c) else ret exit_code) w
  = (Val (fold_left Z.lor codes exit_code), w').
Proof.
  destruct b; simpl.
  - unfold bind, ret. destruct (runner w) as [[c|e] w'']; [|discriminate].
    now intros [= <- <-].
  - unfold ret. now intros [= <- <-].
Qed.

(** C3: when [compile_commands.json] does not exist under the build
    directory at the moment the clang-tidy runner starts, the runner prints
    the missing-file error with the remedy and returns 1; it spawns no
    process and leaves the file system alone.  The analyzer does not raise:
    the runners before and after it still run, and the exit code is the OR
    of their return codes with that 1, hence not 0. *)
Theorem missing_compile_commands
        spawn tool build_dir avail w0 w codes1 w1 :
  let db := OsPath.join build_dir "compile_commands.json" in
  tool_in tool [ClangTidy; All] = true ->
  get_truthy "clang-tidy" avail = true ->
  probe_tools spawn tool (printed w0 analysis_header) = (Val avail, w) ->
  run_each (if tool_in tool [Cppcheck; All] && get_truthy "cppcheck" avail
            then [run_cppcheck spawn source_dirs] else []) w
  = (Val codes1, w1) ->
  OsPath.exists_ (fs w1) db = false ->
  run_clang_tidy spawn build_dir w1 = (Val 1%Z, printed w1 (missing_db_report db))
  /\ spawned (snd (run_clang_tidy spawn build_dir w1)) = spawned w1
  /\ fs (snd (run_clang_tidy spawn build_dir w1)) = fs w1
  /\ exists codes3 w3,
      run_each (if tool_in tool [Iwyu; All] then [run_include_what_you_use] else [])
               (printed w1 (missing_db_report db))
      = (Val codes3, w3)
      /\ main spawn tool build_dir w0
         = (Val (fold_left Z.lor (codes1 ++ 1%Z :: codes3) 0%Z),
            printed w3 analysis_footer)
      /\ fold_left Z.lor (codes1 ++ 1%Z :: codes3) 0%Z <> 0%Z.
Proof.
  intros db Hsel Hav Hp H1 Hdb.
  pose proof (missing_compile_commands_runner spawn build_dir w1 Hdb) as Ht.
  fold db in Ht. change (tidy_banner ++ _) with (missing_db_report db) in Ht.
  split; [exact Ht|]. split; [now rewrite Ht|]. split; [now rewrite Ht|].
  destruct (gated_step (tool_in tool [Iwyu; All]) run_include_what_you_use
              (fold_left Z.lor (codes1 ++ [1%Z]) 0%Z)
              (printed w1 (missing_db_report db)) run_iwyu_returns)
    as (codes3 & w3 & R3 & S3).
  exists codes3, w3. split; [exact R3|]. split.
  - rewrite main_unfold, (bind_val _ _ _ _ _ Hp). unfold run_tools.
    rewrite (bind_val _ _ _ _ _ (gated_step_run _ _ _ _ _ _ H1)).
    rewrite Hsel, Hav. cbn [andb].
    rewrite (bind_val _ _ _ _ _ (bind_val _ _ _ _ _ Ht)).
    unfold ret at 1.
    replace (Z.lor (fold_left Z.lor codes1 0%Z) 1)
      with (fold_left Z.lor (codes1 ++ [1%Z]) 0%Z)
      by now rewrite fold_left_app.
    rewrite (bind_val _ _ _ _ _ S3).
    replace (codes1 ++ 1%Z :: codes3) with ((codes1 ++ [1%Z]) ++ codes3)
      by now rewrite <- app_assoc.
    rewrite (fold_left_app _ (codes1 ++ [1%Z])).
    unfold bind, print, ret, printed, analysis_footer. simpl.
    now rewrite <- !app_assoc.
  - intros H. apply fold_lor_zero in H as [_ H].
    apply Forall_app in H as [_ H]. inversion H. discriminate.
Qed.

Lemma run_clang_tidy_zero spawn build_dir w :
  OsPath.exists_ (fs w) (OsPath.join build_dir "compile_commands.json") = true ->
  exists w', run_clang_tidy spawn build_dir w = (Val 0%Z, w').
Proof.
  intros Hdb. unfold run_clang_tidy.
  repeat (rewrite (bind_val _ _ _ _ _ (print_run _ _))).
  unfold bind at 1, get_fs at 1. cbn [fs printed].
  rewrite Hdb. cbn [negb].
  destruct (tidy_source_files (fs w)) as [|f files] eqn:Ef.
  - rewrite (bind_val _ _ _ _ _ (print_run _ _)). eexists. reflexivity.
  - rewrite (bind_val _ _ _ _ _ (print_run _ _)).
    destruct (tidy_loop_returns spawn build_dir (f :: files)
                (printed (printed (printed (printed w [(nl ++ rule60)%string])
                   ["Running clang-tidy..."%string]) [rule60])
                   [("Analyzing " ++ Py.str_of_nat (length (f :: files))
                                  ++ " source files...")%string]))
      as (issues & w' & El).
    rewrite (bind_val _ _ _ _ _ El).
    destruct (Nat.eqb issues 0);
      rewrite (bind_val _ _ _ _ _ (print_run _ _)); eexists; reflexivity.
Qed.

Lemma run_iwyu_zero w :
  exists w', run_include_what_you_use w = (Val 0%Z, w').
Proof. eexists. reflexivity. Qed.

(** C10: when [compile_commands.json] exists under the build directory, the
    clang-tidy runner returns 0 whatever clang-tidy reports and however many
    source files there are (none included), so the exit code of the analyzer
    is the OR of the other runners' codes alone: with include-what-you-use
    returning 0, that of cppcheck if it ran. *)
Theorem clang_tidy_findings_do_not_reach_exit_code
        spawn tool build_dir avail w0 w codes1 w1 :
  probe_tools spawn tool (printed w0 analysis_header) = (Val avail, w) ->
  run_each (if tool_in tool [Cppcheck; All] && get_truthy "cppcheck" avail
            then [run_cppcheck spawn source_dirs] else []) w
  = (Val codes1, w1) ->
  OsPath.exists_ (fs w1) (OsPath.join build_dir "compile_commands.json") = true ->
  (exists w2, run_clang_tidy spawn build_dir w1 = (Val 0%Z, w2))
  /\ fst (main spawn tool build_dir w0) = Val (fold_left Z.lor codes1 0%Z).
Proof.
  intros Hp H1 Hdb.
  destruct (run_clang_tidy_zero spawn build_dir w1 Hdb) as [w2 Ht].
  split; [now exists w2|].
  rewrite main_unfold, (bind_val _ _ _ _ _ Hp). unfold run_tools.
  rewrite (bind_val _ _ _ _ _ (gated_step_run _ _ _ _ _ _ H1)).
  set (e1 := fold_left Z.lor codes1 0%Z).
  assert (H2 : exists w2',
             (if tool_in tool [ClangTidy; All] && get_truthy "clang-tidy" avail
              then c <- run_clang_tidy spawn build_dir ;; ret (Z.lor e1 c)
              else ret e1) w1 = (Val e1, w2')).
  { destruct (tool_in tool [ClangTidy; All] && get_truthy "clang-tidy" avail).
    - exists w2. rewrite (bind_val _ _ _ _ _ Ht). unfold ret.
      now rewrite Z.lor_0_r.
    - now exists w1. }
  destruct H2 as [w2' H2]. rewrite (bind_val _ _ _ _ _ H2).
  assert (H3 : exists w3,
             (if tool_in tool [Iwyu; All]
              then c <- run_include_what_you_use ;; ret (Z.lor e1 c)
              else ret e1) w2' = (Val e1, w3)).
  { destruct (tool_in tool [Iwyu; All]).
    - destruct (run_iwyu_zero w2') as [w3 E3]. exists w3.
      rewrite (bind_val _ _ _ _ _ E3). unfold ret. now rewrite Z.lor_0_r.
    - now exists w2'. }
  destruct H3 as [w3 H3]. rewrite (bind_val _ _ _ _ _ H3).
  reflexivity.
Qed.

(** C5 (as amended): [run_cppcheck] spawns exactly one process.  Its
    argument vector is the fixed cppcheck command line followed by those
    source directories that exist, in the order of the list; directories
    that do not exist are left out and nothing is printed about them.  When
    the process completes, its standard output and standard error are
    printed as they are (each under a heading, when not empty) and its exit
    status is returned; when it cannot be started, the error is printed and
    1 is returned. *)
Theorem cppcheck_single_invocation spawn dirs w :
  let cmd := cppcheck_base_cmd ++ filter (OsPath.exists_ (fs w)) dirs in
  spawned (snd (run_cppcheck spawn dirs w)) = spawned w ++ [cmd]
  /\ (forall result fs',
         spawn cmd (fs w) = (Val result, fs') ->
         run_cppcheck spawn dirs w
         = (Val (returncode result),
            mkWorld fs'
                    (console w ++ cppcheck_banner ++ cppcheck_report result)
                    (spawned w ++ [cmd])))
  /\ (forall e fs',
         spawn cmd (fs w) = (Raise e, fs') ->
         run_cppcheck spawn dirs w
         = (Val 1%Z,
            mkWorld fs'
                    (console w ++ cppcheck_banner
                       ++ [("Error running cppcheck: " ++ exn_str e)%string])
                    (spawned w ++ [cmd]))).
Proof.
  intros cmd.
  assert (Hval : forall result fs',
             spawn cmd (fs w) = (Val result, fs') ->
             run_cppcheck spawn dirs w
             = (Val (returncode result),
                mkWorld fs'
                        (console w ++ cppcheck_banner ++ cppcheck_report result)
                        (spawned w ++ [cmd]))).
  { intros result fs' H.
    unfold run_cppcheck, bind, try_except, subprocess_run, get_fs, print, ret.
    cbn [fs console spawned].
    change (cppcheck_base_cmd ++ filter _ dirs) with cmd. rewrite H.
    unfold cppcheck_report, cppcheck_banner.
    destruct (Py.truthy (stdout result)), (Py.truthy (stderr result));
      cbn [fs console spawned]; now rewrite <- !app_assoc. }
  assert (Hexn : forall e fs',
             spawn cmd (fs w) = (Raise e, fs') ->
             run_cppcheck spawn dirs w
             = (Val 1%Z,
                mkWorld fs'
                        (console w ++ cppcheck_banner
                           ++ [("Error running cppcheck: " ++ exn_str e)%string])
                        (spawned w ++ [cmd]))).
  { intros e fs' H.
    unfold run_cppcheck, bind, try_except, subprocess_run, get_fs, print, ret.
    cbn [fs console spawned].
    change (cppcheck_base_cmd ++ filter _ dirs) with cmd. rewrite H.
    unfold cppcheck_banner. cbn [fs console spawned]. now rewrite <- !app_assoc. }
  split; [|split; assumption].
  destruct (spawn cmd (fs w)) as [[result|e] fs'] eqn:E.
  - now rewrite (Hval _ _ eq_refl).
  - now rewrite (Hexn _ _ eq_refl).
Qed.

End Analyzer.

(** ** What the probes gate *)

Section Gates.

Import Analyze.

Variable spawn : process_model.

(** A cppcheck the probe did not find is not run: with only cppcheck
    selected nothing is spawned and the exit code is 0. *)
Lemma cppcheck_is_gated build_dir avail w :
  get_truthy "cppcheck" avail = false ->
  run_tools spawn Cppcheck build_dir avail w
  = (Val 0%Z, printed w analysis_footer).
Proof.
  intros H. unfold run_tools. cbn [tool_in existsb tool_eqb orb andb].
  rewrite H. unfold bind, print, ret, printed, analysis_footer. simpl.
  now rewrite <- !app_assoc.
Qed.

(** A clang-tidy the probe did not find is not run either. *)
Lemma clang_tidy_is_gated build_dir avail w :
  get_truthy "clang-tidy" avail = false ->
  run_tools spawn ClangTidy build_dir avail w
  = (Val 0%Z, printed w analysis_footer).
Proof.
  intros H. unfold run_tools. cbn [tool_in existsb tool_eqb orb andb].
  rewrite H. unfold bind, print, ret, printed, analysis_footer. simpl.
  now rewrite <- !app_assoc.
Qed.

(** The include-what-you-use runner is entered whatever the dictionary
    says: its banner is printed. *)
Lemma iwyu_is_not_gated build_dir avail w :
  exists w',
    run_tools spawn Iwyu build_dir avail w = (Val 0%Z, w')
    /\ In "Running include-what-you-use..."%string (console w').
Proof.
  eexists. split; [reflexivity|].
  cbn [snd console fs spawned]. rewrite !in_app_iff. simpl. tauto.
Qed.

End Gates.

(** C4, at a machine without include-what-you-use and with [--tool iwyu]:
    the probe prints that the tool was not found, and the runner is entered
    all the same (its banner and its text are printed) before the run ends
    with exit code 0. *)
Theorem iwyu_runner_entered_after_failed_probe :
  let r := Analyze.main Examples.nothing_installed Analyze.Iwyu "build"
                        (Examples.start Examples.project_fs) in
  fst r = Val 0%Z
  /\ console (snd r)
     = analysis_header
         ++ ["✗ include-what-you-use not found";
             "  Install: Complex setup - see https://include-what-you-use.org/";
             (nl ++ rule60)%string;
             "Running include-what-you-use...";
             rule60;
             "include-what-you-use requires compilation with special flags.";
             "This is complex to set up automatically. Please refer to:";
             "https://include-what-you-use.org/"]
         ++ analysis_footer
  /\ spawned (snd r) = [["include-what-you-use"; "--version"]].
Proof. vm_compute. repeat split. Qed.

(* ===================================================================== *)
(** * The formatter                                                     *)
(* ===================================================================== *)

Lemma format_file_returns spawn f dry : returns (Format.format_file spawn f dry).
Proof. unfold Format.format_file. returns_tac. Qed.

Lemma check_loop_returns spawn files : returns (Format.check_loop spawn files).
Proof.
  unfold Format.check_loop. apply returns_for_fold. intros.
  apply returns_bind; [apply format_file_returns|]. intros []; returns_tac.
Qed.

Lemma apply_loop_returns spawn files : returns (Format.apply_loop spawn files).
Proof.
  unfold Format.apply_loop. apply returns_for_fold. intros.
  apply returns_bind; [apply format_file_returns|]. intros []; returns_tac.
Qed.

Lemma check_loop_all_ok spawn files :
  forall acc w,
    (forall f, In f files -> well_formatted spawn (fs w) f) ->
    exists w',
      for_fold files acc
        (fun file_path files_needing_format =>
           needs <- Format.format_file spawn file_path true ;;
           if needs
           then print ("  NEEDS FORMATTING: " ++ file_path) ;;
                ret (files_needing_format ++ [file_path])
           else print ("  OK: " ++ file_path) ;;
                ret files_needing_format) w
      = (Val acc, w').
Proof.
  induction files as [|f files IH]; intros acc w Hok; simpl.
  - now exists w.
  - destruct (Hok f (or_introl eq_refl)) as (result & E & Hrc).
    unfold bind at 1 2. unfold Format.format_file, try_except, bind, subprocess_run.
    unfold dry_run_cmd in E. rewrite E. unfold ret at 1. rewrite Hrc.
    cbn [Z.eqb negb]. unfold print at 1, ret at 1.
    apply IH. cbn [fs]. intros; apply Hok; now right.
Qed.

(** With a dry run that only reads, one turn of the loop of check mode adds
    the file if it needs formatting and leaves the file system alone. *)
Lemma check_step_read_only spawn f acc w :
  snd (spawn (dry_run_cmd f) (fs w)) = fs w ->
  exists w1,
    (needs <- Format.format_file spawn f true ;;
     if needs
     then print ("  NEEDS FORMATTING: " ++ f) ;; ret (acc ++ [f])
     else print ("  OK: " ++ f) ;; ret acc) w
    = (Val (acc ++ if needs_formatting spawn (fs w) f then [f] else []), w1)
    /\ fs w1 = fs w.
Proof.
  intros Hfs.
  unfold Format.format_file, needs_formatting.
  unfold bind, try_except, subprocess_run, print, ret.
  fold (dry_run_cmd f).
  destruct (spawn (dry_run_cmd f) (fs w)) as [[result|e] fs'];
    cbn [snd] in Hfs; subst fs'.
  - destruct (negb (returncode result =? 0)%Z);
      rewrite ?app_nil_r; eexists; split; reflexivity.
  - rewrite app_nil_r. eexists. split; reflexivity.
Qed.

(** With dry runs that only read, the loop of check mode collects the
    files that need formatting on the file system it started with. *)
Lemma check_loop_read_only spawn files :
  (forall f fs0, snd (spawn (dry_run_cmd f) fs0) = fs0) ->
  forall acc w,
    exists w',
      for_fold files acc
        (fun file_path files_needing_format =>
           needs <- Format.format_file spawn file_path true ;;
           if needs
           then print ("  NEEDS FORMATTING: " ++ file_path) ;;
                ret (files_needing_format ++ [file_path])
           else print ("  OK: " ++ file_path) ;;
                ret files_needing_format) w
      = (Val (acc ++ filter (needs_formatting spawn (fs w)) files), w').
Proof.
  intros Hd. induction files as [|f files IH]; intros acc w.
  - exists w. simpl. now rewrite app_nil_r.
  - destruct (check_step_read_only spawn f acc w (Hd f (fs w)))
      as (w1 & Estep & Hfs).
    cbn [for_fold]. rewrite (bind_val _ _ _ _ _ Estep).
    destruct (IH (acc ++ if needs_formatting spawn (fs w) f then [f] else []) w1)
      as [w' E].
    exists w'. rewrite E, Hfs. cbn [filter].
    destruct (needs_formatting spawn (fs w) f);
      now rewrite <- app_assoc.
Qed.

Lemma filter_nil_existsb {A} (f : A -> bool) l :
  filter f l = [] <-> existsb f l = false.
Proof.
  induction l as [|a l IH]; simpl; [tauto|].
  destruct (f a); simpl; [split; discriminate|exact IH].
Qed.

Lemma last_snoc {A} (l : list A) (x d : A) : last (l ++ [x]) d = x.
Proof.
  induction l as [|a l IH]; [reflexivity|].
  simpl. destruct (l ++ [x]) eqn:E; [now destruct l|exact IH].
Qed.

(** C1 (as amended): once the probe for clang-format has answered, the
    value [Format.main] hands to [sys.exit] is 1 when clang-format is not
    available.  When it is available: in apply mode the value is 0, whether
    or not files failed to format; in check mode it is 0 when the loop found
    no file that needs formatting and 1 otherwise, which, with dry runs
    that only read, means: 1 exactly when the dry run of some enumerated
    file ends with an exit status other than 0.  In particular, in check
    mode over a non-empty set of files that are all well formatted the
    value is 0 and the last line printed says that all files are properly
    formatted. *)
Theorem formatter_exit_code spawn check directory w available w1 :
  Format.check_clang_format spawn w = (Val available, w1) ->
  let files := Format.find_source_files (fs w1) directory in
  let r := Format.main spawn check directory w in
  (available = false -> r = (Val 1%Z, w1))
  /\ (available = true -> check = false -> fst r = Val 0%Z)
  /\ (available = true -> check = true ->
      exists w2 needing w3,
        fs w2 = fs w1 /\ spawned w2 = spawned w1
        /\ Format.check_loop spawn files w2 = (Val needing, w3)
        /\ fst r = Val (match needing with [] => 0 | _ :: _ => 1 end)%Z)
  /\ (available = true -> check = true ->
      (forall f fs0, snd (spawn (dry_run_cmd f) fs0) = fs0) ->
      fst r = Val (if existsb (needs_formatting spawn (fs w1)) files
                   then 1 else 0)%Z)
  /\ (available = true -> check = true -> files <> [] ->
      (forall f, In f files -> well_formatted spawn (fs w1) f) ->
      fst r = Val 0%Z
      /\ last (console (snd r)) ""%string
         = (nl ++ "All files are properly formatted!")%string).
Proof.
  intros Hp files r. subst r.
  split; [intros ->; unfold Format.main;
          rewrite (bind_val _ _ _ _ _ Hp); reflexivity|].
  split; [|split; [|split]].
  - intros -> ->. unfold Format.main.
    rewrite (bind_val _ _ _ _ _ Hp). cbn [negb].
    unfold bind at 1, get_fs at 1.
    rewrite (bind_val _ _ _ _ _ (print_run _ _)). fold files.
    destruct files as [|f fl] eqn:Ef.
    + reflexivity.
    + rewrite !(bind_val _ _ _ _ _ (print_run _ _)).
      match goal with
      | |- context [bind (Format.apply_loop ?s ?l) _ ?w'] =>
          destruct (apply_loop_returns s l w') as (n & w3 & El)
      end.
      rewrite (bind_val _ _ _ _ _ El). reflexivity.
  - intros -> ->. unfold Format.main.
    rewrite (bind_val _ _ _ _ _ Hp). cbn [negb].
    unfold bind at 1, get_fs at 1.
    rewrite (bind_val _ _ _ _ _ (print_run _ _)). fold files.
    destruct files as [|f fl] eqn:Ef.
    + exists w1, [], w1. repeat split; reflexivity.
    + rewrite !(bind_val _ _ _ _ _ (print_run _ _)).
      match goal with
      | |- context [bind (Format.check_loop ?s ?l) _ ?w'] =>
          destruct (check_loop_returns s l w') as (needing & w3 & El);
          exists w', needing, w3
      end.
      repeat split; [exact El|].
      rewrite (bind_val _ _ _ _ _ El). destruct needing; reflexivity.
  - intros -> -> Hd. unfold Format.main.
    rewrite (bind_val _ _ _ _ _ Hp). cbn [negb].
    unfold bind at 1, get_fs at 1.
    rewrite (bind_val _ _ _ _ _ (print_run _ _)). fold files.
    destruct files as [|f fl] eqn:Ef; [reflexivity|].
    rewrite !(bind_val _ _ _ _ _ (print_run _ _)).
    match goal with
    | |- context [bind (Format.check_loop ?s ?l) _ ?w'] =>
        destruct (check_loop_read_only s l Hd [] w') as (w3 & El)
    end.
    fold (Format.check_loop spawn (f :: fl)) in El. cbn [fs printed app] in El.
    rewrite (bind_val _ _ _ _ _ El).
    destruct (filter (needs_formatting spawn (fs w1)) (f :: fl)) eqn:Efl.
    + apply filter_nil_existsb in Efl. now rewrite Efl.
    + destruct (existsb (needs_formatting spawn (fs w1)) (f :: fl)) eqn:Eex;
        [reflexivity|].
      apply filter_nil_existsb in Eex. congruence.
  - intros -> -> Hne Hok.
    assert (E : exists w3,
               Format.main spawn true directory w
               = (Val 0%Z,
                  printed w3 [(nl ++ "All files are properly formatted!")%string])).
    2:{ destruct E as [w3 E]. rewrite E. split; [reflexivity|].
        cbn [snd printed console]. apply last_snoc. }
    unfold Format.main.
    rewrite (bind_val _ _ _ _ _ Hp). cbn [negb].
    unfold bind at 1, get_fs at 1.
    rewrite (bind_val _ _ _ _ _ (print_run _ _)). fold files.
    destruct files as [|f fl] eqn:Ef; [congruence|].
    rewrite !(bind_val _ _ _ _ _ (print_run _ _)).
    match goal with
    | |- context [bind (Format.check_loop ?s ?l) _ ?w'] =>
        destruct (check_loop_all_ok s l [] w' Hok) as (w3 & El)
    end.
    fold (Format.check_loop spawn (f :: fl)) in El.
    rewrite (bind_val _ _ _ _ _ El). exists w3. reflexivity.
Qed.

Lemma same_files_refl w : same_files w w.
Proof. reflexivity. Qed.

Lemma same_files_trans w1 w2 w3 :
  same_files w1 w2 -> same_files w2 w3 -> same_files w1 w3.
Proof. unfold same_files. congruence. Qed.

Lemma same_files_print s : runs_within same_files (print s).
Proof. intros w. reflexivity. Qed.

Section CheckMode.

Variable spawn : process_model.

(** *** What check mode writes, given a formatter that only reads *)

Section ReadOnly.

Hypothesis version_reads_only :
  forall fs0, snd (spawn version_cmd fs0) = fs0.
Hypothesis dry_run_reads_only :
  forall f fs0, snd (spawn (dry_run_cmd f) fs0) = fs0.

Lemma same_files_version :
  runs_within same_files (subprocess_run spawn version_cmd).
Proof.
  intros w. unfold subprocess_run, same_files.
  pose proof (version_reads_only (fs w)) as H.
  destruct (spawn version_cmd (fs w)) as [r fs']. exact H.
Qed.

Lemma same_files_dry_run f :
  runs_within same_files (subprocess_run spawn (dry_run_cmd f)).
Proof.
  intros w. unfold subprocess_run, same_files.
  pose proof (dry_run_reads_only f (fs w)) as H.
  destruct (spawn (dry_run_cmd f) (fs w)) as [r fs']. exact H.
Qed.

Lemma same_files_probe :
  runs_within same_files (Format.check_clang_format spawn).
Proof.
  unfold Format.check_clang_format.
  within_tac same_files same_files_refl same_files_trans
    ltac:(first [ apply same_files_print | apply same_files_version ]).
Qed.

Lemma same_files_check_mode directory :
  runs_within same_files (Format.main spawn true directory).
Proof.
  unfold Format.main, Format.check_clang_format, Format.check_loop,
    Format.format_file.
  within_tac same_files same_files_refl same_files_trans
    ltac:(first [ apply same_files_print
                | apply same_files_version
                | apply same_files_dry_run ]).
Qed.

End ReadOnly.

(** *** What check mode spawns, whatever the formatter does *)

Lemma probe_spawned w :
  spawned (snd (Format.check_clang_format spawn w)) = spawned w ++ [version_cmd].
Proof.
  unfold Format.check_clang_format, bind, try_except, subprocess_run.
  fold version_cmd.
  destruct (spawn version_cmd (fs w)) as [[result|[msg|msg]] fs'];
    [destruct (returncode result =? 0)%Z| |]; reflexivity.
Qed.

Lemma check_step_spawned f acc w :
  exists acc' w1,
    (needs <- Format.format_file spawn f true ;;
     if needs
     then print ("  NEEDS FORMATTING: " ++ f) ;; ret (acc ++ [f])
     else print ("  OK: " ++ f) ;; ret acc) w
    = (Val acc', w1)
    /\ spawned w1 = spawned w ++ [dry_run_cmd f].
Proof.
  unfold Format.format_file.
  unfold bind, try_except, subprocess_run, print, ret.
  fold (dry_run_cmd f).
  destruct (spawn (dry_run_cmd f) (fs w)) as [[result|e] fs'].
  - destruct (negb (returncode result =? 0)%Z); eexists _, _; split; reflexivity.
  - eexists _, _. split; reflexivity.
Qed.

Lemma check_loop_spawned files : forall acc w,
  exists needing w',
    for_fold files acc
      (fun file_path files_needing_format =>
         needs <- Format.format_file spawn file_path true ;;
         if needs
         then print ("  NEEDS FORMATTING: " ++ file_path) ;;
              ret (files_needing_format ++ [file_path])
         else print ("  OK: " ++ file_path) ;;
              ret files_needing_format) w
    = (Val needing, w')
    /\ spawned w' = spawned w ++ map dry_run_cmd files.
Proof.
  induction files as [|f files IH]; intros acc w.
  - exists acc, w. split; [reflexivity|]. simpl. now rewrite app_nil_r.
  - destruct (check_step_spawned f acc w) as (acc' & w1 & Estep & Hs).
    destruct (IH acc' w1) as (needing & w' & E & Hs').
    exists needing, w'. cbn [for_fold]. rewrite (bind_val _ _ _ _ _ Estep).
    split; [exact E|]. rewrite Hs', Hs, <- app_assoc. reflexivity.
Qed.

(** Check mode spawns the version probe and then, if clang-format is
    there, one dry run for each enumerated file, in order. *)
Lemma check_mode_spawned directory w :
  let probe := Format.check_clang_format spawn w in
  exists files,
    (files = []
     \/ files = Format.find_source_files (fs (snd probe)) directory)
    /\ spawned (snd (Format.main spawn true directory w))
       = spawned w ++ version_cmd :: map dry_run_cmd files.
Proof.
  intros probe. pose proof (probe_spawned w) as Hs. fold probe in Hs.
  unfold Format.main, bind at 1. fold probe.
  destruct probe as [[[|]|e] w1]; cbn [fst snd] in *;
    [|exists []; split; [now left|exact Hs]
     |exists []; split; [now left|exact Hs]].
  cbn [negb]. unfold bind at 1, get_fs at 1.
  rewrite (bind_val _ _ _ _ _ (print_run _ _)).
  exists (Format.find_source_files (fs w1) directory).
  split; [now right|].
  destruct (Format.find_source_files (fs w1) directory) as [|f fl] eqn:Ef.
  - cbn [bind print ret snd spawned printed map]. exact Hs.
  - rewrite !(bind_val _ _ _ _ _ (print_run _ _)).
    match goal with
    | |- context [bind (Format.check_loop ?s ?l) _ ?w'] =>
        destruct (check_loop_spawned l [] w') as (needing & w3 & El & Hl)
    end.
    fold (Format.check_loop spawn (f :: fl)) in El.
    rewrite (bind_val _ _ _ _ _ El).
    assert (Hfinal : forall (k : M Z),
               (forall w0, spawned (snd (k w0)) = spawned w0) ->
               spawned (snd (k w3))
               = spawned w ++ version_cmd :: map dry_run_cmd (f :: fl)).
    { intros k Hk. rewrite Hk, Hl. cbn [printed spawned]. rewrite Hs.
      now rewrite <- app_assoc. }
    destruct needing; apply Hfinal; intros w0; reflexivity.
Qed.

End CheckMode.

(** C8: a run of the formatter in check mode spawns only the version probe
    and one dry run per enumerated file, never the in-place command.  Hence,
    clang-format's version query and dry run being read-only, the file
    system after the run is the file system before it: every file has the
    bytes it had. *)
Theorem check_mode_never_modifies_files spawn directory w :
  (forall fs0, snd (spawn version_cmd fs0) = fs0) ->
  (forall f fs0, snd (spawn (dry_run_cmd f) fs0) = fs0) ->
  let w' := snd (Format.main spawn true directory w) in
  fs w' = fs w
  /\ (forall path, read_file (fs w') path = read_file (fs w) path)
  /\ exists files,
      (files = [] \/ files = Format.find_source_files (fs w) directory)
      /\ spawned w' = spawned w ++ version_cmd :: map dry_run_cmd files
      /\ forall f, ~ In (in_place_cmd f) (version_cmd :: map dry_run_cmd files).
Proof.
  intros Hv Hd w'.
  pose proof (same_files_check_mode spawn Hv Hd directory w) as Hfs.
  unfold same_files in Hfs. fold w' in Hfs.
  split; [exact Hfs|]. split; [now rewrite Hfs|].
  destruct (check_mode_spawned spawn directory w) as (files & Hfiles & Hs).
  rewrite (same_files_probe spawn Hv w) in Hfiles.
  exists files. split; [exact Hfiles|]. split; [exact Hs|].
  intros f [H|H]; [discriminate|].
  apply in_map_iff in H as [f' [H _]]. discriminate.
Qed.

(* ===================================================================== *)
(** * Where the code departs from the specification                     *)
(* ===================================================================== *)

(** C1 as stated does not hold in apply mode: on a read-only checkout the
    in-place run of clang-format fails for the enumerated file [./a.cpp],
    [format_file] returns [False], the error line is printed, and yet the
    exit code is 0 and not 1. *)
Lemma apply_mode_exit_code_ignores_errors :
  let w := Examples.start Examples.project_fs in
  let r := Format.main Examples.clang_format_read_only false "." w in
  In "./a.cpp"%string (Format.find_source_files Examples.project_fs ".")
  /\ fst (Format.format_file Examples.clang_format_read_only "./a.cpp" false w)
     = Val false
  /\ In "  ERROR: ./a.cpp"%string (console (snd r))
  /\ fst r = Val 0%Z
  /\ fst r <> Val 1%Z.
Proof.
  vm_compute. repeat split; try tauto. discriminate.
Qed.

(** C5 as stated does not hold: with all three source directories present,
    [run_cppcheck] spawns one process, which receives the three of them, and
    not one process per directory. *)
Lemma cppcheck_one_process_for_three_directories :
  let w := Examples.start Examples.project_fs in
  let w' := snd (Analyze.run_cppcheck Examples.analysis_tools
                                      Analyze.source_dirs w) in
  filter (OsPath.exists_ (fs w)) Analyze.source_dirs
  = ["SilicaEngine/src"; "SilicaEngine/include"; "Fractura/src"]%string
  /\ spawned w'
     = [Analyze.cppcheck_base_cmd
          ++ ["SilicaEngine/src"; "SilicaEngine/include"; "Fractura/src"]%string]
  /\ length (spawned w')
     <> length (filter (OsPath.exists_ (fs w)) Analyze.source_dirs).
Proof.
  vm_compute. repeat split. discriminate.
Qed.

(** C7 as stated does not hold: [os.walk] lists a symbolic link that leads
    nowhere among the files, [find_source_files] returns its path on the
    strength of its name, and [os.path.exists] is false for that path.  The
    same holds for a link that leads to itself; a link that leads to a
    directory is not returned. *)
Lemma enumerator_returns_a_dangling_link :
  wf_fs Examples.linked_fs = true
  /\ Format.find_source_files Examples.linked_fs "."
     = ["./a.cpp"; "./alias.hpp"; "./dangling.cpp"; "./loop.cpp";
        "./sub/c.hpp"]%string
  /\ OsPath.exists_ Examples.linked_fs "./dangling.cpp" = false
  /\ read_file Examples.linked_fs "./dangling.cpp" = None
  /\ OsPath.exists_ Examples.linked_fs "./loop.cpp" = false
  /\ OsPath.exists_ Examples.linked_fs "./alias.hpp" = true
  /\ OsPath.isdir Examples.linked_fs "./vendor.cpp" = true.
Proof. vm_compute. repeat split. Qed.

(* ===================================================================== *)
(** * The properties at work on the sample machines                     *)
(* ===================================================================== *)

Section Witnesses.

Import Examples.

(** The sample formatter reads only in its dry run. *)
Lemma clang_format_reads_only f fs0 :
  snd (clang_format (dry_run_cmd f) fs0) = fs0.
Proof.
  unfold clang_format, toy_clang_format, dry_run_cmd.
  cbn [String.eqb Ascii.eqb Bool.eqb negb andb].
  destruct (read_file fs0 f) as [content|]; [|reflexivity].
  destruct (has_tab content); reflexivity.
Qed.

(** C1 at work: no clang-format gives 1; apply mode on the project gives 0;
    check mode on the project, where [a.cpp] holds a TAB, gives 1; check
    mode on the formatted checkout gives 0 with the closing line. *)
Lemma formatter_exit_code_witness :
  Format.main nothing_installed true "." (start tidy_fs)
  = (Val 1%Z, snd (Format.check_clang_format nothing_installed (start tidy_fs)))
  /\ fst (Format.main clang_format false "." (start project_fs)) = Val 0%Z
  /\ fst (Format.main clang_format true "." (start project_fs)) = Val 1%Z
  /\ fst (Format.main clang_format true "." (start tidy_fs)) = Val 0%Z
  /\ last (console (snd (Format.main clang_format true "." (start tidy_fs))))
          ""%string
     = (nl ++ "All files are properly formatted!")%string.
Proof.
  split; [|split; [|split]].
  - exact (proj1 (formatter_exit_code nothing_installed true "."
                                      (start tidy_fs) false _ eq_refl)
                 eq_refl).
  - exact (proj1 (proj2 (formatter_exit_code clang_format false "."
                                             (start project_fs) true _ eq_refl))
                 eq_refl eq_refl).
  - exact (proj1 (proj2 (proj2 (proj2
             (formatter_exit_code clang_format true "." (start project_fs)
                                  true _ eq_refl))))
                 eq_refl eq_refl clang_format_reads_only).
  - apply (proj2 (proj2 (proj2 (proj2
             (formatter_exit_code clang_format true "." (start tidy_fs)
                                  true _ eq_refl)))) eq_refl eq_refl).
    + discriminate.
    + intros f [<-|[<-|[]]]; eexists; split; reflexivity.
Defined.

(** C2 at work: all tools selected on a machine with cppcheck and
    clang-tidy. *)
Lemma analyzer_exit_code_is_or_witness :
  let w0 := start project_fs in
  let probes := Analyze.probe_tools analysis_tools Analyze.All
                                    (printed w0 analysis_header) in
  fst probes
  = Val [("iwyu", false); ("clang-tidy", true); ("cppcheck", true)]%string
  /\ exists codes w',
      run_each (executed_runners analysis_tools Analyze.All "build"
                  [("iwyu", false); ("clang-tidy", true); ("cppcheck", true)]%string)
               (snd probes)
      = (Val codes, w')
      /\ Analyze.main analysis_tools Analyze.All "build" w0
         = (Val (fold_left Z.lor codes 0%Z), printed w' analysis_footer)
      /\ (fold_left Z.lor codes 0%Z = 0%Z <-> Forall (fun c => c = 0%Z) codes).
Proof.
  split; [reflexivity|].
  apply (analyzer_exit_code_is_or analysis_tools Analyze.All "build"
                                  (start project_fs)).
  reflexivity.
Defined.

(** C3 at work: [--build-dir build], where no compilation database is. *)
Lemma missing_compile_commands_witness :
  let w0 := start project_fs in
  let avail := [("iwyu", false); ("clang-tidy", true); ("cppcheck", true)]%string in
  let w := snd (Analyze.probe_tools analysis_tools Analyze.All
                                    (printed w0 analysis_header)) in
  let w1 := snd (Analyze.run_cppcheck analysis_tools Analyze.source_dirs w) in
  OsPath.exists_ (fs w1) "build/compile_commands.json" = false
  /\ Analyze.run_clang_tidy analysis_tools "build" w1
     = (Val 1%Z, printed w1 (missing_db_report "build/compile_commands.json"))
  /\ spawned (snd (Analyze.run_clang_tidy analysis_tools "build" w1)) = spawned w1
  /\ fs (snd (Analyze.run_clang_tidy analysis_tools "build" w1)) = fs w1
  /\ exists codes3 w3,
      run_each [Analyze.run_include_what_you_use]
               (printed w1 (missing_db_report "build/compile_commands.json"))
      = (Val codes3, w3)
      /\ Analyze.main analysis_tools Analyze.All "build" w0
         = (Val (fold_left Z.lor ([0%Z] ++ 1%Z :: codes3) 0%Z),
            printed w3 analysis_footer)
      /\ fold_left Z.lor ([0%Z] ++ 1%Z :: codes3) 0%Z <> 0%Z.
Proof.
  split; [reflexivity|].
  apply (missing_compile_commands analysis_tools Analyze.All "build"
           [("iwyu", false); ("clang-tidy", true); ("cppcheck", true)]%string
           (start project_fs)
           (snd (Analyze.probe_tools analysis_tools Analyze.All
                   (printed (start project_fs) analysis_header)))
           [0%Z]); reflexivity.
Defined.

(** C5 at work: a completed cppcheck with text on standard error, and a
    cppcheck that cannot be started with one directory missing. *)
Lemma cppcheck_single_invocation_witness :
  let w := start project_fs in
  let cmd := Analyze.cppcheck_base_cmd
               ++ ["SilicaEngine/src"; "SilicaEngine/include"; "Fractura/src"]%string in
  Analyze.run_cppcheck analysis_tools Analyze.source_dirs w
  = (Val 0%Z,
     mkWorld project_fs
             (cppcheck_banner
                ++ ["No issues found by cppcheck!"; "Warnings/Info:";
                    "SilicaEngine/src/engine.cpp:1: style: unused [unusedVariable]"]%string)
             [cmd])
  /\ Analyze.run_cppcheck nothing_installed ["SilicaEngine/src"; "missing"]%string w
     = (Val 1%Z,
        mkWorld project_fs
                (cppcheck_banner
                   ++ ["Error running cppcheck: [Errno 2] No such file or directory: 'cppcheck'"]%string)
                [Analyze.cppcheck_base_cmd ++ ["SilicaEngine/src"]%string]).
Proof.
  split.
  - apply (proj1 (proj2 (cppcheck_single_invocation
                           analysis_tools Analyze.source_dirs (start project_fs)))
                 (done 0 "" "SilicaEngine/src/engine.cpp:1: style: unused [unusedVariable]")
                 project_fs).
    reflexivity.
  - apply (proj2 (proj2 (cppcheck_single_invocation
                           nothing_installed ["SilicaEngine/src"; "missing"]%string
                           (start project_fs)))
                 (not_found "cppcheck") project_fs).
    reflexivity.
Defined.

(** C6 at work: [build/b.cpp] of the project is not returned, and a file
    below [build2] is. *)
Lemma enumerators_skip_excluded_directories_witness :
  wf_fs project_fs = true
  /\ Format.find_source_files project_fs "."
     = ["./a.cpp"; "./sub/c.hpp"; "./SilicaEngine/src/engine.cpp";
        "./SilicaEngine/include/engine.h"; "./Fractura/src/game.cpp"]%string
  /\ (forall p d,
         In p (Format.find_source_files project_fs ".") ->
         In d excluded -> ~ inside_dir "." p d)
  /\ (forall p d,
         In p (Analyze.tidy_source_files project_fs) ->
         In d excluded -> ~ inside_dir "." p d)
  /\ wf_fs lookalike_fs = true
  /\ In "./build2/gen.cpp"%string (Format.find_source_files lookalike_fs ".").
Proof.
  split; [reflexivity|]. split; [reflexivity|].
  split; [|split; [|split; [reflexivity|]]].
  - exact (proj1 (enumerators_skip_excluded_directories project_fs "." eq_refl)).
  - exact (proj1 (proj2 (enumerators_skip_excluded_directories
                           project_fs "." eq_refl))).
  - apply (proj1 (proj2 (proj2 (enumerators_skip_excluded_directories
                                  lookalike_fs "." eq_refl)))
                 (Dir [("build2"%string, Dir [("gen.cpp"%string, File (bytes "int g;"))])])
                 ["build2"%string] "gen.cpp"%string).
    + reflexivity.
    + eexists _, _. split; reflexivity.
    + intros d [<-|[]] [H|[H|[H|[]]]]; discriminate.
    + reflexivity.
Defined.

(** C7 (as amended) at work: a checkout with symbolic links, and the
    scenario, which has none, walked from [.]. *)
Lemma enumerator_returns_source_files_and_links_witness :
  wf_fs linked_fs = true
  /\ (forall p,
         In p (Format.find_source_files linked_fs ".") ->
         has_ext Format.extensions p = true
         /\ OsPath.isdir linked_fs p = false
         /\ ((OsPath.exists_ linked_fs p = true
              /\ exists content, read_file linked_fs p = Some content)
             \/ (exists n ds f,
                    OsPath.resolve linked_fs "." = Some n
                    /\ p = join_all "." (ds ++ [f])
                    /\ link_at n ds f)))
  /\ NoDup (Format.find_source_files linked_fs ".")
  /\ wf_fs tidy_fs = true
  /\ (forall p,
         In p (Format.find_source_files tidy_fs ".") ->
         OsPath.exists_ tidy_fs p = true
         /\ exists content, read_file tidy_fs p = Some content)
  /\ Format.find_source_files tidy_fs "." = ["./a.cpp"; "./sub/c.hpp"]%string.
Proof.
  split; [reflexivity|].
  destruct (enumerator_returns_source_files_and_links linked_fs "." eq_refl)
    as (H1 & _ & H3 & _).
  split; [exact H1|]. split; [exact H3|].
  split; [reflexivity|].
  destruct (enumerator_returns_source_files_and_links tidy_fs "." eq_refl)
    as (_ & H2 & _ & H4).
  split.
  - apply (H2 (scenario_tree (bytes "int x;") (bytes "int y;")
                             (bytes "int z;") (bytes "notes")));
      reflexivity.
  - apply (H4 (bytes "int x;") (bytes "int y;") (bytes "int z;") (bytes "notes")).
    reflexivity.
Defined.

(** C8 at work: the toy clang-format reads only in its version query and
    dry run, so check mode leaves the project as it was, while apply mode
    rewrites [a.cpp]. *)
Lemma check_mode_never_modifies_files_witness :
  let w := start project_fs in
  let w' := snd (Format.main clang_format true "." w) in
  (forall fs0, snd (clang_format version_cmd fs0) = fs0)
  /\ (forall f fs0, snd (clang_format (dry_run_cmd f) fs0) = fs0)
  /\ fs w' = project_fs
  /\ (forall path, read_file (fs w') path = read_file project_fs path)
  /\ read_file (fs (snd (Format.main clang_format false "." w))) "a.cpp"
     <> read_file project_fs "a.cpp"
  /\ spawned w'
     = version_cmd
         :: map dry_run_cmd
                ["./a.cpp"; "./sub/c.hpp"; "./SilicaEngine/src/engine.cpp";
                 "./SilicaEngine/include/engine.h"; "./Fractura/src/game.cpp"]%string.
Proof.
  assert (Hv : forall fs0, snd (clang_format version_cmd fs0) = fs0)
    by reflexivity.
  pose proof clang_format_reads_only as Hd.
  split; [exact Hv|]. split; [exact Hd|].
  destruct (check_mode_never_modifies_files clang_format "." (start project_fs)
                                            Hv Hd) as (H1 & H2 & _).
  split; [exact H1|]. split; [exact H2|].
  split; [vm_compute; discriminate|reflexivity].
Defined.

(** C9 at work: a machine with nothing installed. *)
Lemma probe_catches_lookup_failure_witness :
  let w := start project_fs in
  nothing_installed ["clang-format"; "--version"]%string (fs w)
  = (Raise (not_found "clang-format"), project_fs)
  /\ Analyze.check_tool nothing_installed "clang-format" "apt install clang-format" w
     = (Val false,
        mkWorld project_fs
                ["✗ clang-format not found";
                 "  Install: apt install clang-format"]%string
                [["clang-format"; "--version"]%string])
  /\ fst (Format.check_clang_format nothing_installed w) = Val false.
Proof.
  split; [reflexivity|].
  destruct (probe_catches_lookup_failure
              nothing_installed "clang-format" "apt install clang-format"
              (start project_fs)
              "[Errno 2] No such file or directory: 'clang-format'"
              project_fs eq_refl) as [H1 H2].
  split; [exact H1|]. now rewrite (H2 eq_refl).
Defined.

(** C10 at work: [--build-dir out]; clang-tidy warns about three files and
    the exit code is that of cppcheck, 0. *)
Lemma clang_tidy_findings_do_not_reach_exit_code_witness :
  let w0 := start project_fs in
  let w := snd (Analyze.probe_tools analysis_tools Analyze.All
                                    (printed w0 analysis_header)) in
  let w1 := snd (Analyze.run_cppcheck analysis_tools Analyze.source_dirs w) in
  OsPath.exists_ (fs w1) "out/compile_commands.json" = true
  /\ In "clang-tidy found issues in 3 files."%string
        (map Py.strip
             (console (snd (Analyze.main analysis_tools Analyze.All "out" w0))))
  /\ (exists w2, Analyze.run_clang_tidy analysis_tools "out" w1 = (Val 0%Z, w2))
  /\ fst (Analyze.main analysis_tools Analyze.All "out" w0)
     = Val (fold_left Z.lor [0%Z] 0%Z).
Proof.
  split; [reflexivity|]. split; [vm_compute; tauto|].
  apply (clang_tidy_findings_do_not_reach_exit_code
           analysis_tools Analyze.All "out"
           [("iwyu", false); ("clang-tidy", true); ("cppcheck", true)]%string
           (start project_fs)
           (snd (Analyze.probe_tools analysis_tools Analyze.All
                   (printed (start project_fs) analysis_header)))
           [0%Z]); reflexivity.
Defined.

End Witnesses.

(* ===================================================================== *)
(** * Further properties of the scripts                                   *)
(* ===================================================================== *)

(** ** The probes *)

(** The three ways a probe can end, by what the process did. *)
Lemma check_tool_cases spawn tool_name hint w :
  match spawn (probe_cmd tool_name) (fs w) with
  | (Val result, fs') =>
      if (returncode result =? 0)%Z
      then Analyze.check_tool spawn tool_name hint w
           = (Val true,
              mkWorld fs' (console w ++ [("✓ Found " ++ tool_name)%string])
                      (spawned w ++ [probe_cmd tool_name]))
      else Analyze.check_tool spawn tool_name hint w
           = (Val false,
              mkWorld fs'
                      (console w ++ [("✗ " ++ tool_name ++ " not found")%string;
                                     ("  Install: " ++ hint)%string])
                      (spawned w ++ [probe_cmd tool_name]))
  | (Raise (FileNotFoundError _), fs') =>
      Analyze.check_tool spawn tool_name hint w
      = (Val false,
         mkWorld fs'
                 (console w ++ [("✗ " ++ tool_name ++ " not found")%string;
                                ("  Install: " ++ hint)%string])
                 (spawned w ++ [probe_cmd tool_name]))
  | (Raise (OtherException msg), fs') =>
      Analyze.check_tool spawn tool_name hint w
      = (Raise (OtherException msg),
         mkWorld fs' (console w) (spawned w ++ [probe_cmd tool_name]))
  end.
Proof.
  unfold Analyze.check_tool, bind, try_except, subprocess_run.
  fold (probe_cmd tool_name).
  destruct (spawn (probe_cmd tool_name) (fs w)) as [[result|[msg|msg]] fs'].
  - destruct (returncode result =? 0)%Z; unfold print, ret; simpl;
      now rewrite <- ?app_assoc.
  - unfold print, ret. simpl. now rewrite <- !app_assoc.
  - reflexivity.
Qed.

Lemma check_clang_format_cases spawn w :
  match spawn version_cmd (fs w) with
  | (Val result, fs') =>
      if (returncode result =? 0)%Z
      then fst (Format.check_clang_format spawn w) = Val true
      else fst (Format.check_clang_format spawn w) = Val false
  | (Raise (FileNotFoundError _), fs') =>
      fst (Format.check_clang_format spawn w) = Val false
  | (Raise (OtherException msg), fs') =>
      Format.check_clang_format spawn w
      = (Raise (OtherException msg),
         mkWorld fs' (console w) (spawned w ++ [version_cmd]))
  end.
Proof.
  unfold Format.check_clang_format, bind, try_except, subprocess_run.
  fold version_cmd.
  destruct (spawn version_cmd (fs w)) as [[result|[msg|msg]] fs'].
  - destruct (returncode result =? 0)%Z; reflexivity.
  - reflexivity.
  - reflexivity.
Qed.

(** X1: a probe answers [True] exactly when the version query of the
    program completes with exit status 0, for [check_tool] and for
    [check_clang_format] alike.  A program that is installed but answers
    its version query with another status is taken for missing. *)
Theorem probe_says_found_iff_exit_status_zero spawn tool_name hint w :
  (fst (Analyze.check_tool spawn tool_name hint w) = Val true
   <-> completed_ok (spawn (probe_cmd tool_name) (fs w)))
  /\ (fst (Format.check_clang_format spawn w) = Val true
      <-> completed_ok (spawn version_cmd (fs w))).
Proof.
  split.
  - pose proof (check_tool_cases spawn tool_name hint w) as H.
    unfold completed_ok.
    destruct (spawn (probe_cmd tool_name) (fs w)) as [[result|[msg|msg]] fs'].
    + destruct (returncode result =? 0)%Z eqn:E; rewrite H; simpl.
      * split; [|reflexivity]. intros _. exists result, fs'.
        split; [reflexivity|now apply Z.eqb_eq].
      * split; [discriminate|]. intros (r & f & [= <- <-] & Hr).
        apply Z.eqb_neq in E. contradiction.
    + rewrite H. simpl. split; [discriminate|].
      intros (r & f & Heq & _). discriminate.
    + rewrite H. simpl. split; [discriminate|].
      intros (r & f & Heq & _). discriminate.
  - pose proof (check_clang_format_cases spawn w) as H.
    unfold completed_ok.
    destruct (spawn version_cmd (fs w)) as [[result|[msg|msg]] fs'].
    + destruct (returncode result =? 0)%Z eqn:E; rewrite H.
      * split; [|reflexivity]. intros _. exists result, fs'.
        split; [reflexivity|now apply Z.eqb_eq].
      * split; [discriminate|]. intros (r & f & [= <- <-] & Hr).
        apply Z.eqb_neq in E. contradiction.
    + rewrite H. split; [discriminate|].
      intros (r & f & Heq & _). discriminate.
    + rewrite H. simpl. split; [discriminate|].
      intros (r & f & Heq & _). discriminate.
Qed.

Lemma spawned_only_refl allowed w : spawned_only allowed w w.
Proof. exists []. now rewrite app_nil_r. Qed.

Lemma spawned_only_trans allowed w1 w2 w3 :
  spawned_only allowed w1 w2 -> spawned_only allowed w2 w3 ->
  spawned_only allowed w1 w3.
Proof.
  intros (l1 & E1 & H1) (l2 & E2 & H2). exists (l1 ++ l2).
  rewrite E2, E1, <- app_assoc, forallb_app, H1, H2. now split.
Qed.

Lemma spawned_only_print allowed s : runs_within (spawned_only allowed) (print s).
Proof. intros w. exists []. simpl. now rewrite app_nil_r. Qed.

Lemma spawned_only_run allowed spawn cmd :
  allowed cmd = true ->
  runs_within (spawned_only allowed) (subprocess_run spawn cmd).
Proof.
  intros H w. unfold subprocess_run. destruct (spawn cmd (fs w)) as [r fs'].
  exists [cmd]. simpl. now rewrite H.
Qed.

Ltac spawned_only_tac allowed :=
  within_tac (spawned_only allowed) (spawned_only_refl allowed)
             (spawned_only_trans allowed)
             ltac:(first [ apply spawned_only_print
                         | apply spawned_only_run; reflexivity ]).


Lemma spawned_only_check_tool spawn name hint :
  analyzer_command (probe_cmd name) = true ->
  runs_within (spawned_only analyzer_command) (Analyze.check_tool spawn name hint).
Proof.
  intros H. unfold Analyze.check_tool.
  within_tac (spawned_only analyzer_command) (spawned_only_refl analyzer_command)
             (spawned_only_trans analyzer_command)
             ltac:(first [ apply spawned_only_print
                         | apply spawned_only_run; exact H ]).
Qed.

Lemma spawned_only_run_cppcheck spawn dirs :
  runs_within (spawned_only analyzer_command) (Analyze.run_cppcheck spawn dirs).
Proof.
  unfold Analyze.run_cppcheck.
  do 3 (apply (runs_within_bind _ (spawned_only_trans analyzer_command));
        [apply spawned_only_print|intros _]).
  apply (runs_within_bind _ (spawned_only_trans analyzer_command));
    [apply (runs_within_get_fs _ (spawned_only_refl analyzer_command))|intros fs0].
  cbv zeta.
  spawned_only_tac analyzer_command.
Qed.

Lemma spawned_only_run_clang_tidy spawn build_dir :
  runs_within (spawned_only analyzer_command) (Analyze.run_clang_tidy spawn build_dir).
Proof.
  unfold Analyze.run_clang_tidy, Analyze.tidy_loop.
  spawned_only_tac analyzer_command.
Qed.

Lemma spawned_only_run_iwyu :
  runs_within (spawned_only analyzer_command) Analyze.run_include_what_you_use.
Proof.
  unfold Analyze.run_include_what_you_use.
  spawned_only_tac analyzer_command.
Qed.

Lemma spawned_only_main spawn tool build_dir :
  runs_within (spawned_only analyzer_command)
              (Analyze.main spawn tool build_dir).
Proof.
  unfold Analyze.main, Analyze.probe_tools, Analyze.run_tools.
  within_tac (spawned_only analyzer_command) (spawned_only_refl analyzer_command)
             (spawned_only_trans analyzer_command)
             ltac:(first [ apply spawned_only_print
                         | apply spawned_only_check_tool; reflexivity
                         | apply spawned_only_run_cppcheck
                         | apply spawned_only_run_clang_tidy
                         | apply spawned_only_run_iwyu ]).
Qed.

Lemma analyzer_command_inv cmd :
  analyzer_command cmd = true ->
  (exists args, cmd = "cppcheck"%string :: args)
  \/ (exists args, cmd = "clang-tidy"%string :: args)
  \/ cmd = probe_cmd "include-what-you-use".
Proof.
  destruct cmd as [|prog args]; [discriminate|]. unfold analyzer_command.
  rewrite !orb_true_iff, andb_true_iff, !String.eqb_eq.
  intros [[->| ->]|[-> Hp]]; [left; eauto|right; left; eauto|right; right].
  destruct args as [|flag [|]]; try discriminate.
  simpl in Hp. apply String.eqb_eq in Hp. now subst flag.
Qed.

(** X4: whatever [--tool] selects and whatever the programs do, the
    analyzer starts cppcheck and clang-tidy only; include-what-you-use is
    started for its version query at most, and never to analyse a file. *)
Theorem analyzer_starts_only_its_tools spawn tool build_dir w :
  exists cmds,
    spawned (snd (Analyze.main spawn tool build_dir w)) = spawned w ++ cmds
    /\ forall cmd, In cmd cmds ->
         (exists args, cmd = "cppcheck"%string :: args)
         \/ (exists args, cmd = "clang-tidy"%string :: args)
         \/ cmd = probe_cmd "include-what-you-use".
Proof.
  destruct (spawned_only_main spawn tool build_dir w) as (cmds & Hs & Hall).
  exists cmds. split; [exact Hs|]. intros cmd Hin.
  apply analyzer_command_inv. rewrite forallb_forall in Hall. now apply Hall.
Qed.

(** ** The probes, one after the other *)

Lemma check_tool_outcome spawn name hint w :
  exists o w',
    Analyze.check_tool spawn name hint w = (o, w')
    /\ spawned w' = spawned w ++ [probe_cmd name]
    /\ match o with
       | Val found =>
           found = negb (reads_as_missing (spawn (probe_cmd name) (fs w)))
           /\ forall msg fs', spawn (probe_cmd name) (fs w)
                              <> (Raise (OtherException msg), fs')
       | Raise e =>
           exists msg fs', e = OtherException msg
                           /\ spawn (probe_cmd name) (fs w) = (Raise e, fs')
       end.
Proof.
  unfold Analyze.check_tool, bind, try_except, subprocess_run.
  fold (probe_cmd name).
  destruct (spawn (probe_cmd name) (fs w)) as [[result|[msg|msg]] fs'] eqn:E.
  - destruct (returncode result =? 0)%Z eqn:Erc; eexists _, _;
      (split; [reflexivity|split; [reflexivity|]]); simpl; rewrite Erc;
      (split; [reflexivity|discriminate]).
  - eexists _, _. split; [reflexivity|split; [reflexivity|]]. simpl.
    split; [reflexivity|discriminate].
  - eexists _, _. split; [reflexivity|split; [reflexivity|]].
    now exists msg, fs'.
Qed.

(** One block [if args.tool in [...]: tools_available[key] = check_tool(..)]
    of [main]. *)
Lemma probe_step_outcome spawn (b : bool) name key hint (d : Analyze.dict) w :
  exists o w',
    (if b then a <- Analyze.check_tool spawn name hint ;;
               ret (Analyze.dict_set key a d)
     else ret d) w = (o, w')
    /\ spawned w' = spawned w ++ map probe_cmd (if b then [name] else [])
    /\ match o with
       | Val d' =>
           d' = (if b
                 then Analyze.dict_set key
                        (negb (reads_as_missing (spawn (probe_cmd name) (fs w)))) d
                 else d)
           /\ (b = true -> forall msg fs', spawn (probe_cmd name) (fs w)
                                           <> (Raise (OtherException msg), fs'))
       | Raise e =>
           b = true
           /\ exists msg fs', e = OtherException msg
                              /\ spawn (probe_cmd name) (fs w) = (Raise e, fs')
       end.
Proof.
  destruct b.
  - destruct (check_tool_outcome spawn name hint w) as (o & w' & E & Hs & Ho).
    unfold bind. rewrite E. destruct o as [found|e].
    + eexists _, _. split; [reflexivity|]. split; [exact Hs|].
      destruct Ho as [-> Hne]. split; [reflexivity|]. intros _. exact Hne.
    + eexists _, _. split; [reflexivity|]. split; [exact Hs|].
      split; [reflexivity|exact Ho].
  - eexists _, _. split; [reflexivity|]. simpl. rewrite app_nil_r.
    repeat split. intros; discriminate.
Qed.

Lemma bind_raise {A B} (m : M A) (k : A -> M B) w e w' :
  m w = (Raise e, w') -> bind m k w = (Raise e, w').
Proof. unfold bind. now intros ->. Qed.


Lemma dict_get_filter key k (d : Analyze.dict) :
  String.eqb key k = false ->
  Analyze.dict_get key (filter (fun e => negb (String.eqb (fst e) k)) d)
  = Analyze.dict_get key d.
Proof.
  intros Hk. induction d as [|[k' v] d IH]; simpl; [reflexivity|].
  destruct (String.eqb k' k) eqn:E; simpl.
  - apply String.eqb_eq in E. subst k'. now rewrite Hk.
  - now rewrite IH.
Qed.

(** [d[k] = v] and then [d.get(key)]. *)
Lemma get_truthy_set key k v (d : Analyze.dict) :
  Analyze.get_truthy key (Analyze.dict_set k v d)
  = if String.eqb key k then v else Analyze.get_truthy key d.
Proof.
  unfold Analyze.get_truthy, Analyze.dict_set. simpl.
  destruct (String.eqb key k) eqn:E; [reflexivity|].
  now rewrite dict_get_filter.
Qed.

(** The block "Check available tools": the probes run in the order
    cppcheck, clang-tidy, include-what-you-use, each if selected, until one
    of them raises; an entry of the dictionary is true only for a probe that
    found its tool. *)
Lemma probe_tools_outcome spawn tool w :
  exists o w' k,
    Analyze.probe_tools spawn tool w = (o, w')
    /\ spawned w' = spawned w ++ map probe_cmd (firstn k (probed_tools tool))
    /\ match o with
       | Val d =>
           firstn k (probed_tools tool) = probed_tools tool
           /\ (forall t, In t (probed_tools tool) ->
                exists fs0, forall msg fs',
                    spawn (probe_cmd t) fs0 <> (Raise (OtherException msg), fs'))
           /\ (forall key, Analyze.get_truthy key d = true ->
                exists t fs0,
                  In t (probed_tools tool)
                  /\ reads_as_missing (spawn (probe_cmd t) fs0) = false)
       | Raise e =>
           exists msg t fs0 fs',
             e = OtherException msg /\ In t (probed_tools tool)
             /\ spawn (probe_cmd t) fs0 = (Raise e, fs')
       end.
Proof.
  unfold Analyze.probe_tools, probed_tools.
  set (b1 := Analyze.tool_in tool [Analyze.Cppcheck; Analyze.All]).
  set (b2 := Analyze.tool_in tool [Analyze.ClangTidy; Analyze.All]).
  set (b3 := Analyze.tool_in tool [Analyze.Iwyu; Analyze.All]).
  clearbody b1 b2 b3.
  match goal with
  | |- context [bind (if b1 then bind (Analyze.check_tool _ ?n ?h) _ else _) _ w] =>
      destruct (probe_step_outcome spawn b1 n "cppcheck" h [] w)
        as (o1 & w1 & E1 & S1 & H1)
  end.
  destruct o1 as [d1|e1].
  2:{ rewrite (bind_raise _ _ _ _ _ E1).
      destruct H1 as (-> & msg & fs' & -> & Hr).
      exists (Raise (OtherException msg)), w1, 1.
      split; [reflexivity|]. split; [exact S1|].
      exists msg, "cppcheck"%string, (fs w), fs'.
      split; [reflexivity|]. split; [now left|exact Hr]. }
  rewrite (bind_val _ _ _ _ _ E1).
  match goal with
  | |- context [bind (if b2 then bind (Analyze.check_tool _ ?n ?h) _ else _) _ w1] =>
      destruct (probe_step_outcome spawn b2 n "clang-tidy" h d1 w1)
        as (o2 & w2 & E2 & S2 & H2)
  end.
  destruct o2 as [d2|e2].
  2:{ rewrite (bind_raise _ _ _ _ _ E2).
      destruct H2 as (-> & msg & fs' & -> & Hr).
      exists (Raise (OtherException msg)), w2,
        (length (if b1 then ["cppcheck"%string] else []) + 1).
      split; [reflexivity|]. split.
      - rewrite S2, S1, <- app_assoc. destruct b1; reflexivity.
      - exists msg, "clang-tidy"%string, (fs w1), fs'.
        split; [reflexivity|]. split; [|exact Hr].
        rewrite !in_app_iff. right; left. now left. }
  rewrite (bind_val _ _ _ _ _ E2).
  match goal with
  | |- context [bind (if b3 then bind (Analyze.check_tool _ ?n ?h) _ else _) _ w2] =>
      destruct (probe_step_outcome spawn b3 n "iwyu" h d2 w2)
        as (o3 & w3 & E3 & S3 & H3)
  end.
  destruct o3 as [d3|e3].
  2:{ rewrite (bind_raise _ _ _ _ _ E3).
      destruct H3 as (-> & msg & fs' & -> & Hr).
      exists (Raise (OtherException msg)), w3, 3.
      split; [reflexivity|]. split.
      - rewrite S3, S2, S1, <- !app_assoc. destruct b1, b2; reflexivity.
      - exists msg, "include-what-you-use"%string, (fs w2), fs'.
        split; [reflexivity|]. split; [|exact Hr].
        rewrite !in_app_iff. right; right. now left. }
  rewrite (bind_val _ _ _ _ _ E3).
  exists (Val d3), w3, 3. split; [reflexivity|]. split.
  { rewrite S3, S2, S1, <- !app_assoc. destruct b1, b2, b3; reflexivity. }
  destruct H1 as [-> N1], H2 as [-> N2], H3 as [-> N3].
  split; [destruct b1, b2, b3; reflexivity|]. split.
  - intros t Hin. rewrite !in_app_iff in Hin.
    destruct Hin as [Hin|[Hin|Hin]].
    + destruct b1; [|contradiction]. destruct Hin as [<-|[]].
      exists (fs w). now apply N1.
    + destruct b2; [|contradiction]. destruct Hin as [<-|[]].
      exists (fs w1). now apply N2.
    + destruct b3; [|contradiction]. destruct Hin as [<-|[]].
      exists (fs w2). now apply N3.
  - intros key Hkey.
    assert (Hstep : forall (b : bool) k v (d : Analyze.dict),
               Analyze.get_truthy key (if b then Analyze.dict_set k v d else d) = true ->
               (b = true /\ v = true) \/ Analyze.get_truthy key d = true).
    { intros b k v d. destruct b; [|now right].
      rewrite get_truthy_set. destruct (String.eqb key k); [|now right].
      intros ->. now left. }
    apply (Hstep b3 "iwyu") in Hkey as [[-> Hv]|Hkey].
    { exists "include-what-you-use", (fs w2). rewrite !in_app_iff.
      split; [right; right; now left|]. now apply negb_true_iff. }
    apply (Hstep b2 "clang-tidy") in Hkey as [[-> Hv]|Hkey].
    { exists "clang-tidy", (fs w1). rewrite !in_app_iff.
      split; [right; left; now left|]. now apply negb_true_iff. }
    apply (Hstep b1 "cppcheck") in Hkey as [[-> Hv]|Hkey].
    { exists "cppcheck", (fs w). rewrite !in_app_iff.
      split; [left; now left|]. now apply negb_true_iff. }
    discriminate.
Qed.

(** X2: a probe that fails with an exception other than
    [FileNotFoundError] (a permission error, say) is not caught: when the
    probe of one of the selected tools fails so, the analyzer ends with an
    exception instead of an exit code, having spawned nothing but probes. *)
Theorem analyzer_crashes_on_unexpected_probe_error spawn tool build_dir w t :
  In t (probed_tools tool) ->
  (forall fs0, exists msg fs',
      spawn (probe_cmd t) fs0 = (Raise (OtherException msg), fs')) ->
  exists msg w' k,
    Analyze.main spawn tool build_dir w = (Raise (OtherException msg), w')
    /\ spawned w' = spawned w ++ map probe_cmd (firstn k (probed_tools tool)).
Proof.
  intros Hin Hraise.
  destruct (probe_tools_outcome spawn tool (printed w analysis_header))
    as (o & w' & k & E & Hs & Ho).
  destruct o as [d|e].
  - destruct Ho as (_ & Hno & _). destruct (Hno t Hin) as [fs0 Hne].
    destruct (Hraise fs0) as (msg & fs' & Hr). now apply Hne in Hr.
  - destruct Ho as (msg & _ & _ & _ & -> & _). exists msg, w', k.
    rewrite main_unfold, (bind_raise _ _ _ _ _ E). split; [reflexivity|exact Hs].
Qed.

Lemma run_tools_nothing_found spawn tool build_dir avail w :
  Analyze.get_truthy "cppcheck" avail = false ->
  Analyze.get_truthy "clang-tidy" avail = false ->
  exists w',
    Analyze.run_tools spawn tool build_dir avail w = (Val 0%Z, w')
    /\ spawned w' = spawned w /\ fs w' = fs w.
Proof.
  intros H1 H2. unfold Analyze.run_tools. rewrite H1, H2, !andb_false_r.
  destruct (Analyze.tool_in tool [Analyze.Iwyu; Analyze.All]);
    eexists; (split; [reflexivity|split; reflexivity]).
Qed.

(** X3: when every probe of the selected tools reads as "not installed"
    (executable not found, or a version query that does not exit with 0),
    the analyzer still ends with exit code 0, having spawned the probes of
    the selected tools, in order, and nothing else. *)
Theorem analyzer_exits_zero_when_no_tool_is_found spawn tool build_dir w :
  (forall t fs0, In t (probed_tools tool) ->
                 reads_as_missing (spawn (probe_cmd t) fs0) = true) ->
  let r := Analyze.main spawn tool build_dir w in
  fst r = Val 0%Z
  /\ spawned (snd r) = spawned w ++ map probe_cmd (probed_tools tool).
Proof.
  intros Hmiss r. subst r.
  destruct (probe_tools_outcome spawn tool (printed w analysis_header))
    as (o & w1 & k & E & Hs & Ho).
  rewrite main_unfold.
  destruct o as [d|e].
  - destruct Ho as (Hk & _ & Hd). rewrite Hk in Hs.
    assert (Hfalse : forall key, Analyze.get_truthy key d = false).
    { intros key. destruct (Analyze.get_truthy key d) eqn:Ek; [|reflexivity].
      destruct (Hd key Ek) as (t & fs0 & Hin & Hr).
      rewrite (Hmiss t fs0 Hin) in Hr. discriminate. }
    destruct (run_tools_nothing_found spawn tool build_dir d w1
                (Hfalse _) (Hfalse _)) as (w2 & Er & Hs2 & _).
    rewrite (bind_val _ _ _ _ _ E), Er. split; [reflexivity|].
    cbn [snd]. now rewrite Hs2, Hs.
  - exfalso. destruct Ho as (msg & t & fs0 & fs' & -> & Hin & Hr).
    pose proof (Hmiss t fs0 Hin) as Hm. rewrite Hr in Hm. discriminate.
Qed.

(** ** The clang-tidy runner, file by file *)

(** One turn of the loop of [run_clang_tidy]: the process is spawned, and a
    failure to start it is printed and does not end the loop. *)
Lemma tidy_step_spawned spawn build_dir f issues w :
  exists issues' w1,
    try_except
      (result <- subprocess_run spawn
                   ["clang-tidy"; f; ("-p=" ++ build_dir)%string; "--quiet"] ;;
       if Py.truthy (stdout result) && Py.contains "warning:" (stdout result)
       then print (nl ++ "Issues in " ++ f ++ ":") ;;
            print (stdout result) ;;
            ret (issues + 1)
       else ret issues)
      (fun e => print ("Error analyzing " ++ f ++ ": " ++ exn_str e) ;;
                ret issues) w
    = (Val issues', w1)
    /\ spawned w1 = spawned w ++ [tidy_cmd build_dir f]
    /\ (snd (spawn (tidy_cmd build_dir f) (fs w)) = fs w ->
        fs w1 = fs w
        /\ issues' = issues + (if tidy_warns spawn build_dir (fs w) f then 1 else 0)).
Proof.
  unfold try_except, bind, subprocess_run, print, ret, tidy_warns.
  fold (tidy_cmd build_dir f).
  destruct (spawn (tidy_cmd build_dir f) (fs w)) as [[result|e] fs'].
  - destruct (Py.truthy (stdout result) && Py.contains "warning:" (stdout result));
      eexists _, _; (split; [reflexivity|split; [reflexivity|]]);
      cbn [snd fs]; intros ->; split; (reflexivity || lia).
  - eexists _, _. split; [reflexivity|split; [reflexivity|]].
    cbn [snd fs]. intros ->. split; [reflexivity|lia].
Qed.

Lemma tidy_loop_spawned spawn build_dir files : forall issues w,
  exists issues' w',
    for_fold files issues
      (fun source_file issues_found =>
         let cmd := ["clang-tidy"; source_file; ("-p=" ++ build_dir)%string; "--quiet"] in
         try_except
           (result <- subprocess_run spawn cmd ;;
            if Py.truthy (stdout result)
               && Py.contains "warning:" (stdout result)
            then print (nl ++ "Issues in " ++ source_file ++ ":") ;;
                 print (stdout result) ;;
                 ret (issues_found + 1)
            else ret issues_found)
           (fun e =>
              print ("Error analyzing " ++ source_file ++ ": " ++ exn_str e) ;;
              ret issues_found)) w
    = (Val issues', w')
    /\ spawned w' = spawned w ++ map (tidy_cmd build_dir) files
    /\ ((forall f fs0, snd (spawn (tidy_cmd build_dir f) fs0) = fs0) ->
        fs w' = fs w
        /\ issues' = issues
                     + length (filter (tidy_warns spawn build_dir (fs w)) files)).
Proof.
  induction files as [|f files IH]; intros issues w.
  - exists issues, w. split; [reflexivity|]. simpl. rewrite app_nil_r.
    split; [reflexivity|]. intros _. split; [reflexivity|lia].
  - destruct (tidy_step_spawned spawn build_dir f issues w)
      as (i1 & w1 & E1 & S1 & R1).
    destruct (IH i1 w1) as (i2 & w2 & E2 & S2 & R2).
    exists i2, w2. cbn [for_fold]. cbv zeta.
    rewrite (bind_val _ _ _ _ _ E1). split; [exact E2|]. split.
    + rewrite S2, S1, <- app_assoc. reflexivity.
    + intros Hro. destruct (R1 (Hro f (fs w))) as [F1 C1].
      destruct (R2 Hro) as [F2 C2]. split; [congruence|].
      rewrite C2, C1, F1. cbn [filter].
      destruct (tidy_warns spawn build_dir (fs w) f); simpl; lia.
Qed.


Lemma tidy_loop_run spawn build_dir files w :
  exists issues w',
    Analyze.tidy_loop spawn build_dir files w = (Val issues, w')
    /\ spawned w' = spawned w ++ map (tidy_cmd build_dir) files
    /\ ((forall f fs0, snd (spawn (tidy_cmd build_dir f) fs0) = fs0) ->
        fs w' = fs w
        /\ issues = length (filter (tidy_warns spawn build_dir (fs w)) files)).
Proof. exact (tidy_loop_spawned spawn build_dir files 0 w). Qed.

(** What a run of [run_clang_tidy] with the compilation database in place
    amounts to: the loop over the files enumerated at the start, then the
    summary. *)
Lemma run_clang_tidy_run spawn build_dir w :
  OsPath.exists_ (fs w) (OsPath.join build_dir "compile_commands.json") = true ->
  let files := Analyze.tidy_source_files (fs w) in
  match files with
  | [] =>
      Analyze.run_clang_tidy spawn build_dir w
      = (Val 0%Z, printed w (tidy_banner ++ ["No source files found!"%string]))
  | _ :: _ =>
      exists issues w',
        Analyze.tidy_loop spawn build_dir files
          (printed w (tidy_banner
                        ++ [("Analyzing " ++ Py.str_of_nat (length files)
                                          ++ " source files...")%string]))
        = (Val issues, w')
        /\ Analyze.run_clang_tidy spawn build_dir w
           = (Val 0%Z, printed w' [tidy_summary issues])
  end.
Proof.
  intros Hdb files.
  assert (Hrun : Analyze.run_clang_tidy spawn build_dir w
                 = match files with
                   | [] => (print "No source files found!" ;; ret 0%Z)
                             (printed w tidy_banner)
                   | _ :: _ =>
                       (issues_found <- Analyze.tidy_loop spawn build_dir files ;;
                        print (tidy_summary issues_found) ;; ret 0%Z)
                         (printed w (tidy_banner
                            ++ [("Analyzing " ++ Py.str_of_nat (length files)
                                              ++ " source files...")%string]))
                   end).
  { unfold Analyze.run_clang_tidy.
    repeat (rewrite (bind_val _ _ _ _ _ (print_run _ _))).
    unfold bind at 1, get_fs at 1. cbn [fs printed].
    rewrite Hdb. cbn [negb]. fold files.
    assert (Hb : printed (printed (printed w [(nl ++ rule60)%string])
                            ["Running clang-tidy..."%string]) [rule60]
                 = printed w tidy_banner).
    { unfold printed, tidy_banner. cbn [fs console spawned].
      now rewrite <- !app_assoc. }
    rewrite Hb. destruct files as [|f fl]; [reflexivity|].
    rewrite (bind_val _ _ _ _ _ (print_run _ _)).
    assert (Hp : printed (printed w tidy_banner)
                   [("Analyzing " ++ Py.str_of_nat (length (f :: fl))
                                  ++ " source files...")%string]
                 = printed w (tidy_banner
                      ++ [("Analyzing " ++ Py.str_of_nat (length (f :: fl))
                                        ++ " source files...")%string])).
    { unfold printed. cbn [fs console spawned]. now rewrite <- !app_assoc. }
    rewrite Hp. unfold bind. 
    destruct (Analyze.tidy_loop spawn build_dir (f :: fl) _) as [[issues|e] w'];
      [|reflexivity].
    unfold tidy_summary. destruct (Nat.eqb issues 0); reflexivity. }
  destruct files as [|f fl] eqn:Ef.
  - rewrite Hrun. unfold bind, print, ret, printed. cbn [fs console spawned].
    now rewrite <- !app_assoc.
  - match type of Hrun with
    | context [bind (Analyze.tidy_loop ?s ?b ?l) _ ?w0] =>
        destruct (tidy_loop_returns s b l w0) as (issues & w' & El)
    end.
    exists issues, w'. split; [exact El|].
    rewrite Hrun, (bind_val _ _ _ _ _ El). reflexivity.
Qed.

(** X5: [run_clang_tidy] spawns one clang-tidy process for each source
    file enumerated when it starts, in the order of the enumeration, with
    the build directory as [-p=]; no outcome of a process (warnings, a
    failure to start) ends the loop early.  Without the compilation database
    it spawns nothing. *)
Theorem clang_tidy_one_process_per_source_file spawn build_dir w :
  spawned (snd (Analyze.run_clang_tidy spawn build_dir w))
  = spawned w
      ++ (if OsPath.exists_ (fs w) (OsPath.join build_dir "compile_commands.json")
          then map (tidy_cmd build_dir) (Analyze.tidy_source_files (fs w))
          else []).
Proof.
  destruct (OsPath.exists_ (fs w) (OsPath.join build_dir "compile_commands.json"))
    eqn:Hdb.
  - pose proof (run_clang_tidy_run spawn build_dir w Hdb) as H. cbv zeta in H.
    destruct (Analyze.tidy_source_files (fs w)) as [|f fl] eqn:Ef.
    + rewrite H. simpl. now rewrite app_nil_r.
    + destruct H as (issues & w' & El & ->).
      match type of El with
      | Analyze.tidy_loop _ _ _ ?w0 = _ =>
          destruct (tidy_loop_run spawn build_dir (f :: fl) w0)
            as (i' & w'' & El' & Hs & _)
      end.
      rewrite El in El'. injection El' as <- <-. exact Hs.
  - rewrite (missing_compile_commands_runner spawn build_dir w Hdb).
    simpl. now rewrite app_nil_r.
Qed.

(** X6: with the compilation database in place and a clang-tidy that writes
    no file, the closing line of [run_clang_tidy] gives the number of
    enumerated files for which the process completed with [warning:] in its
    standard output, or says that there are no issues when that number is
    0: output without [warning:] and processes that could not be started do
    not count. *)
Theorem clang_tidy_summary_counts_files_with_warnings spawn build_dir w :
  OsPath.exists_ (fs w) (OsPath.join build_dir "compile_commands.json") = true ->
  (forall f fs0, snd (spawn (tidy_cmd build_dir f) fs0) = fs0) ->
  let files := Analyze.tidy_source_files (fs w) in
  let w' := snd (Analyze.run_clang_tidy spawn build_dir w) in
  files <> [] ->
  fs w' = fs w
  /\ last (console w') ""%string
     = tidy_summary (length (filter (tidy_warns spawn build_dir (fs w)) files)).
Proof.
  intros Hdb Hro files w' Hne. subst w'.
  pose proof (run_clang_tidy_run spawn build_dir w Hdb) as H. cbv zeta in H.
  fold files in H. destruct files as [|f fl] eqn:Ef; [congruence|].
  destruct H as (issues & w' & El & ->).
  match type of El with
  | Analyze.tidy_loop _ _ _ ?w0 = _ =>
      destruct (tidy_loop_run spawn build_dir (f :: fl) w0)
        as (i' & w'' & El' & _ & Hc)
  end.
  rewrite El in El'. injection El' as <- <-.
  destruct (Hc Hro) as [Hfs ->]. cbn [snd printed console fs].
  split; [exact Hfs|]. now rewrite last_snoc.
Qed.

(** ** One tool at a time, from the command line to the exit code *)

Lemma run_cppcheck_code spawn dirs w :
  let cmd := Analyze.cppcheck_base_cmd ++ filter (OsPath.exists_ (fs w)) dirs in
  fst (Analyze.run_cppcheck spawn dirs w)
  = Val (match spawn cmd (fs w) with
         | (Val result, _) => returncode result
         | (Raise _, _) => 1%Z
         end).
Proof.
  intros cmd.
  unfold Analyze.run_cppcheck, bind, try_except, subprocess_run, get_fs, print, ret.
  cbn [fs console spawned].
  change (Analyze.cppcheck_base_cmd ++ filter _ dirs) with cmd.
  destruct (spawn cmd (fs w)) as [[result|e] fs']; [|reflexivity].
  destruct (Py.truthy (stdout result)), (Py.truthy (stderr result)); reflexivity.
Qed.

Lemma bind_ret_l {A B} (a : A) (k : A -> M B) w : bind (ret a) k w = k a w.
Proof. reflexivity. Qed.

(** A probe that found its tool, as [main] runs it. *)
Lemma check_tool_found spawn name hint w r0 fs1 :
  spawn (probe_cmd name) (fs w) = (Val r0, fs1) ->
  returncode r0 = 0%Z ->
  exists w1, Analyze.check_tool spawn name hint w = (Val true, w1) /\ fs w1 = fs1.
Proof.
  intros Hp Hrc. pose proof (check_tool_cases spawn name hint w) as H.
  rewrite Hp, Hrc in H. cbn [Z.eqb] in H. eexists. split; [exact H|reflexivity].
Qed.

(** X7: [--tool cppcheck] on a machine whose cppcheck answers the version
    query with 0: the exit code of the analyzer is the exit status of the
    one cppcheck run over the source directories that exist after the
    probe, and 1 when that run cannot be started. *)
Theorem cppcheck_alone_decides_the_exit_code spawn build_dir w r0 fs1 :
  spawn (probe_cmd "cppcheck") (fs w) = (Val r0, fs1) ->
  returncode r0 = 0%Z ->
  let cmd := Analyze.cppcheck_base_cmd
               ++ filter (OsPath.exists_ fs1) Analyze.source_dirs in
  fst (Analyze.main spawn Analyze.Cppcheck build_dir w)
  = Val (match spawn cmd fs1 with
         | (Val result, _) => returncode result
         | (Raise _, _) => 1%Z
         end).
Proof.
  intros Hp Hrc cmd.
  rewrite main_unfold. unfold Analyze.probe_tools.
  cbn [Analyze.tool_in existsb Analyze.tool_eqb orb].
  match goal with
  | |- context [Analyze.check_tool _ _ ?h] =>
      destruct (check_tool_found spawn "cppcheck" h (printed w analysis_header)
                  r0 fs1 Hp Hrc) as (w1 & E & Hfs)
  end.
  match goal with
  | |- fst (bind ?m _ _) = _ =>
      assert (Hprobe : m (printed w analysis_header)
                       = (Val (Analyze.dict_set "cppcheck" true []), w1))
        by (rewrite (bind_val _ _ _ _ _ (bind_val _ _ _ _ _ E)); reflexivity)
  end.
  rewrite (bind_val _ _ _ _ _ Hprobe).
  unfold Analyze.run_tools.
  cbn [Analyze.tool_in existsb Analyze.tool_eqb orb andb].
  change (Analyze.get_truthy "cppcheck" (Analyze.dict_set "cppcheck" true []))
    with true.
  cbn [andb].
  pose proof (run_cppcheck_code spawn Analyze.source_dirs w1) as Hc.
  cbv zeta in Hc. rewrite Hfs in Hc. fold cmd in Hc.
  destruct (Analyze.run_cppcheck spawn Analyze.source_dirs w1) as [o w2] eqn:Er.
  cbn [fst] in Hc. subst o.
  rewrite (bind_val _ _ _ _ _ (bind_val _ _ _ _ _ Er)).
  reflexivity.
Qed.

(** X8: [--tool clang-tidy] on a machine whose clang-tidy answers the
    version query with 0: the exit code of the analyzer is 0 when
    [compile_commands.json] exists under the build directory after the
    probe, and 1 otherwise; the findings of clang-tidy play no part. *)
Theorem clang_tidy_alone_needs_the_compilation_database
        spawn build_dir w r0 fs1 :
  spawn (probe_cmd "clang-tidy") (fs w) = (Val r0, fs1) ->
  returncode r0 = 0%Z ->
  fst (Analyze.main spawn Analyze.ClangTidy build_dir w)
  = Val (if OsPath.exists_ fs1 (OsPath.join build_dir "compile_commands.json")
         then 0%Z else 1%Z).
Proof.
  intros Hp Hrc.
  rewrite main_unfold. unfold Analyze.probe_tools.
  cbn [Analyze.tool_in existsb Analyze.tool_eqb orb].
  match goal with
  | |- context [Analyze.check_tool _ _ ?h] =>
      destruct (check_tool_found spawn "clang-tidy" h (printed w analysis_header)
                  r0 fs1 Hp Hrc) as (w1 & E & Hfs)
  end.
  match goal with
  | |- fst (bind ?m _ _) = _ =>
      assert (Hprobe : m (printed w analysis_header)
                       = (Val (Analyze.dict_set "clang-tidy" true []), w1))
        by (rewrite bind_ret_l;
            rewrite (bind_val _ _ _ _ _ (bind_val _ _ _ _ _ E)); reflexivity)
  end.
  rewrite (bind_val _ _ _ _ _ Hprobe).
  unfold Analyze.run_tools.
  cbn [Analyze.tool_in existsb Analyze.tool_eqb orb andb].
  change (Analyze.get_truthy "clang-tidy" (Analyze.dict_set "clang-tidy" true []))
    with true.
  cbn [andb]. unfold ret at 1. unfold bind at 1.
  rewrite <- Hfs.
  destruct (OsPath.exists_ (fs w1) (OsPath.join build_dir "compile_commands.json"))
    eqn:Hdb.
  - destruct (run_clang_tidy_zero spawn build_dir w1 Hdb) as [w2 Er].
    rewrite (bind_val _ _ _ _ _ (bind_val _ _ _ _ _ Er)). reflexivity.
  - rewrite (bind_val _ _ _ _ _
               (bind_val _ _ _ _ _ (missing_compile_commands_runner spawn build_dir w1 Hdb))).
    reflexivity.
Qed.

(** ** The two enumerations compared *)

Lemma substring_to_end s : forall k m,
  k + m = String.length s ->
  exists a, s = (a ++ String.substring k m s)%string.
Proof.
  induction s as [|c s IH]; intros k m H; simpl in *.
  - exists ""%string. destruct k, m; simpl; reflexivity || lia.
  - destruct k as [|k].
    + exists ""%string. destruct m as [|m]; [lia|]. simpl. f_equal.
      clear IH. assert (Hm : m = String.length s) by lia. subst m.
      clear H. induction s as [|d s IH]; simpl; [reflexivity|]. now rewrite <- IH.
    + destruct (IH k m) as [a Ha]; [lia|]. exists (String c a). simpl. now f_equal.
Qed.

Lemma endswith_inv s suf :
  Py.endswith s suf = true -> exists a, s = (a ++ suf)%string.
Proof.
  unfold Py.endswith.
  destruct (Nat.leb_spec (String.length suf) (String.length s)) as [Hle|];
    [|discriminate].
  intros H. apply String.eqb_eq in H.
  destruct (substring_to_end s (String.length s - String.length suf)
              (String.length suf)) as [a Ha]; [lia|].
  exists a. now rewrite H in Ha.
Qed.

Lemma endswith_self s : Py.endswith s s = true.
Proof.
  unfold Py.endswith. rewrite Nat.leb_refl, Nat.sub_diag.
  apply String.eqb_eq.
  induction s as [|c s IH]; simpl; [reflexivity|]. now rewrite IH.
Qed.

Lemma append_split (a x b y : string) :
  (a ++ x = b ++ y)%string ->
  (exists c, b = (a ++ c)%string /\ x = (c ++ y)%string)
  \/ (exists c, a = (b ++ c)%string /\ y = (c ++ x)%string).
Proof.
  revert b. induction a as [|ca a IH]; intros b H; simpl in H.
  - left. now exists b.
  - destruct b as [|cb b]; simpl in H.
    + right. exists (String ca a). now split.
    + injection H as -> H. destruct (IH b H) as [(c & -> & ->)|(c & -> & ->)].
      * left. now exists c.
      * right. now exists c.
Qed.

Lemma no_sep_append a b : no_sep (a ++ b) = no_sep a && no_sep b.
Proof.
  induction a as [|c a IH]; simpl; [reflexivity|].
  now rewrite IH, andb_assoc.
Qed.

(** A suffix without [/] of a path lies in the last name of the path. *)
Lemma endswith_last_name pre f ext :
  no_sep ext = true ->
  Py.endswith (pre ++ "/" ++ f) ext = true -> Py.endswith f ext = true.
Proof.
  intros Hns H. apply endswith_inv in H as [a Ha].
  symmetry in Ha.
  destruct (append_split a ext pre ("/" ++ f)%string Ha)
    as [(c & -> & ->)|(c & -> & Hf)].
  - rewrite no_sep_append in Hns. apply andb_true_iff in Hns as [_ Hns].
    simpl in Hns. discriminate.
  - destruct c as [|c0 c]; simpl in Hf.
    + subst ext. simpl in Hns. discriminate.
    + injection Hf as _ ->. apply endswith_append, endswith_self.
Qed.

Lemma with_sep_shape top :
  Py.truthy top = true -> exists pre, with_sep top = (pre ++ "/")%string.
Proof.
  intros Ht. unfold with_sep.
  destruct (OsPath.ends_with_sep top) eqn:E; [|now exists top].
  destruct (ends_with_sep_inv top E) as [t ->]. exists t. reflexivity.
Qed.

(** Below a directory, a path ends with an extension exactly when its last
    name does. *)
Lemma has_ext_join exts top f :
  Py.truthy top = true -> valid_name f = true ->
  forallb no_sep exts = true ->
  has_ext exts (OsPath.join top f) = has_ext exts f.
Proof.
  intros Ht Hf Hexts. rewrite join_valid by assumption.
  destruct (with_sep_shape top Ht) as [pre ->].
  rewrite append_assoc'.
  destruct (has_ext exts f) eqn:E.
  - do 2 apply has_ext_append. exact E.
  - unfold has_ext in *.
    destruct (existsb (Py.endswith (pre ++ "/" ++ f)) exts) eqn:E'; [|reflexivity].
    apply existsb_exists in E' as (ext & Hin & He).
    rewrite forallb_forall in Hexts.
    apply endswith_last_name in He; [|now apply Hexts].
    assert (existsb (Py.endswith f) exts = true)
      by (apply existsb_exists; eauto).
    congruence.
Qed.

Lemma tidy_exts_are_format_exts f :
  has_ext [".cpp"; ".cc"; ".cxx"] f = true -> has_ext Format.extensions f = true.
Proof.
  unfold has_ext, Format.extensions. rewrite !existsb_exists.
  intros (ext & Hin & H). exists ext. split; [|exact H].
  simpl in *. tauto.
Qed.

(** In a well-formed tree, a path the walk returns ends with an extension
    exactly when the name of its entry does. *)
Lemma has_ext_walk_path exts fs top n ds f :
  Py.truthy top = true -> wf_node n = true -> listed_file fs top n ds f ->
  forallb no_sep exts = true ->
  has_ext exts (join_all top (ds ++ [f])) = has_ext exts f.
Proof.
  intros Ht Hwf Hat Hexts.
  pose proof (listed_file_valid fs top n ds f Hwf Hat) as Hv.
  rewrite forallb_app in Hv. apply andb_true_iff in Hv as [Hds Hf].
  simpl in Hf. rewrite andb_true_r in Hf.
  rewrite join_all_snoc. apply has_ext_join; [|assumption|assumption].
  clear Hat. revert top Ht. induction ds as [|d ds IH]; intros top Ht; [exact Ht|].
  simpl in Hds. apply andb_true_iff in Hds as [Hd Hds].
  change (join_all top (d :: ds)) with (join_all (OsPath.join top d) ds).
  apply IH; [assumption|]. now apply join_valid_truthy.
Qed.

(** X9: in a well-formed tree, the files [run_clang_tidy] analyses are the
    files [find_source_files(".")] returns whose path ends with [.cpp],
    [.cc] or [.cxx]: headers and [.c] files are formatted and not
    analysed. *)
Theorem clang_tidy_analyses_the_formatters_cxx_files fs p :
  wf_fs fs = true ->
  (In p (Analyze.tidy_source_files fs)
   <-> In p (Format.find_source_files fs ".")
       /\ has_ext [".cpp"; ".cc"; ".cxx"] p = true).
Proof.
  intros Hwf. rewrite tidy_source_files_walk, find_source_files_walk.
  destruct (OsPath.resolve fs ".") as [n|] eqn:En; [|simpl; tauto].
  pose proof (resolve_wf fs "." n Hwf En) as Hn.
  split.
  - intros Hin.
    destruct (walk_sound _ fs n Hn "." p Hin) as (ds & f & -> & Hat & Hex & Hext).
    split.
    + apply walk_complete; [assumption|assumption|].
      now apply tidy_exts_are_format_exts.
    + rewrite (has_ext_walk_path _ fs "." n ds f); auto.
  - intros [Hin Hp].
    destruct (walk_sound _ fs n Hn "." p Hin) as (ds & f & -> & Hat & Hex & _).
    apply walk_complete; [assumption|assumption|].
    rewrite (has_ext_walk_path _ fs "." n ds f) in Hp; auto.
Qed.

(** ** The formatter, file by file *)

(** X10: when the version query of clang-format fails with an exception
    other than [FileNotFoundError], the formatter ends with that exception,
    in either mode, after that one spawn and without printing a line. *)
Theorem formatter_crashes_on_unexpected_probe_error
        spawn check directory w msg fs' :
  spawn version_cmd (fs w) = (Raise (OtherException msg), fs') ->
  Format.main spawn check directory w
  = (Raise (OtherException msg),
     mkWorld fs' (console w) (spawned w ++ [version_cmd])).
Proof.
  intros H. pose proof (check_clang_format_cases spawn w) as Hc.
  rewrite H in Hc. unfold Format.main. now rewrite (bind_raise _ _ _ _ _ Hc).
Qed.

(** [format_file] as a function of what the process did. *)
Lemma format_file_run spawn f dry w :
  Format.format_file spawn f dry w
  = match spawn (format_cmd f dry) (fs w) with
    | (Val result, fs') =>
        (Val (if dry then negb (returncode result =? 0)%Z
              else (returncode result =? 0)%Z),
         mkWorld fs' (console w) (spawned w ++ [format_cmd f dry]))
    | (Raise e, fs') =>
        (Val false,
         mkWorld fs'
                 (console w ++ [("Error formatting " ++ f ++ ": " ++ exn_str e)%string])
                 (spawned w ++ [format_cmd f dry]))
    end.
Proof.
  unfold Format.format_file, try_except, bind, subprocess_run, print, ret.
  destruct dry; cbn [format_cmd]; unfold dry_run_cmd, in_place_cmd;
    match goal with
    | |- context [spawn ?c (fs w)] => destruct (spawn c (fs w)) as [[result|e] fs']
    end; reflexivity.
Qed.

(** X11: [format_file] lets no exception out: when the process cannot be
    started, it prints the error and returns [False], in both modes.  In
    check mode [False] means "no formatting needed", so the loop reports the
    file as OK; in apply mode it reports an error for it. *)
Theorem format_file_reports_exceptions_as_false spawn f dry w e fs' :
  spawn (format_cmd f dry) (fs w) = (Raise e, fs') ->
  let line := ("Error formatting " ++ f ++ ": " ++ exn_str e)%string in
  Format.format_file spawn f dry w
  = (Val false,
     mkWorld fs' (console w ++ [line]) (spawned w ++ [format_cmd f dry]))
  /\ (dry = true ->
      Format.check_loop spawn [f] w
      = (Val [],
         mkWorld fs' (console w ++ [line; ("  OK: " ++ f)%string])
                 (spawned w ++ [dry_run_cmd f])))
  /\ (dry = false ->
      Format.apply_loop spawn [f] w
      = (Val 0,
         mkWorld fs' (console w ++ [line; ("  ERROR: " ++ f)%string])
                 (spawned w ++ [in_place_cmd f]))).
Proof.
  intros H line.
  assert (E : Format.format_file spawn f dry w
              = (Val false,
                 mkWorld fs' (console w ++ [line]) (spawned w ++ [format_cmd f dry])))
    by (rewrite format_file_run, H; reflexivity).
  split; [exact E|]. split; intros ->.
  - unfold Format.check_loop. cbn [for_fold].
    rewrite (bind_val _ _ _ _ _ (bind_val _ _ _ _ _ E)).
    unfold bind, print, ret. cbn [fs console spawned format_cmd].
    now rewrite <- app_assoc.
  - unfold Format.apply_loop. cbn [for_fold].
    rewrite (bind_val _ _ _ _ _ (bind_val _ _ _ _ _ E)).
    unfold bind, print, ret. cbn [fs console spawned format_cmd].
    now rewrite <- app_assoc.
Qed.

(** One turn of the loop of apply mode. *)
Lemma apply_step_run spawn f count w :
  exists w1,
    (ok <- Format.format_file spawn f false ;;
     if ok
     then print ("  FORMATTED: " ++ f) ;; ret (count + 1)
     else print ("  ERROR: " ++ f) ;; ret count) w
    = (Val (count + if formats_in_place spawn (fs w) f then 1 else 0), w1)
    /\ spawned w1 = spawned w ++ [in_place_cmd f]
    /\ fs w1 = snd (spawn (in_place_cmd f) (fs w)).
Proof.
  unfold bind at 1. rewrite format_file_run. unfold formats_in_place.
  cbn [format_cmd].
  destruct (spawn (in_place_cmd f) (fs w)) as [[result|e] fs'].
  - destruct (returncode result =? 0)%Z; eexists;
      (split; [unfold bind, print, ret; rewrite ?Nat.add_0_r; reflexivity|]);
      split; reflexivity.
  - eexists. split; [unfold bind, print, ret; rewrite ?Nat.add_0_r; reflexivity|].
    split; reflexivity.
Qed.

Lemma apply_loop_run spawn files : forall count w,
  exists k w',
    for_fold files count
      (fun file_path formatted_count =>
         ok <- Format.format_file spawn file_path false ;;
         if ok
         then print ("  FORMATTED: " ++ file_path) ;;
              ret (formatted_count + 1)
         else print ("  ERROR: " ++ file_path) ;;
              ret formatted_count) w
    = (Val (count + k), w')
    /\ spawned w' = spawned w ++ map in_place_cmd files
    /\ k <= length files
    /\ ((forall f fs0, In f files -> formats_in_place spawn fs0 f = true) ->
        k = length files)
    /\ ((exists f, In f files /\ forall fs0, formats_in_place spawn fs0 f = false) ->
        k < length files).
Proof.
  induction files as [|f files IH]; intros count w.
  - exists 0, w. simpl. rewrite Nat.add_0_r, app_nil_r.
    repeat split; try lia. intros (f & [] & _).
  - destruct (apply_step_run spawn f count w) as (w1 & E1 & S1 & _).
    destruct (IH (count + if formats_in_place spawn (fs w) f then 1 else 0) w1)
      as (k & w' & E & S & Hle & Hall & Hsome).
    exists ((if formats_in_place spawn (fs w) f then 1 else 0) + k), w'.
    cbn [for_fold]. rewrite (bind_val _ _ _ _ _ E1), E.
    split; [now rewrite Nat.add_assoc|].
    split; [rewrite S, S1, <- app_assoc; reflexivity|].
    cbn [length]. split; [destruct (formats_in_place spawn (fs w) f); lia|].
    split.
    + intros Hok. rewrite (Hok f (fs w) (or_introl eq_refl)).
      rewrite Hall; [reflexivity|]. intros; apply Hok; now right.
    + intros (f' & [<-|Hin] & Hbad).
      * rewrite Hbad. lia.
      * assert (k < length files) by (apply Hsome; eauto).
        destruct (formats_in_place spawn (fs w) f); lia.
Qed.

(** Apply mode once clang-format is there and files were found: the loop,
    then the summary. *)
Lemma apply_mode_run spawn directory w w1 :
  Format.check_clang_format spawn w = (Val true, w1) ->
  let files := Format.find_source_files (fs w1) directory in
  files <> [] ->
  exists w2 k w3,
    fs w2 = fs w1 /\ spawned w2 = spawned w1
    /\ Format.apply_loop spawn files w2 = (Val k, w3)
    /\ Format.main spawn false directory w
       = (Val 0%Z, printed w3 [apply_summary k (length files)]).
Proof.
  intros Hp files Hne. unfold Format.main.
  rewrite (bind_val _ _ _ _ _ Hp). cbn [negb].
  unfold bind at 1, get_fs at 1.
  rewrite (bind_val _ _ _ _ _ (print_run _ _)). fold files.
  destruct files as [|f fl] eqn:Ef; [congruence|].
  rewrite !(bind_val _ _ _ _ _ (print_run _ _)).
  match goal with
  | |- context [bind (Format.apply_loop ?s ?l) _ ?w'] =>
      destruct (apply_loop_returns s l w') as (k & w3 & El);
      exists w', k, w3
  end.
  split; [reflexivity|]. split; [reflexivity|]. split; [exact El|].
  rewrite (bind_val _ _ _ _ _ El). reflexivity.
Qed.

Lemma apply_loop_facts spawn files w :
  exists k w',
    Format.apply_loop spawn files w = (Val k, w')
    /\ spawned w' = spawned w ++ map in_place_cmd files
    /\ k <= length files
    /\ ((forall f fs0, In f files -> formats_in_place spawn fs0 f = true) ->
        k = length files)
    /\ ((exists f, In f files /\ forall fs0, formats_in_place spawn fs0 f = false) ->
        k < length files).
Proof. exact (apply_loop_run spawn files 0 w). Qed.

(** X12: apply mode spawns the version query and then, if clang-format was
    found, one in-place run for each enumerated file, in order, whatever the
    runs do; it never spawns a dry run. *)
Theorem apply_mode_formats_each_file_once spawn directory w :
  let probe := Format.check_clang_format spawn w in
  spawned (snd (Format.main spawn false directory w))
  = spawned w
      ++ version_cmd
         :: match fst probe with
            | Val true =>
                map in_place_cmd
                    (Format.find_source_files (fs (snd probe)) directory)
            | _ => []
            end.
Proof.
  intros probe. pose proof (probe_spawned spawn w) as Hs. fold probe in Hs.
  destruct probe as [[[|]|e] w1] eqn:Ep; cbn [fst snd] in *.
  - destruct (Format.find_source_files (fs w1) directory) as [|f fl] eqn:Ef.
    + unfold Format.main. rewrite (bind_val _ _ _ _ _ Ep). cbn [negb].
      unfold bind at 1, get_fs at 1.
      rewrite (bind_val _ _ _ _ _ (print_run _ _)), Ef.
      cbn [bind print ret snd spawned printed map]. exact Hs.
    + destruct (apply_mode_run spawn directory w w1 Ep) as (w2 & k & w3 & _ & S2 & El & ->).
      { rewrite Ef. discriminate. }
      destruct (apply_loop_facts spawn (Format.find_source_files (fs w1) directory) w2)
        as (k' & w3' & El' & S3 & _).
      rewrite El in El'. injection El' as <- <-.
      cbn [snd printed spawned]. rewrite S3, S2, Hs, Ef, <- app_assoc. reflexivity.
  - unfold Format.main. rewrite (bind_val _ _ _ _ _ Ep). exact Hs.
  - unfold Format.main. rewrite (bind_raise _ _ _ _ _ Ep). exact Hs.
Qed.


(** X14: a [--directory] that does not name an existing directory is no
    error: the enumeration is empty and the formatter prints that no source
    files were found and ends with exit code 0, in check mode too. *)
Theorem formatter_accepts_a_missing_directory spawn check directory w w1 :
  Format.check_clang_format spawn w = (Val true, w1) ->
  (forall es, OsPath.resolve (fs w1) directory <> Some (Dir es)) ->
  Format.find_source_files (fs w1) directory = []
  /\ Format.main spawn check directory w
     = (Val 0%Z,
        printed w1 [("Searching for source files in: "
                       ++ OsPath.abspath (fs w1) directory)%string;
                    "No source files found."%string]).
Proof.
  intros Hp Hdir.
  assert (Hnone : Format.find_source_files (fs w1) directory = []).
  { unfold Format.find_source_files, os_walk.
    destruct (OsPath.resolve (fs w1) directory) as [[c|es|t]|] eqn:E;
      [reflexivity| |reflexivity|reflexivity].
    now destruct (Hdir es). }
  split; [exact Hnone|].
  unfold Format.main. rewrite (bind_val _ _ _ _ _ Hp). cbn [negb].
  unfold bind at 1, get_fs at 1.
  rewrite (bind_val _ _ _ _ _ (print_run _ _)), Hnone.
  unfold bind, print, ret, printed. cbn [fs console spawned].
  now rewrite <- app_assoc.
Qed.

(** ** The further properties at work on the sample machines *)

Section FurtherWitnesses.

Import Examples.

(** On a machine that refuses to start any program the analyzer ends with
    the permission error of its first probe. *)
Lemma analyzer_crashes_on_unexpected_probe_error_witness :
  exists msg w' k,
    Analyze.main permission_denied Analyze.All "build" (start project_fs)
    = (Raise (OtherException msg), w')
    /\ spawned w'
       = spawned (start project_fs)
           ++ map probe_cmd (firstn k (probed_tools Analyze.All)).
Proof.
  apply (analyzer_crashes_on_unexpected_probe_error
           permission_denied Analyze.All "build" (start project_fs) "clang-tidy").
  - simpl. tauto.
  - intros fs0. eexists _, _. reflexivity.
Defined.

(** With nothing installed, [--tool all] ends with 0 after three probes. *)
Lemma analyzer_exits_zero_when_no_tool_is_found_witness :
  let r := Analyze.main nothing_installed Analyze.All "build" (start project_fs) in
  fst r = Val 0%Z
  /\ spawned (snd r)
     = [["cppcheck"; "--version"]; ["clang-tidy"; "--version"];
        ["include-what-you-use"; "--version"]]%string.
Proof.
  apply (analyzer_exits_zero_when_no_tool_is_found
           nothing_installed Analyze.All "build" (start project_fs)).
  intros t fs0 _. reflexivity.
Defined.

(** The sample analysis tools write no file. *)
Lemma analysis_tools_read_only cmd fs0 : snd (analysis_tools cmd fs0) = fs0.
Proof.
  unfold analysis_tools.
  repeat match goal with
         | |- context [match ?x with _ => _ end] => destruct x
         end; reflexivity.
Qed.

(** The sample clang-tidy warns about each of the three [.cpp] files of the
    project. *)
Lemma clang_tidy_summary_counts_files_with_warnings_witness :
  let w' := snd (Analyze.run_clang_tidy analysis_tools "out" (start project_fs)) in
  Analyze.tidy_source_files project_fs
  = ["./a.cpp"; "./SilicaEngine/src/engine.cpp"; "./Fractura/src/game.cpp"]%string
  /\ fs w' = project_fs
  /\ last (console w') ""%string
     = (nl ++ "clang-tidy found issues in 3 files.")%string.
Proof.
  split; [vm_compute; reflexivity|].
  apply (clang_tidy_summary_counts_files_with_warnings
           analysis_tools "out" (start project_fs)).
  - vm_compute. reflexivity.
  - intros f fs0. apply analysis_tools_read_only.
  - vm_compute. discriminate.
Defined.

(** [--tool cppcheck] with the sample cppcheck, which exits with 0. *)
Lemma cppcheck_alone_decides_the_exit_code_witness :
  fst (Analyze.main analysis_tools Analyze.Cppcheck "build" (start project_fs))
  = Val 0%Z.
Proof.
  exact (cppcheck_alone_decides_the_exit_code
           analysis_tools "build" (start project_fs)
           (done 0 "Cppcheck 2.7" "") project_fs eq_refl eq_refl).
Defined.

(** [--tool clang-tidy]: 0 with the database of [out], 1 with [build],
    where there is none. *)
Lemma clang_tidy_alone_needs_the_compilation_database_witness :
  fst (Analyze.main analysis_tools Analyze.ClangTidy "out" (start project_fs))
  = Val 0%Z
  /\ fst (Analyze.main analysis_tools Analyze.ClangTidy "build" (start project_fs))
     = Val 1%Z.
Proof.
  split.
  - exact (clang_tidy_alone_needs_the_compilation_database
             analysis_tools "out" (start project_fs)
             (done 0 "LLVM version 14.0.0" "") project_fs eq_refl eq_refl).
  - exact (clang_tidy_alone_needs_the_compilation_database
             analysis_tools "build" (start project_fs)
             (done 0 "LLVM version 14.0.0" "") project_fs eq_refl eq_refl).
Defined.

(** The formatter on the machine that refuses to start any program. *)
Lemma formatter_crashes_on_unexpected_probe_error_witness :
  Format.main permission_denied true "." (start tidy_fs)
  = (Raise (OtherException "[Errno 13] Permission denied"),
     mkWorld tidy_fs [] [version_cmd]).
Proof.
  exact (formatter_crashes_on_unexpected_probe_error
           permission_denied true "." (start tidy_fs) _ _ eq_refl).
Defined.

(** A dry run that cannot be started: the file is reported as fine. *)
Lemma format_file_reports_exceptions_as_false_witness :
  Format.format_file permission_denied "./a.cpp" true (start tidy_fs)
  = (Val false,
     mkWorld tidy_fs
             ["Error formatting ./a.cpp: [Errno 13] Permission denied"%string]
             [dry_run_cmd "./a.cpp"])
  /\ Format.check_loop permission_denied ["./a.cpp"%string] (start tidy_fs)
     = (Val [],
        mkWorld tidy_fs
                ["Error formatting ./a.cpp: [Errno 13] Permission denied";
                 "  OK: ./a.cpp"]%string
                [dry_run_cmd "./a.cpp"]).
Proof.
  pose proof (format_file_reports_exceptions_as_false
                permission_denied "./a.cpp" true (start tidy_fs) _ _ eq_refl) as H.
  split; [exact (proj1 H)|exact (proj1 (proj2 H) eq_refl)].
Defined.


(** [format.py --directory src] in a checkout without [src]. *)
Lemma formatter_accepts_a_missing_directory_witness :
  Format.find_source_files tidy_fs "src" = []
  /\ fst (Format.main clang_format true "src" (start tidy_fs)) = Val 0%Z
  /\ last (console (snd (Format.main clang_format true "src" (start tidy_fs))))
          ""%string
     = "No source files found."%string.
Proof.
  pose proof (formatter_accepts_a_missing_directory
                clang_format true "src" (start tidy_fs)
                (snd (Format.check_clang_format clang_format (start tidy_fs)))
                eq_refl) as H.
  assert (Hdir : forall es, OsPath.resolve tidy_fs "src" <> Some (Dir es))
    by (intros es; vm_compute; discriminate).
  destruct (H Hdir) as [H1 H2].
  split; [exact H1|]. rewrite H2. split; reflexivity.
Defined.

(** In the project, clang-tidy is given [a.cpp] and not [sub/c.hpp]. *)
Lemma clang_tidy_analyses_the_formatters_cxx_files_witness :
  In "./a.cpp"%string (Analyze.tidy_source_files project_fs)
  /\ (In "./sub/c.hpp"%string (Analyze.tidy_source_files project_fs) -> False).
Proof.
  split.
  - apply (clang_tidy_analyses_the_formatters_cxx_files project_fs "./a.cpp").
    + reflexivity.
    + split; [vm_compute; tauto|reflexivity].
  - intros H.
    apply (clang_tidy_analyses_the_formatters_cxx_files project_fs "./sub/c.hpp")
      in H; [|reflexivity].
    destruct H as [_ H]. vm_compute in H. discriminate.
Defined.

End FurtherWitnesses.
